(** * wandb.sdk.launch.docker: image-build orchestration

    A shallow embedding of [wandb/sdk/launch/docker.py] and the properties
    its specification states about it.

    Python values are modelled as follows.
    - [str] is [string]; a character stands for the code point of the same
      number, so the model covers strings over code points below 256.
    - [dict] (insertion ordered) is an association list; the process-wide
      dictionary [_inspected_images] is a [gmap].
    - [set] of [str] is [gset string], iterated in the order of [elements].
    - Exceptions are the constructors of [exn]; a call that may raise
      returns a [result].
    - Side effects (file system, logging, engine invocations, the inspection
      cache) are threaded through the state monad [M] over [World].
    - Collaborators that live outside this module (the [wandb.docker]
      wrapper, [pkg_resources], [GitRepo], [json.loads], helpers of
      [.utils] and [._project_spec], [sys], [getpass], [tempfile]) are the
      fields of the record [Host]. *)

From Stdlib Require Import String Ascii List ZArith Lia Bool DecimalString.
From stdpp Require Import gmap strings.
Import ListNotations.
Open Scope string_scope.

(** Let [simpl] compute the append of strings, as it does for lists. *)
Arguments String.append !s1 s2 : simpl nomatch.

(** ** Python string operations *)

Module Py.

Definition NL : string := String "010" "".
Definition DQ : string := String "034" "".
Definition BS : string := String "092" "".

Definition code (c : ascii) : nat := nat_of_ascii c.

Definition between (lo hi n : nat) : bool := Nat.leb lo n && Nat.leb n hi.

(** [str.isspace] on one character (code points below 256). *)
Definition isspace (c : ascii) : bool :=
  let n := code c in
  between 9 13 n || between 28 32 n || Nat.eqb n 133 || Nat.eqb n 160.

Definition is_empty (s : string) : bool :=
  match s with EmptyString => true | _ => false end.

(** Python truthiness of a [str] and of an [Optional[str]]. *)
Definition truthy (s : string) : bool := negb (is_empty s).

Definition truthy_opt (o : option string) : bool :=
  match o with Some s => truthy s | None => false end.

(** [o == s] for an [Optional[str]]. *)
Definition opt_eqb (o : option string) (s : string) : bool :=
  match o with Some x => String.eqb x s | None => false end.

Definition snoc (s : string) (c : ascii) : string := s ++ String c "".

(** [s.split()]: split at runs of whitespace, dropping empty tokens.
    [cur] is the token being read. *)
Fixpoint split_from (cur : string) (s : string) : list string :=
  match s with
  | EmptyString => if is_empty cur then [] else [cur]
  | String c s' =>
      if isspace c
      then (if is_empty cur then split_from "" s' else cur :: split_from "" s')
      else split_from (snoc cur c) s'
  end.

Definition split (s : string) : list string := split_from "" s.

(** [s.split(sep)] for a one-character separator. *)
Fixpoint split_sep (sep : ascii) (s : string) : list string :=
  match s with
  | EmptyString => [""]
  | String c s' =>
      if Ascii.eqb c sep then "" :: split_sep sep s'
      else match split_sep sep s' with
           | t :: ts => String c t :: ts
           | [] => [String c ""]
           end
  end.

(** [sep.join(l)]. *)
Definition join (sep : string) (l : list string) : string := String.concat sep l.

(** [s.replace(a, b)] for one-character [a] and [b]. *)
Fixpoint replace_char (a b : ascii) (s : string) : string :=
  match s with
  | EmptyString => ""
  | String c s' => String (if Ascii.eqb c a then b else c) (replace_char a b s')
  end.

(** The slice [s[:n]]. *)
Fixpoint slice_to (n : nat) (s : string) : string :=
  match n, s with
  | S n', String c s' => String c (slice_to n' s')
  | _, _ => ""
  end.

(** The list slice [l[:n]] is [firstn n l]; [l[0]] raises on [[]]. *)

Definition lower_char (c : ascii) : ascii :=
  let n := code c in
  if between 65 90 n || (between 192 222 n && negb (Nat.eqb n 215))
  then ascii_of_nat (n + 32) else c.

(** [s.lower()]. *)
Fixpoint lower (s : string) : string :=
  match s with
  | EmptyString => ""
  | String c s' => String (lower_char c) (lower s')
  end.

(** [str(n)] for an [int]. *)
Definition str_of_int (z : Z) : string := NilZero.string_of_int (Z.to_int z).

(** [needle in s] and [s.count(needle)] for a non-empty needle
    (occurrences may overlap in [count_occ], which never matters for the
    needles used below). *)
Fixpoint contains (needle s : string) : bool :=
  String.prefix needle s ||
  match s with
  | EmptyString => false
  | String _ s' => contains needle s'
  end.

Fixpoint count_occ (needle s : string) : nat :=
  (if String.prefix needle s then 1 else 0) +
  match s with
  | EmptyString => 0
  | String _ s' => count_occ needle s'
  end.

Fixpoint forall_chars (p : ascii -> bool) (s : string) : bool :=
  match s with
  | EmptyString => true
  | String c s' => p c && forall_chars p s'
  end.

(** Values that [docker_args] carries, and [str(value)]. *)
Inductive value :=
| VBool (b : bool)
| VStr (s : string)
| VInt (z : Z)
| VNone.

Definition str (v : value) : string :=
  match v with
  | VBool true => "True"
  | VBool false => "False"
  | VStr s => s
  | VInt z => str_of_int z
  | VNone => "None"
  end.

(** [isinstance(value, bool) and value]. *)
Definition is_true (v : value) : bool :=
  match v with VBool true => true | _ => false end.

End Py.

(** ** [shlex.quote] (imported as [shlex_quote] from [six.moves]) *)

Module Shlex.

(** The characters outside the class [[^\w@%+=:,./-]] under [re.ASCII]. *)
Definition is_safe (c : ascii) : bool :=
  let n := Py.code c in
  Py.between 48 57 n || Py.between 65 90 n || Py.between 97 122 n ||
  Nat.eqb n 95 || Nat.eqb n 64 || Nat.eqb n 37 || Nat.eqb n 43 || Nat.eqb n 61 ||
  Nat.eqb n 58 || Nat.eqb n 44 || Nat.eqb n 46 || Nat.eqb n 47 || Nat.eqb n 45.

(** [s.replace("'", "'\"'\"'")]. *)
Fixpoint escape_quotes (s : string) : string :=
  match s with
  | EmptyString => ""
  | String c s' =>
      (if Ascii.eqb c "'" then "'" ++ Py.DQ ++ "'" ++ Py.DQ ++ "'" else String c "")
      ++ escape_quotes s'
  end.

Definition quote (s : string) : string :=
  if Py.is_empty s then "''"
  else if Py.forall_chars is_safe s then s
  else "'" ++ escape_quotes s ++ "'".

End Shlex.

Definition shlex_quote : string -> string := Shlex.quote.

(** ** JSON values and [json.dumps] *)

Module Json.

(** Parsed JSON; numbers are restricted to integers. *)
#[warnings="-register-all"]
Inductive json :=
| JNull
| JBool (b : bool)
| JInt (z : Z)
| JStr (s : string)
| JArr (l : list json)
| JObj (l : list (string * json)).

Definition hex_digit (n : nat) : ascii :=
  if Nat.ltb n 10 then ascii_of_nat (48 + n) else ascii_of_nat (87 + n).

(** One character under [ensure_ascii=True]: the short escapes, the
    printable range unchanged, everything else as [\u00xx]. *)
Definition escape_char (c : ascii) : string :=
  let n := Py.code c in
  if Nat.eqb n 34 then Py.BS ++ Py.DQ
  else if Nat.eqb n 92 then Py.BS ++ Py.BS
  else if Nat.eqb n 8 then Py.BS ++ "b"
  else if Nat.eqb n 12 then Py.BS ++ "f"
  else if Nat.eqb n 10 then Py.BS ++ "n"
  else if Nat.eqb n 13 then Py.BS ++ "r"
  else if Nat.eqb n 9 then Py.BS ++ "t"
  else if Py.between 32 126 n then String c ""
  else Py.BS ++ "u00" ++ String (hex_digit (n / 16)) (String (hex_digit (n mod 16)) "").

Fixpoint escape (s : string) : string :=
  match s with
  | EmptyString => ""
  | String c s' => escape_char c ++ escape s'
  end.

Definition encode_str (s : string) : string := Py.DQ ++ escape s ++ Py.DQ.

(** [json.dumps(v)] with the default separators [", "] and [": "]. *)
Fixpoint dumps (v : json) : string :=
  match v with
  | JNull => "null"
  | JBool true => "true"
  | JBool false => "false"
  | JInt z => Py.str_of_int z
  | JStr s => encode_str s
  | JArr l =>
      "[" ++
      (fix items (l : list json) : string :=
         match l with
         | [] => ""
         | x :: l' =>
             match l' with
             | [] => dumps x
             | _ :: _ => dumps x ++ ", " ++ items l'
             end
         end) l ++ "]"
  | JObj l =>
      "{" ++
      (fix members (l : list (string * json)) : string :=
         match l with
         | [] => ""
         | (k, x) :: l' =>
             match l' with
             | [] => encode_str k ++ ": " ++ dumps x
             | _ :: _ => encode_str k ++ ": " ++ dumps x ++ ", " ++ members l'
             end
         end) l ++ "}"
  end.

(** [json.dumps] of a list of [str]. *)
Definition dumps_strs (l : list string) : string := dumps (JArr (map JStr l)).

End Json.
Export Json.

(** ** Exceptions and results *)

Inductive exn :=
| DockerError (msg : string)
| LaunchError (msg : string)
| ValueError (msg : string)
| IndexError (msg : string)
| KeyError (msg : string)
| TypeError (msg : string)
| OSError (kind path : string)
| UnboundLocalError (name : string)
| OtherError (msg : string).

(** [str(e)]. *)
Definition exn_str (e : exn) : string :=
  match e with
  | DockerError m | LaunchError m | ValueError m | IndexError m
  | KeyError m | TypeError m | OtherError m => m
  | OSError kind path => kind ++ ": " ++ path
  | UnboundLocalError n => "local variable '" ++ n ++ "' referenced before assignment"
  end.

Inductive result (A : Type) :=
| Ok (a : A)
| Raise (e : exn).
Arguments Ok {A} a.
Arguments Raise {A} e.

Definition result_bind {A B} (r : result A) (f : A -> result B) : result B :=
  match r with Ok a => f a | Raise e => Raise e end.

(** ** A reader for JSON text

    [JsonRead.loads] follows [json.loads] on JSON text whose numbers are
    integers and whose [\u] escapes stay below 256; it is the [json_loads]
    of the concrete hosts below.  Text outside that fragment is reported
    as [ValueError]. *)

Module JsonRead.

Definition is_ws (c : ascii) : bool :=
  let n := Py.code c in
  Nat.eqb n 32 || Nat.eqb n 9 || Nat.eqb n 10 || Nat.eqb n 13.

Fixpoint skip_ws (s : string) : string :=
  match s with
  | String c s' => if is_ws c then skip_ws s' else s
  | EmptyString => ""
  end.

Definition hex_val (c : ascii) : option nat :=
  let n := Py.code c in
  if Py.between 48 57 n then Some (n - 48)
  else if Py.between 97 102 n then Some (n - 87)
  else if Py.between 65 70 n then Some (n - 55)
  else None.

(** The character a one-letter escape stands for. *)
Definition short_escape (e : ascii) : option ascii :=
  let n := Py.code e in
  if Nat.eqb n 34 then Some e
  else if Nat.eqb n 92 then Some e
  else if Nat.eqb n 47 then Some e
  else if Nat.eqb n 98 then Some (ascii_of_nat 8)
  else if Nat.eqb n 102 then Some (ascii_of_nat 12)
  else if Nat.eqb n 110 then Some (ascii_of_nat 10)
  else if Nat.eqb n 114 then Some (ascii_of_nat 13)
  else if Nat.eqb n 116 then Some (ascii_of_nat 9)
  else None.

Definition cons_char (c : ascii) (r : option (string * string)) : option (string * string) :=
  match r with
  | Some (t, rest) => Some (String c t, rest)
  | None => None
  end.

(** The body of a string literal, after its opening quote: the decoded
    text and what follows the closing quote. *)
Fixpoint read_chars (s : string) : option (string * string) :=
  match s with
  | EmptyString => None
  | String c s' =>
      if Nat.eqb (Py.code c) 34 then Some ("", s')
      else if Nat.eqb (Py.code c) 92 then
        match s' with
        | String e s'' =>
            match short_escape e with
            | Some d => cons_char d (read_chars s'')
            | None =>
                if Nat.eqb (Py.code e) 117 then
                  match s'' with
                  | String h1 (String h2 (String h3 (String h4 s3))) =>
                      match hex_val h1, hex_val h2, hex_val h3, hex_val h4 with
                      | Some 0, Some 0, Some a, Some b =>
                          cons_char (ascii_of_nat (16 * a + b)) (read_chars s3)
                      | _, _, _, _ => None
                      end
                  | _ => None
                  end
                else None
            end
        | EmptyString => None
        end
      else if Nat.ltb (Py.code c) 32 then None
      else cons_char c (read_chars s')
  end.

Definition is_digit (c : ascii) : bool := Py.between 48 57 (Py.code c).

(** The slice [s[n:]]. *)
Fixpoint string_drop (n : nat) (s : string) : string :=
  match n, s with
  | S n', String _ s' => string_drop n' s'
  | _, _ => s
  end.

(** A run of digits: its value, how many there were, and the rest. *)
Fixpoint read_digits (acc : Z) (count : nat) (s : string) : Z * nat * string :=
  match s with
  | String c s' =>
      if is_digit c
      then read_digits (10 * acc + Z.of_nat (Py.code c - 48)) (S count) s'
      else (acc, count, s)
  | EmptyString => (acc, count, "")
  end.

Definition starts_fraction (s : string) : bool :=
  match s with
  | String c _ => Ascii.eqb c "." || Ascii.eqb c "e" || Ascii.eqb c "E"
  | EmptyString => false
  end.

Definition read_int (s : string) : option (json * string) :=
  let (neg, body) :=
    match s with
    | String "-" s' => (true, s')
    | _ => (false, s)
    end in
  match read_digits 0 0 body with
  | (z, n, rest) =>
      if Nat.eqb n 0 then None
      else if Nat.ltb 1 n && String.prefix "0" body then None
      else if starts_fraction rest then None
      else Some (JInt (if neg : bool then (- z)%Z else z), rest)
  end.

(** Array items and object members, [pv] reading one value; [n] bounds
    the number of items. *)
Fixpoint read_items (pv : string -> option (json * string)) (n : nat) (s : string)
    : option (list json * string) :=
  match n with
  | O => None
  | S n' =>
      match pv s with
      | Some (v, r) =>
          match skip_ws r with
          | String "," r' =>
              match read_items pv n' r' with
              | Some (vs, r'') => Some (v :: vs, r'')
              | None => None
              end
          | String "]" r' => Some ([v], r')
          | _ => None
          end
      | None => None
      end
  end.

Fixpoint read_members (pv : string -> option (json * string)) (n : nat) (s : string)
    : option (list (string * json) * string) :=
  match n with
  | O => None
  | S n' =>
      match skip_ws s with
      | String c s1 =>
          if Nat.eqb (Py.code c) 34 then
            match read_chars s1 with
            | Some (k, r) =>
                match skip_ws r with
                | String ":" r1 =>
                    match pv r1 with
                    | Some (v, r2) =>
                        match skip_ws r2 with
                        | String "," r3 =>
                            match read_members pv n' r3 with
                            | Some (ms, r4) => Some ((k, v) :: ms, r4)
                            | None => None
                            end
                        | String "}" r3 => Some ([(k, v)], r3)
                        | _ => None
                        end
                    | None => None
                    end
                | _ => None
                end
            | None => None
            end
          else None
      | EmptyString => None
      end
  end.

Fixpoint read_value (fuel : nat) (s : string) : option (json * string) :=
  match fuel with
  | O => None
  | S fuel' =>
      match skip_ws s with
      | EmptyString => None
      | String c s' =>
          if Nat.eqb (Py.code c) 34 then
            match read_chars s' with
            | Some (t, r) => Some (JStr t, r)
            | None => None
            end
          else if Ascii.eqb c "[" then
            match skip_ws s' with
            | String "]" r => Some (JArr [], r)
            | _ =>
                match read_items (read_value fuel') fuel' s' with
                | Some (vs, r) => Some (JArr vs, r)
                | None => None
                end
            end
          else if Ascii.eqb c "{" then
            match skip_ws s' with
            | String "}" r => Some (JObj [], r)
            | _ =>
                match read_members (read_value fuel') fuel' s' with
                | Some (ms, r) => Some (JObj ms, r)
                | None => None
                end
            end
          else if String.prefix "null" (String c s') then
            Some (JNull, string_drop 4 (String c s'))
          else if String.prefix "true" (String c s') then
            Some (JBool true, string_drop 4 (String c s'))
          else if String.prefix "false" (String c s') then
            Some (JBool false, string_drop 5 (String c s'))
          else read_int (String c s')
      end
  end.

Definition loads (s : string) : result json :=
  match read_value (S (String.length s)) s with
  | Some (v, r) =>
      if Py.is_empty (skip_ws r) then Ok v else Raise (ValueError "Extra data")
  | None => Raise (ValueError "Expecting value")
  end.

End JsonRead.

(** ** The world: file system, inspection cache, I/O trace *)

(** What a path names: a regular file that the process may read and
    write, or a directory.  Symbolic links and files the process has no
    permission to open are outside this file system; what is proved
    below about reading, writing and copying is proved for such trees. *)
Inductive node :=
| File (content : string)
| Dir.

(** Every interaction with the outside of the process, in program order. *)
Inductive event :=
| DockerRun (args : list string)
| DockerBuild (tag file context_path : string)
| BuildxProbe
| TermWarn (msg : string)
| LogInfo (msg : string)
| LogWarn (msg : string)
| FsExists (path : string)
| FsRead (path : string)
| FsWrite (path content : string)
| FsRemove (path : string)
| FsMkdtemp (path : string)
| FsCopytree (src dst : string)
| FsCopy (src dst : string)
| GetUser
| GetEuid.

Record World := mkWorld {
  fs : gmap string node;
  inspected_images : gmap string json;   (* the module global [_inspected_images] *)
  trace : list event
}.

Definition set_fs (f : gmap string node) (w : World) : World :=
  mkWorld f (inspected_images w) (trace w).

Definition set_inspected_images (c : gmap string json) (w : World) : World :=
  mkWorld (fs w) c (trace w).

Definition add_event (ev : event) (w : World) : World :=
  mkWorld (fs w) (inspected_images w) (trace w ++ [ev]).

(** The number of engine [docker.run] invocations made so far. *)
Definition is_docker_run (ev : event) : bool :=
  match ev with DockerRun _ => true | _ => false end.

Definition engine_invocations (w : World) : nat :=
  length (filter (fun ev => is_docker_run ev = true) (trace w)).

(** ** The effect monad *)

Definition M (A : Type) : Type := World -> result A * World.

Definition ret {A} (a : A) : M A := fun w => (Ok a, w).

Definition raise {A} (e : exn) : M A := fun w => (Raise e, w).

Definition bind {A B} (m : M A) (k : A -> M B) : M B :=
  fun w =>
    match m w with
    | (Ok a, w') => k a w'
    | (Raise e, w') => (Raise e, w')
    end.

Notation "'let*' x ':=' m 'in' k" := (bind m (fun x => k))
  (at level 10, x pattern, m at level 100, k at level 200).

Definition lift {A} (r : result A) : M A := fun w => (r, w).

Definition emit (ev : event) : M unit := fun w => (Ok tt, add_event ev w).

(** [try: m except <classes handled by handler>: handler e]; an exception
    the handler does not select propagates. *)
Definition try_except {A} (m : M A) (handler : exn -> option (M A)) : M A :=
  fun w =>
    match m w with
    | (Ok a, w') => (Ok a, w')
    | (Raise e, w') =>
        match handler e with
        | Some h => h w'
        | None => (Raise e, w')
        end
    end.

(** ** Project description and collaborators *)

Record requirement := mkRequirement {
  req_name : option string;     (* [pkg.name] when the attribute exists *)
  req_str : string              (* [str(pkg)] *)
}.

Record LaunchProject := mkLaunchProject {
  project_dir : string;
  python_version : option string;
  deps_type : option string;
  docker_image : option string;
  docker_user_id : option Z;
  cuda : bool;
  cuda_version : option string;
  run_id : string;
  image_name : option string;
  target_project : string;
  target_entity : string;
  override_config : json;
  override_artifacts : json;
  override_args : list (string * Py.value)
}.

Record Api := mkApi {
  base_url : string;            (* [api.settings("base_url")] *)
  api_key : string
}.

Record Host := mkHost {
  (* wandb.docker *)
  docker_run : list event -> list string -> result string;
  docker_build : list event -> list string -> string -> string -> result string;
  is_buildx_installed : bool;
  (* json.loads *)
  json_loads : string -> result json;
  (* sys, getpass, os *)
  sys_version : string;
  sys_platform : string;
  getuser : string;
  geteuid : Z;
  (* wandb.sdk.launch.utils *)
  _is_wandb_local_uri : string -> bool;
  _is_wandb_dev_uri : string -> bool;
  sanitize_wandb_api_key : string -> string;
  (* pkg_resources.parse_requirements: what each [next(iter)] gives *)
  parse_requirements : string -> list (result requirement);
  (* GitRepo(work_dir).last_commit *)
  last_commit : string -> option string;
  (* tempfile.mkdtemp: the name it picks *)
  mkdtemp_name : gmap string node -> string;
  (* os.path.dirname(__file__) *)
  module_dir : string;
  (* wandb.sdk.launch._project_spec *)
  get_entry_point_command : string -> list (string * Py.value) -> list string;
  create_metadata_file :
    LaunchProject -> string -> string -> option (list (string * Py.value)) -> string -> M unit
}.

(** ** File-system operations ([os], [os.path], [shutil], [tempfile]) *)

Module Os.

Definition is_slash (c : ascii) : bool := Ascii.eqb c "/".

Fixpoint ends_with_slash (s : string) : bool :=
  match s with
  | EmptyString => false
  | String c EmptyString => is_slash c
  | String _ s' => ends_with_slash s'
  end.

(** [os.path.join(a, b)] (posix). *)
Definition path_join (a b : string) : string :=
  if String.prefix "/" b then b
  else if Py.is_empty a || ends_with_slash a then a ++ b
  else a ++ "/" ++ b.

(** [(p[:i], p[i:])] for [i = p.rfind("/") + 1]. *)
Fixpoint rsplit_slash (p : string) : string * string :=
  match p with
  | EmptyString => ("", "")
  | String c p' =>
      let (h, t) := rsplit_slash p' in
      if Py.is_empty h
      then (if is_slash c then (String c "", p') else ("", String c t))
      else (String c h, t)
  end.

(** [s.rstrip("/")]. *)
Fixpoint rstrip_slash (s : string) : string :=
  match s with
  | EmptyString => ""
  | String c s' =>
      let r := rstrip_slash s' in
      if Py.is_empty r && is_slash c then "" else String c r
  end.

Definition dirname (p : string) : string :=
  let h := fst (rsplit_slash p) in
  let r := rstrip_slash h in
  if Py.is_empty r then h else r.

Definition basename (p : string) : string := snd (rsplit_slash p).

(** The directory a new entry [p] is created in exists; the current
    directory and the root always do. *)
Definition parent_ok (f : gmap string node) (p : string) : bool :=
  let d := dirname p in
  Py.forall_chars is_slash d ||
  match f !! d with Some Dir => true | _ => false end.

(** [os.path.exists(p)]. *)
Definition path_exists (p : string) : M bool :=
  fun w => (Ok (bool_decide (is_Some (fs w !! p))), add_event (FsExists p) w).

(** [open(p).read()]. *)
Definition read_file (p : string) : M string :=
  fun w =>
    let w := add_event (FsRead p) w in
    match fs w !! p with
    | Some (File c) => (Ok c, w)
    | Some Dir => (Raise (OSError "IsADirectoryError" p), w)
    | None => (Raise (OSError "FileNotFoundError" p), w)
    end.

(** [with open(p, "w") as fp: fp.write(content)]. *)
Definition write_file (p content : string) : M unit :=
  fun w =>
    let w := add_event (FsWrite p content) w in
    match fs w !! p with
    | Some Dir => (Raise (OSError "IsADirectoryError" p), w)
    | _ =>
        if parent_ok (fs w) p
        then (Ok tt, set_fs (<[p := File content]> (fs w)) w)
        else (Raise (OSError "FileNotFoundError" p), w)
    end.

(** [os.remove(p)]: removes a file, never a directory. *)
Definition remove (p : string) : M unit :=
  fun w =>
    let w := add_event (FsRemove p) w in
    match fs w !! p with
    | Some (File _) => (Ok tt, set_fs (delete p (fs w)) w)
    | Some Dir => (Raise (OSError "IsADirectoryError" p), w)
    | None => (Raise (OSError "FileNotFoundError" p), w)
    end.

(** [tempfile.mkdtemp()]; [name] is the fresh name the library picks. *)
Definition mkdtemp (name : gmap string node -> string) : M string :=
  fun w =>
    let d := name (fs w) in
    let w := add_event (FsMkdtemp d) w in
    match fs w !! d with
    | Some _ => (Raise (OSError "FileExistsError" d), w)
    | None =>
        if parent_ok (fs w) d
        then (Ok d, set_fs (<[d := Dir]> (fs w)) w)
        else (Raise (OSError "FileNotFoundError" d), w)
    end.

Fixpoint strip_prefix (p s : string) : option string :=
  match p, s with
  | EmptyString, _ => Some s
  | String a p', String b s' => if Ascii.eqb a b then strip_prefix p' s' else None
  | _, _ => None
  end.

Definition dir_prefix (d : string) : string :=
  if ends_with_slash d then d else d ++ "/".

(** The entries below [src], re-rooted at [dst], added to [acc]. *)
Definition copy_entry (src dst : string) (p : string) (n : node)
    (acc : gmap string node) : gmap string node :=
  match strip_prefix (dir_prefix src) p with
  | Some rest => if Py.is_empty rest then acc else <[dir_prefix dst ++ rest := n]> acc
  | None => acc
  end.

(** [shutil.copytree(src, dst, symlinks=True)] (links are not modelled,
    so this is a plain recursive copy). *)
Definition copytree (src dst : string) : M unit :=
  fun w =>
    let w := add_event (FsCopytree src dst) w in
    match fs w !! src with
    | Some Dir =>
        match fs w !! dst with
        | Some _ => (Raise (OSError "FileExistsError" dst), w)
        | None =>
            (Ok tt,
             set_fs (map_fold (copy_entry src dst) (<[dst := Dir]> (fs w)) (fs w)) w)
        end
    | Some (File _) => (Raise (OSError "NotADirectoryError" src), w)
    | None => (Raise (OSError "FileNotFoundError" src), w)
    end.

(** [shutil.copy(src, dst)]. *)
Definition copy (src dst : string) : M unit :=
  fun w =>
    let w := add_event (FsCopy src dst) w in
    let target :=
      match fs w !! dst with
      | Some Dir => path_join dst (basename src)
      | _ => dst
      end in
    match fs w !! src with
    | Some (File c) =>
        match fs w !! target with
        | Some Dir => (Raise (OSError "IsADirectoryError" target), w)
        | _ =>
            if parent_ok (fs w) target
            then (Ok tt, set_fs (<[target := File c]> (fs w)) w)
            else (Raise (OSError "FileNotFoundError" target), w)
        end
    | Some Dir => (Raise (OSError "IsADirectoryError" src), w)
    | None => (Raise (OSError "FileNotFoundError" src), w)
    end.

End Os.

(** ** docker.py: constants and templates *)

Import Py Os.

(** A block of text: every line followed by a newline. *)
Definition unlines (l : list string) : string :=
  String.concat "" (map (fun x => x ++ NL) l).

Definition _GENERATED_DOCKERFILE_NAME : string := "Dockerfile.wandb-autogenerated".

Definition DEFAULT_CUDA_VERSION : string := "10.0".

Definition ENV_PATH_LINE : string := "ENV PATH=" ++ DQ ++ "/env/bin:$PATH" ++ DQ.

Definition DOCKERFILE_TEMPLATE
    (py_build_image requirements_section base_setup user_setup workdir uid
     entrypoint_setup : string) : string :=
  unlines [
    "";
    "# ----- stage 1: build -----";
    "FROM " ++ py_build_image ++ " as build";
    "";
    "# requirements section depends on pip vs conda, and presence of buildx";
    requirements_section;
    "";
    "# ----- stage 2: base -----";
    base_setup;
    "";
    "COPY --from=build /env /env";
    ENV_PATH_LINE;
    "";
    "ENV SHELL /bin/bash";
    "";
    "# some resources (eg sagemaker) must run on root";
    user_setup;
    "";
    "WORKDIR " ++ workdir;
    "RUN chown -R " ++ uid ++ " " ++ workdir;
    "";
    "# make artifacts cache dir unrelated to build";
    "RUN mkdir -p " ++ workdir ++ "/.cache && chown -R " ++ uid ++ " " ++ workdir ++ "/.cache";
    "";
    "# copy code/etc";
    "COPY --chown=" ++ uid ++ " src/ " ++ workdir;
    "";
    "ENV PYTHONUNBUFFERED=1";
    "";
    "# some resources (eg sagemaker) have unique entrypoint requirements";
    entrypoint_setup
  ].

Definition PYTHON_SETUP_TEMPLATE (py_base_image : string) : string :=
  unlines [ ""; "FROM " ++ py_base_image ++ " as base" ].

(** A backslash at the end of a source line of the template joins the
    next line to it, so each [RUN] below is one line of the text. *)
Definition CUDA_SETUP_TEMPLATE (cuda_base_image python_packages py_version : string)
    : string :=
  unlines [
    "";
    "FROM " ++ cuda_base_image ++ " as base";
    "RUN apt-get update -qq && apt-get install -y software-properties-common && add-apt-repository -y ppa:deadsnakes/ppa";
    "";
    "# install python";
    "RUN apt-get update -qq && apt-get install --no-install-recommends -y     "
      ++ python_packages
      ++ "     && apt-get -qq purge && apt-get -qq clean     && rm -rf /var/lib/apt/lists/*";
    "";
    "# make sure `python` points at the right version";
    "RUN update-alternatives --install /usr/bin/python python /usr/bin/python"
      ++ py_version
      ++ " 1     && update-alternatives --install /usr/local/bin/python python /usr/bin/python"
      ++ py_version ++ " 1"
  ].

Definition PIP_TEMPLATE (requirements_files buildx_optional_prefix pip_install : string)
    : string :=
  unlines [
    "";
    "RUN python -m venv /env";
    "# make sure we install into the env";
    ENV_PATH_LINE;
    "COPY " ++ requirements_files ++ " .";
    buildx_optional_prefix ++ " " ++ pip_install
  ].

Definition CONDA_TEMPLATE (buildx_optional_prefix : string) : string :=
  unlines [
    "";
    "COPY src/environment.yml .";
    buildx_optional_prefix ++ " conda env create -f environment.yml -n env";
    "";
    "# pack the environment so that we can transfer to the base image";
    "RUN conda install -c conda-forge conda-pack";
    "RUN conda pack -n env -o /tmp/env.tar &&     mkdir /env && cd /env && tar xf /tmp/env.tar &&     rm /tmp/env.tar";
    "RUN /env/bin/conda-unpack"
  ].

Definition USER_CREATE_TEMPLATE (uid user : string) : string :=
  unlines [
    "";
    "RUN useradd     --create-home     --no-log-init     --shell /bin/bash     --gid 0     --uid "
      ++ uid ++ "     " ++ user
  ].

Definition SAGEMAKER_ENTRYPOINT_TEMPLATE (workdir : string) : string :=
  unlines [
    "";
    "COPY ./src/train " ++ workdir;
    "RUN chmod +x " ++ workdir ++ "/train";
    "ENTRYPOINT [" ++ DQ ++ "sh" ++ DQ ++ ", " ++ DQ ++ "train" ++ DQ ++ "]"
  ].

(** ** docker.py: rendering the build file *)

Definition get_docker_user (h : Host) (launch_project : LaunchProject)
    (runner_type : string) : M (string * Z) :=
  let* _ := emit GetUser in
  let username := getuser h in
  if String.eqb runner_type "sagemaker" && negb (truthy_opt (docker_image launch_project))
  then ret (username, 0%Z)
  else
    match docker_user_id launch_project with
    | Some u =>
        if Z.eqb u 0
        then let* _ := emit GetEuid in ret (username, geteuid h)
        else ret (username, u)
    | None => let* _ := emit GetEuid in ret (username, geteuid h)
    end.

(** [l[0]] on a list of [str]. *)
Definition first_item (l : list string) : result string :=
  match l with
  | x :: _ => Ok x
  | [] => Raise (IndexError "list index out of range")
  end.

Definition get_current_python_version (h : Host) : result (string * string) :=
  result_bind (first_item (split (sys_version h))) (fun v =>
    let full_version := split_sep "." v in
    result_bind (first_item full_version) (fun major =>
      let version :=
        if Nat.leb 2 (length full_version)
        then join "." (firstn 2 full_version)
        else major ++ ".0" in
      Ok (version, major))).

Definition get_base_setup (launch_project : LaunchProject) (py_version py_major : string)
    : string :=
  let python_base_image := "python:" ++ py_version ++ "-buster" in
  if cuda launch_project then
    let cuda_version :=
      if truthy_opt (cuda_version launch_project)
      then default "" (cuda_version launch_project)
      else DEFAULT_CUDA_VERSION in
    let python_packages :=
      if String.eqb py_major "2"
      then ["python" ++ py_version; "libpython" ++ py_version;
            "python-pip"; "python-setuptools"]
      else ["python" ++ py_version; "libpython" ++ py_version;
            "python3-pip"; "python3-setuptools"] in
    CUDA_SETUP_TEMPLATE
      ("nvidia/cuda:" ++ cuda_version ++ "-runtime")
      (join (" " ++ BS ++ NL) python_packages)
      py_version
  else PYTHON_SETUP_TEMPLATE python_base_image.

(** [d[k] = v] on an insertion-ordered dict. *)
Fixpoint dict_set (k v : string) (d : list (string * string)) : list (string * string) :=
  match d with
  | [] => [(k, v)]
  | (k', v') :: d' => if String.eqb k' k then (k, v) :: d' else (k', v') :: dict_set k v d'
  end.

Definition dict_get (k : string) (d : list (string * string)) : option string :=
  snd <$> find (fun kv => String.eqb (fst kv) k) d.

Definition get_env_vars_dict (h : Host) (launch_project : LaunchProject) (api : Api)
    : result (list (string * string)) :=
  let env_vars := [] in
  result_bind
    (if _is_wandb_local_uri h (base_url api) && String.eqb (sys_platform h) "darwin"
     then
       match split_sep ":" (base_url api) with
       | [_; _; port] => Ok ("http://host.docker.internal:" ++ port)
       | _ :: _ :: _ :: _ :: _ => Raise (ValueError "too many values to unpack (expected 3)")
       | parts =>
           Raise (ValueError ("not enough values to unpack (expected 3, got "
                              ++ str_of_int (Z.of_nat (length parts)) ++ ")"))
       end
     else if _is_wandb_dev_uri h (base_url api)
     then Ok "http://host.docker.internal:9002"
     else Ok (base_url api))
    (fun base_url =>
       let env_vars := dict_set "WANDB_BASE_URL" base_url env_vars in
       let env_vars := dict_set "WANDB_API_KEY" (api_key api) env_vars in
       let env_vars := dict_set "WANDB_PROJECT" (target_project launch_project) env_vars in
       let env_vars := dict_set "WANDB_ENTITY" (target_entity launch_project) env_vars in
       let env_vars := dict_set "WANDB_LAUNCH" "True" env_vars in
       let env_vars := dict_set "WANDB_RUN_ID" (run_id launch_project) env_vars in
       let env_vars :=
         if truthy_opt (docker_image launch_project)
         then dict_set "WANDB_DOCKER" (default "" (docker_image launch_project)) env_vars
         else env_vars in
       let env_vars :=
         dict_set "WANDB_CONFIG" (dumps (override_config launch_project)) env_vars in
       let env_vars :=
         dict_set "WANDB_ARTIFACTS" (dumps (override_artifacts launch_project)) env_vars in
       Ok env_vars).

(** [pkg.name.lower()] when [pkg] has a [name], [str(pkg)] otherwise. *)
Definition requirement_name (pkg : requirement) : string :=
  match req_name pkg with
  | Some n => lower n
  | None => req_str pkg
  end.

(** The [while True: next(iter)] loop of [_parse_existing_requirements]:
    the end of [items] is [StopIteration]. *)
Fixpoint parse_loop (items : list (result requirement)) (include_only : gset string)
    : M (gset string) :=
  match items with
  | [] => ret include_only
  | Ok pkg :: rest =>
      let name := requirement_name pkg in
      parse_loop rest ({[ shlex_quote name ]} ∪ include_only)
  | Raise e :: rest =>
      let* _ := emit (LogWarn ("Unable to parse requirements.txt: " ++ exn_str e)) in
      parse_loop rest include_only
  end.

Definition _parse_existing_requirements (h : Host) (launch_project : LaunchProject)
    : M string :=
  let requirements_line := "" in
  let base_requirements := path_join (project_dir launch_project) "requirements.txt" in
  let* present := path_exists base_requirements in
  if present : bool then
    let* f := read_file base_requirements in
    let* include_only := parse_loop (parse_requirements h f) ∅ in
    ret (requirements_line ++ "WANDB_ONLY_INCLUDE=" ++ join "," (elements include_only) ++ " ")
  else ret requirements_line.

Definition BUILDX_WARNING : string :=
  "Docker BuildX is not installed, for faster builds upgrade docker: https://github.com/docker/buildx#installing".

(** A local variable that may be read before it is bound. *)
Definition read_local (name : string) (v : option string) : M string :=
  match v with
  | Some x => ret x
  | None => raise (UnboundLocalError name)
  end.

Definition get_requirements_section (h : Host) (launch_project : LaunchProject)
    : M string :=
  let* _ := emit BuildxProbe in
  let buildx_installed := is_buildx_installed h in
  let* prefix :=
    if negb buildx_installed
    then let* _ := emit (TermWarn BUILDX_WARNING) in
         ret (Some "RUN WANDB_DISABLE_CACHE=true")
    else ret None in
  if opt_eqb (deps_type launch_project) "pip" then
      let requirements_files := ["src/requirements.txt"] in
      let pip_install_line := "pip install -r requirements.txt" in
      let* frozen :=
        path_exists (path_join (project_dir launch_project) "requirements.frozen.txt") in
      let* (requirements_files, pip_install_line) :=
        if frozen : bool then
          let requirements_files :=
            (requirements_files ++ ["src/requirements.frozen.txt"; "_wandb_bootstrap.py"])%list in
          let* parsed := _parse_existing_requirements h launch_project in
          ret (requirements_files, parsed ++ "python _wandb_bootstrap.py")
        else ret (requirements_files, pip_install_line) in
      let prefix :=
        if buildx_installed
        then Some "RUN --mount=type=cache,mode=0777,target=/root/.cache/pip"
        else prefix in
      let* prefix := read_local "prefix" prefix in
      ret (PIP_TEMPLATE (join " " requirements_files) prefix pip_install_line)
  else if opt_eqb (deps_type launch_project) "conda" then
      let prefix :=
        if buildx_installed
        then Some "RUN --mount=type=cache,mode=0777,target=/opt/conda/pkgs"
        else prefix in
      let* prefix := read_local "prefix" prefix in
      ret (CONDA_TEMPLATE prefix)
  else
      (* this means no deps file was found *)
      ret "".

Definition get_user_setup (username : string) (userid : Z) (runner_type : string) : string :=
  if String.eqb runner_type "sagemaker" then "USER root"
  else USER_CREATE_TEMPLATE (str_of_int userid) username ++ NL ++ "USER " ++ username.

Definition get_entrypoint_setup (launch_project : LaunchProject)
    (entry_cmd workdir runner_type : string) : M string :=
  if String.eqb runner_type "sagemaker" then
    let* _ := write_file (path_join (project_dir launch_project) "train") entry_cmd in
    ret (SAGEMAKER_ENTRYPOINT_TEMPLATE workdir)
  else
    (* json format to ensure argslist is formatted with double quotes *)
    let command_arr := dumps_strs (split entry_cmd) in
    ret ("ENTRYPOINT " ++ command_arr).

Definition generate_dockerfile (h : Host) (api : Api) (launch_project : LaunchProject)
    (entry_cmd runner_type : string) : M string :=
  let* (py_version, py_major) :=
    if truthy_opt (python_version launch_project) then
      let spl := firstn 2 (split_sep "." (default "" (python_version launch_project))) in
      let* major := lift (first_item spl) in
      ret (join "." spl, major)
    else lift (get_current_python_version h) in
  let python_build_image :=
    if opt_eqb (deps_type launch_project) "pip"
       || bool_decide (deps_type launch_project = None)
    then Some ("python:" ++ py_version)
    else if opt_eqb (deps_type launch_project) "conda"
    then Some (if String.eqb py_major "3"
               then "continuumio/miniconda3:latest"
               else "continuumio/miniconda:latest")
    else None in
  let* requirements_section := get_requirements_section h launch_project in
  let python_base_setup := get_base_setup launch_project py_version py_major in
  let* (username, userid) := get_docker_user h launch_project runner_type in
  let user_setup := get_user_setup username userid runner_type in
  let workdir := "/home/" ++ username in
  let* entrypoint_section :=
    get_entrypoint_setup launch_project entry_cmd workdir runner_type in
  let* python_build_image := read_local "python_build_image" python_build_image in
  ret (DOCKERFILE_TEMPLATE python_build_image requirements_section python_base_setup
         user_setup workdir (str_of_int userid) entrypoint_section).

(** ** docker.py: build context, engine calls, inspection cache *)

Definition _create_docker_build_ctx (h : Host) (launch_project : LaunchProject)
    (dockerfile_contents : string) : M string :=
  let* directory := mkdtemp (mkdtemp_name h) in
  let dst_path := path_join directory "src" in
  let* _ := copytree (project_dir launch_project) dst_path in
  let* _ :=
    copy (path_join (path_join (module_dir h) "templates") "_wandb_bootstrap.py")
         directory in
  let* _ :=
    if truthy_opt (python_version launch_project) then
      let runtime_path := path_join dst_path "runtime.txt" in
      write_file runtime_path ("python-" ++ default "" (python_version launch_project))
    else ret tt in
  let* _ := write_file (path_join directory _GENERATED_DOCKERFILE_NAME) dockerfile_contents in
  ret directory.

(** [docker.run(args)] and [docker.build(tags, file, context_path)]: the
    engine answers as a function of everything that happened before. *)
Definition docker_run_call (h : Host) (args : list string) : M string :=
  fun w => (docker_run h (trace w) args, add_event (DockerRun args) w).

Definition docker_build_call (h : Host) (tags : list string) (file context_path : string)
    : M string :=
  fun w =>
    (docker_build h (trace w) tags file context_path,
     add_event (DockerBuild (join "," tags) file context_path) w).

Definition generate_docker_image (h : Host) (api : Api) (launch_project : LaunchProject)
    (image_uri : string) (entrypoint : string)
    (docker_args : option (list (string * Py.value))) (runner_type : string) : M string :=
  let* entry_cmd :=
    lift (first_item (get_entry_point_command h entrypoint (override_args launch_project))) in
  let* dockerfile_str := generate_dockerfile h api launch_project entry_cmd runner_type in
  let* _ :=
    create_metadata_file h launch_project image_uri
      (sanitize_wandb_api_key h entry_cmd) docker_args
      (sanitize_wandb_api_key h dockerfile_str) in
  let* build_ctx_path := _create_docker_build_ctx h launch_project dockerfile_str in
  let dockerfile := path_join build_ctx_path _GENERATED_DOCKERFILE_NAME in
  let* image :=
    try_except
      (docker_build_call h [image_uri] dockerfile build_ctx_path)
      (fun e =>
         match e with
         | DockerError _ =>
             Some (raise (LaunchError
                            ("Error communicating with docker client: " ++ exn_str e)))
         | _ => None
         end) in
  let* _ :=
    try_except
      (remove build_ctx_path)
      (fun _ =>
         Some (emit (LogInfo ("Temporary docker context file " ++ build_ctx_path
                              ++ " was not deleted.")))) in
  ret image.

(** [v[0]] on a parsed JSON value. *)
Definition subscript0 (v : json) : result json :=
  match v with
  | JArr (x :: _) => Ok x
  | JArr [] => Raise (IndexError "list index out of range")
  | JStr (String c _) => Ok (JStr (String c ""))
  | JStr EmptyString => Raise (IndexError "string index out of range")
  | JObj _ => Raise (KeyError "0")
  | JNull | JBool _ | JInt _ => Raise (TypeError "object is not subscriptable")
  end.

Definition cache_store (k : string) (v : json) : M unit :=
  fun w => (Ok tt, set_inspected_images (<[k := v]> (inspected_images w)) w).

Definition docker_image_exists (h : Host) (docker_image : string) (should_raise : bool)
    : M bool :=
  let* _ := emit (LogInfo "Checking if base image exists...") in
  try_except
    (let* data := docker_run_call h ["docker"; "image"; "inspect"; docker_image] in
     let* parsed := lift (result_bind (json_loads h data) subscript0) in
     let* _ := cache_store docker_image parsed in
     let* _ := emit (LogInfo "Base image found. Won't generate new base image") in
     ret true)
    (fun e =>
       match e with
       | DockerError _ | ValueError _ =>
           Some (if should_raise then raise e
                 else let* _ := emit (LogInfo "Base image not found. Generating new base image") in
                      ret false)
       | _ => None
       end).

(** [d.get(k) is None]: no entry, or an entry holding [None] (JSON null). *)
Definition get_is_none (o : option json) : bool :=
  match o with
  | None | Some JNull => true
  | Some _ => false
  end.

Definition docker_image_inspect (h : Host) (docker_image : string) : M json :=
  let* _ :=
    fun w =>
      if get_is_none (inspected_images w !! docker_image)
      then bind (docker_image_exists h docker_image true) (fun _ => ret tt) w
      else ret tt w in
  fun w => (Ok (default (JObj []) (inspected_images w !! docker_image)), w).

Definition pull_docker_image (h : Host) (docker_image : string) : M unit :=
  try_except
    (let* _ := emit (LogInfo "Pulling user provided docker image") in
     let* _ := docker_run_call h ["docker"; "pull"; docker_image] in
     ret tt)
    (fun e =>
       match e with
       | DockerError _ =>
           Some (raise (LaunchError ("Docker server returned error: " ++ exn_str e)))
       | _ => None
       end).

(** ** docker.py: image URIs and the run command *)

Definition _get_docker_image_uri (h : Host) (name : option string)
    (work_dir image_id : string) : string :=
  let name :=
    if truthy_opt name then replace_char " " "-" (default "" name) else "wandb-launch" in
  let git_commit := last_commit h work_dir in
  let version_string :=
    if truthy_opt git_commit
    then ":" ++ slice_to 7 (default "" git_commit) ++ image_id
    else ":" ++ image_id in
  name ++ version_string.

Definition construct_local_image_uri (h : Host) (launch_project : LaunchProject) : string :=
  _get_docker_image_uri h (image_name launch_project) (project_dir launch_project)
    (run_id launch_project).

Definition construct_gcp_image_uri (h : Host) (launch_project : LaunchProject)
    (gcp_repo gcp_project gcp_registry : string) : string :=
  let base_uri := construct_local_image_uri h launch_project in
  join "/" [gcp_registry; gcp_project; gcp_repo; base_uri].

(** [if docker_args:] is false for [None] and for the empty dict. *)
Definition args_or_empty (docker_args : option (list (string * Py.value)))
    : list (string * Py.value) :=
  default [] docker_args.

Definition get_docker_command (image : string) (env_vars : list (string * string))
    (docker_args : option (list (string * Py.value))) : list string :=
  let docker_path := "docker" in
  let cmd := [docker_path; "run"; "--rm"] in
  let cmd :=
    fold_left
      (fun cmd kv =>
         let (env_key, env_value) := kv : string * string in
         app cmd ["-e"; shlex_quote env_key ++ "=" ++ shlex_quote env_value])
      env_vars cmd in
  let cmd :=
    fold_left
      (fun cmd nv =>
         let (name, value) := nv : string * Py.value in
         if Py.is_true value then
           if Nat.eqb (String.length name) 1
           then app cmd ["-" ++ shlex_quote name]
           else app cmd ["--" ++ shlex_quote name]
         else
           if Nat.eqb (String.length name) 1
           then app cmd ["-" ++ shlex_quote name; shlex_quote (Py.str value)]
           else app cmd ["--" ++ shlex_quote name; shlex_quote (Py.str value)])
      (args_or_empty docker_args) cmd in
  app cmd [shlex_quote image].

(** ** Concrete hosts, projects and worlds

    Small instances of the collaborators, used to run the code on
    concrete inputs. *)

Module Sample.

Definition starts_with_any (ps : list string) (s : string) : bool :=
  existsb (fun p => String.prefix p s) ps.

(** A host whose engine answers [engine], whose build answers [build],
    on platform [platform], and whose requirement parser always yields
    [reqs]. *)
Definition host (engine : list event -> list string -> result string)
    (build : result string) (platform : string) (buildx : bool)
    (reqs : list (result requirement)) (commit : option string) : Host :=
  {| docker_run := engine;
     docker_build := fun _ _ _ _ => build;
     is_buildx_installed := buildx;
     json_loads := JsonRead.loads;
     sys_version := "3.8.10 (default, Jun  2 2021, 10:49:15)";
     sys_platform := platform;
     getuser := "alice";
     geteuid := 1000%Z;
     _is_wandb_local_uri := starts_with_any ["http://localhost"; "https://localhost"];
     _is_wandb_dev_uri := starts_with_any ["http://api.wandb.test"; "https://api.wandb.test"];
     sanitize_wandb_api_key := fun s => s;
     parse_requirements := fun _ => reqs;
     last_commit := fun _ => commit;
     mkdtemp_name := fun _ => "/tmp/tmpctx";
     module_dir := "/lib/launch";
     get_entry_point_command := fun e _ => [e];
     create_metadata_file := fun _ _ _ _ _ => ret tt |}.

(** An engine that prints [out] for every command, and one that fails. *)
Definition engine_prints (out : string) : list event -> list string -> result string :=
  fun _ _ => Ok out.

Definition engine_fails : list event -> list string -> result string :=
  fun _ _ => Raise (DockerError "Error: No such image").

Definition project (deps : option string) : LaunchProject :=
  {| project_dir := "/proj";
     python_version := Some "3.8.10";
     deps_type := deps;
     docker_image := None;
     docker_user_id := None;
     cuda := false;
     cuda_version := None;
     run_id := "run1";
     image_name := Some "my image";
     target_project := "p";
     target_entity := "e";
     override_config := JObj [("lr", JInt 3)];
     override_artifacts := JObj [];
     override_args := [] |}.

Definition empty_world : World := mkWorld ∅ ∅ [].

(** A project directory with both manifests, and the module's template. *)
Definition frozen_fs : gmap string node :=
  <["/tmp" := Dir]>
  (<["/lib/launch/templates/_wandb_bootstrap.py" := File "# bootstrap"]>
  (<["/proj" := Dir]>
  (<["/proj/train.py" := File "print(1)"]>
  (<["/proj/requirements.txt" := File "numpy"]>
  (<["/proj/requirements.frozen.txt" := File "numpy==1.21.0"]> ∅))))).

Definition frozen_world : World := mkWorld frozen_fs ∅ [].

(** The same project directory without the locked manifest. *)
Definition plain_fs : gmap string node := delete "/proj/requirements.frozen.txt" frozen_fs.

Definition plain_world : World := mkWorld plain_fs ∅ [].

Definition numpy : requirement := mkRequirement (Some "NumPy") "numpy".

Definition api : Api := mkApi "http://localhost:8080" "key".

(** A host with buildx whose parser finds [numpy] and then a line it
    cannot parse. *)
Definition pip_host : Host :=
  host engine_fails (Ok "sha256:0")
    "linux" true [Ok numpy; Raise (ValueError "bad line")] None.

(** A host whose engine build fails. *)
Definition failing_build_host : Host :=
  host engine_fails (Raise (DockerError "build failed"))
    "linux" true [Ok numpy] None.

End Sample.

(** ** Definitions used to state the properties *)

(** What the specification says one environment variable and one engine
    flag contribute to the command. *)
Definition env_tokens (kv : string * string) : list string :=
  ["-e"; shlex_quote (fst kv) ++ "=" ++ shlex_quote (snd kv)].

Definition flag_dashes (name : string) : string :=
  if Nat.eqb (String.length name) 1 then "-" else "--".

Definition flag_tokens (nv : string * Py.value) : list string :=
  (flag_dashes (fst nv) ++ shlex_quote (fst nv))
    :: (if Py.is_true (snd nv) then [] else [shlex_quote (Py.str (snd nv))]).

Definition no_space (t : string) : bool := forall_chars (fun c => negb (isspace c)) t.

(** A token as [split] produces them: not empty, free of whitespace. *)
Definition is_token (t : string) : Prop := is_empty t = false /\ no_space t = true.

(** The text between the brackets of [dumps_strs l]. *)
Fixpoint strs_text (l : list string) : string :=
  match l with
  | [] => ""
  | x :: l' =>
      match l' with
      | [] => encode_str x
      | _ :: _ => encode_str x ++ ", " ++ strs_text l'
      end
  end.

(** [x] is what [v[0]] gives: the first item of a non-empty array, or the
    first character of a non-empty string. *)
Definition has_first (v x : json) : Prop :=
  (exists l, v = JArr (x :: l))
  \/ (exists c s, v = JStr (String c s) /\ x = JStr (String c "")).

(** The failures [docker_image_exists] handles: [except (DockerError, ValueError)]. *)
Definition is_inspection_failure (e : exn) : bool :=
  match e with
  | DockerError _ | ValueError _ => true
  | _ => false
  end.

Definition inspect_args (docker_image : string) : list string :=
  ["docker"; "image"; "inspect"; docker_image].

(** What the engine answers to the inspect query that [docker_image_exists]
    issues in world [w]. *)
Definition inspect_output (h : Host) (docker_image : string) (w : World) : result string :=
  docker_run h (trace (add_event (LogInfo "Checking if base image exists...") w))
    (inspect_args docker_image).

(** The world after the inspect query has been issued. *)
Definition after_query (docker_image : string) (w : World) : World :=
  add_event (DockerRun (inspect_args docker_image))
    (add_event (LogInfo "Checking if base image exists...") w).

Definition after_failure (e : exn) (should_raise : bool) (w : World) : result bool * World :=
  if is_inspection_failure e then
    if should_raise then (Raise e, w)
    else (Ok false, add_event (LogInfo "Base image not found. Generating new base image") w)
  else (Raise e, w).

(** Free of the blank character. *)
Definition no_blank (s : string) : bool :=
  forall_chars (fun c => negb (Ascii.eqb c " ")) s.

Definition PIP_INSTALL : string := "pip install -r requirements.txt".

Definition BOOTSTRAP : string := "_wandb_bootstrap.py".

(** What [pkg_resources] yields: requirement names hold no blank. *)
Definition names_have_no_blank (h : Host) : Prop :=
  forall content pkg,
    In (Ok pkg) (parse_requirements h content) -> no_blank (requirement_name pkg) = true.

Definition frozen_path (launch_project : LaunchProject) : string :=
  path_join (project_dir launch_project) "requirements.frozen.txt".

Definition requirements_path (launch_project : LaunchProject) : string :=
  path_join (project_dir launch_project) "requirements.txt".

Definition pip_prefix (buildx_installed : bool) : string :=
  if buildx_installed
  then "RUN --mount=type=cache,mode=0777,target=/root/.cache/pip"
  else "RUN WANDB_DISABLE_CACHE=true".

Definition FROZEN_FILES : string :=
  "src/requirements.txt src/requirements.frozen.txt _wandb_bootstrap.py".

Definition FROZEN_COPY_LINE : string := "COPY " ++ FROZEN_FILES ++ " .".

Definition BOOTSTRAP_COMMAND : string := "python _wandb_bootstrap.py".

(** The fragment for a locked manifest, around the list of names. *)
Definition frozen_head (buildx_installed : bool) : string :=
  NL ++ "RUN python -m venv /env" ++ NL
  ++ "# make sure we install into the env" ++ NL
  ++ ENV_PATH_LINE ++ NL
  ++ FROZEN_COPY_LINE ++ NL
  ++ pip_prefix buildx_installed ++ " WANDB_ONLY_INCLUDE=".

Definition FROZEN_TAIL : string := " " ++ BOOTSTRAP_COMMAND ++ NL.

Definition train_path (launch_project : LaunchProject) : string :=
  path_join (project_dir launch_project) "train".

(** The interactions rendering the build file can have with its
    surroundings. *)
Definition is_render_event (launch_project : LaunchProject) (ev : event) : bool :=
  match ev with
  | BuildxProbe | TermWarn _ | LogWarn _ | GetUser | GetEuid => true
  | FsExists p =>
      String.eqb p (frozen_path launch_project)
      || String.eqb p (requirements_path launch_project)
  | FsRead p => String.eqb p (requirements_path launch_project)
  | FsWrite p _ => String.eqb p (train_path launch_project)
  | _ => false
  end.

(** The interactions the specification allows rendering to have: reading
    the locked manifest and writing the launcher script. *)
Definition is_spec_render_event (launch_project : LaunchProject) (ev : event) : bool :=
  match ev with
  | FsRead p => String.eqb p (frozen_path launch_project)
  | FsWrite p _ => String.eqb p (train_path launch_project)
  | _ => false
  end.

(** [w'] comes from [w] by events in [allowed], changing files only at
    paths in [touched], and leaving the inspection cache alone. *)
Definition extends (allowed : event -> bool) (touched : string -> bool) (w w' : World)
    : Prop :=
  (forall q, touched q = false -> fs w' !! q = fs w !! q)
  /\ inspected_images w' = inspected_images w
  /\ exists evs, trace w' = (trace w ++ evs)%list /\ forallb allowed evs = true.

Definition confined {A} (allowed : event -> bool) (touched : string -> bool) (m : M A)
    : Prop :=
  forall w, extends allowed touched w (snd (m w)).

Definition ENTRYPOINT_SH_TRAIN : string :=
  "ENTRYPOINT [" ++ DQ ++ "sh" ++ DQ ++ ", " ++ DQ ++ "train" ++ DQ ++ "]".

(** Free of the newline character. *)
Definition no_newline (s : string) : bool :=
  forall_chars (fun c => negb (Ascii.eqb c "010")) s.

(** ** Further definitions used to state properties *)

(** Free of the character [sep]. *)
Definition free_of (sep : ascii) (s : string) : bool :=
  forall_chars (fun c => negb (Ascii.eqb c sep)) s.

(** How [shlex.split] (POSIX mode) reads quoting: outside quotes, inside
    single quotes, inside double quotes. *)
Inductive sh_mode :=
| ShPlain
| ShSingle
| ShDouble.

Definition is_sh_space (c : ascii) : bool :=
  let n := Py.code c in
  Nat.eqb n 32 || Nat.eqb n 9 || Nat.eqb n 10 || Nat.eqb n 13.

Definition is_char (n : nat) (c : ascii) : bool := Nat.eqb (Py.code c) n.

(** The text of one shell word, quotes removed.  [None] when the input is
    not one complete word: a blank outside quotes, a quote left open, a
    backslash at the end. *)
Fixpoint sh_read (m : sh_mode) (s : string) : option string :=
  match s with
  | EmptyString => match m with ShPlain => Some "" | _ => None end
  | String c s' =>
      match m with
      | ShPlain =>
          if is_sh_space c then None
          else if is_char 39 c then sh_read ShSingle s'
          else if is_char 34 c then sh_read ShDouble s'
          else if is_char 92 c then
            match s' with
            | String d s'' => option_map (String d) (sh_read ShPlain s'')
            | EmptyString => None
            end
          else option_map (String c) (sh_read ShPlain s')
      | ShSingle =>
          if is_char 39 c then sh_read ShPlain s'
          else option_map (String c) (sh_read ShSingle s')
      | ShDouble =>
          if is_char 34 c then sh_read ShPlain s'
          else if is_char 92 c then
            match s' with
            | String d s'' =>
                if is_char 34 d || is_char 92 d
                then option_map (String d) (sh_read ShDouble s'')
                else option_map (String c) (sh_read ShDouble s')
            | EmptyString => None
            end
          else option_map (String c) (sh_read ShDouble s')
      end
  end.

Definition sh_word (s : string) : option string :=
  if is_empty s then None else sh_read ShPlain s.

(** The run command before quoting: what each token is meant to say. *)
Definition plain_env_tokens (kv : string * string) : list string :=
  ["-e"; fst kv ++ "=" ++ snd kv].

Definition plain_flag_tokens (nv : string * Py.value) : list string :=
  (flag_dashes (fst nv) ++ fst nv)
    :: (if Py.is_true (snd nv) then [] else [Py.str (snd nv)]).

Definition plain_command (image : string) (env_vars : list (string * string))
    (docker_args : option (list (string * Py.value))) : list string :=
  app ["docker"; "run"; "--rm"]
    (app (concat (map plain_env_tokens env_vars))
       (app (concat (map plain_flag_tokens (args_or_empty docker_args))) [image])).

(** The quoted names of the items the requirement parser could read, and
    the warnings logged for those it could not, both in file order. *)
Definition parsed_names (items : list (result requirement)) : list string :=
  flat_map (fun it => match it with
                      | Ok pkg => [shlex_quote (requirement_name pkg)]
                      | Raise _ => []
                      end) items.

Definition parse_warnings (items : list (result requirement)) : list event :=
  flat_map (fun it => match it with
                      | Ok _ => []
                      | Raise e => [LogWarn ("Unable to parse requirements.txt: " ++ exn_str e)]
                      end) items.

(** World [w] after the events [evs], files and cache as they were. *)
Definition after_events (evs : list event) (w : World) : World :=
  mkWorld (fs w) (inspected_images w) (trace w ++ evs).

(** The uid [get_docker_user] answers: root for sagemaker without an
    image of the user's own, else the project's uid, else (none or zero)
    the effective uid of the process. *)
Definition docker_uid (h : Host) (launch_project : LaunchProject) (runner_type : string)
    : Z :=
  if String.eqb runner_type "sagemaker" && negb (truthy_opt (docker_image launch_project))
  then 0%Z
  else
    match docker_user_id launch_project with
    | Some u => if Z.eqb u 0 then geteuid h else u
    | None => geteuid h
    end.

(** The interactions rendering has when nothing is written: probing the
    engine, warnings, the user's identity, looking at the two manifests. *)
Definition is_read_event (launch_project : LaunchProject) (ev : event) : bool :=
  match ev with
  | FsWrite _ _ => false
  | _ => is_render_event launch_project ev
  end.

(** A pinned interpreter version cut to at most its first two
    dot-separated pieces. *)
Definition major_minor (v : string) : string := join "." (firstn 2 (split_sep "." v)).

(** [doc] has the line [line]: the text between two newlines. *)
Definition has_line (line doc : string) : bool := contains (NL ++ line ++ NL) doc.

Definition USERADD : string :=
  "RUN useradd     --create-home     --no-log-init     --shell /bin/bash     --gid 0     --uid ".

(** Where the package keeps the bootstrap script that goes into every
    build context. *)
Definition bootstrap_template (h : Host) : string :=
  path_join (path_join (module_dir h) "templates") "_wandb_bootstrap.py".

(** The directory of a build context that holds the copy of the project. *)
Definition context_src (ctx : string) : string := path_join ctx "src".

(** What [os.path.join] puts between a directory and a relative name. *)
Definition sep_of (d : string) : string :=
  if is_empty d || ends_with_slash d then "" else "/".

(** The prefix of the conda install line, with and without buildx. *)
Definition conda_prefix (buildx_installed : bool) : string :=
  if buildx_installed
  then "RUN --mount=type=cache,mode=0777,target=/opt/conda/pkgs"
  else "RUN WANDB_DISABLE_CACHE=true".

(** The conda image for an interpreter of major version [py_major]. *)
Definition miniconda_image (py_major : string) : string :=
  if String.eqb py_major "3"
  then "continuumio/miniconda3:latest"
  else "continuumio/miniconda:latest".

(** The entrypoint fragment, apart from the launcher script that
    [get_entrypoint_setup] writes for sagemaker. *)
Definition entrypoint_fragment (entry_cmd workdir runner_type : string) : string :=
  if String.eqb runner_type "sagemaker"
  then SAGEMAKER_ENTRYPOINT_TEMPLATE workdir
  else "ENTRYPOINT " ++ dumps_strs (split entry_cmd).

(** The build file of a pip project (or one without declared
    dependencies) around a requirements section [section], for the
    interpreter version [py_version] with major version [py_major]. *)
Definition document_around (section : string) (h : Host) (launch_project : LaunchProject)
    (entry_cmd runner_type py_version py_major : string) : string :=
  DOCKERFILE_TEMPLATE ("python:" ++ py_version) section
    (get_base_setup launch_project py_version py_major)
    (get_user_setup (getuser h) (docker_uid h launch_project runner_type) runner_type)
    ("/home/" ++ getuser h)
    (str_of_int (docker_uid h launch_project runner_type))
    (entrypoint_fragment entry_cmd ("/home/" ++ getuser h) runner_type).

(** * Properties *)

(** ** The effect monad *)

(** Reduce the plumbing of the monad and the projections of worlds. *)
Ltac msimpl :=
  repeat progress
    (cbv beta iota zeta;
     cbn [fst snd fs inspected_images trace add_event set_fs set_inspected_images]).

Section Monad.

(** A bind that ended normally ran both of its halves. *)
Lemma bind_ok_inv {A B} (m : M A) (k : A -> M B) w b w' :
  bind m k w = (Ok b, w') -> exists a w1, m w = (Ok a, w1) /\ k a w1 = (Ok b, w').
Proof.
  unfold bind. destruct (m w) as [[a|e] w1]; [eauto | discriminate].
Qed.

End Monad.

(** ** Strings *)

Section Strings.

Lemma str_app_assoc (a b c : string) : (a ++ b) ++ c = a ++ (b ++ c).
Proof. induction a as [|x a IH]; simpl; [reflexivity | now rewrite IH]. Qed.

Lemma str_app_nil_r (a : string) : a ++ "" = a.
Proof. induction a as [|x a IH]; simpl; [reflexivity | now rewrite IH]. Qed.

Lemma str_length_app (a b : string) :
  String.length (a ++ b) = String.length a + String.length b.
Proof. induction a as [|x a IH]; simpl; [reflexivity | now rewrite IH]. Qed.

Lemma forall_chars_app p a b :
  forall_chars p (a ++ b) = forall_chars p a && forall_chars p b.
Proof.
  induction a as [|x a IH]; simpl; [reflexivity|].
  now rewrite IH, andb_assoc.
Qed.

End Strings.

(** ** [str.split()] *)

Section Split.

Lemma split_from_tokens cur s :
  no_space cur = true -> Forall is_token (split_from cur s).
Proof.
  revert cur. induction s as [|c s IH]; intros cur Hcur; simpl.
  - destruct (is_empty cur) eqn:E; constructor; [now split | constructor].
  - destruct (isspace c) eqn:Hc.
    + destruct (is_empty cur) eqn:E.
      * now apply IH.
      * constructor; [now split | now apply IH].
    + apply IH. unfold no_space, snoc in *. rewrite forall_chars_app, Hcur. simpl.
      now rewrite Hc.
Qed.

Lemma split_from_word cur t rest :
  no_space t = true -> split_from cur (t ++ rest) = split_from (cur ++ t) rest.
Proof.
  revert cur. induction t as [|c t IH]; intros cur Ht; simpl.
  - now rewrite str_app_nil_r.
  - unfold no_space in Ht. simpl in Ht. apply andb_prop in Ht as [Hc Ht].
    apply negb_true_iff in Hc. rewrite Hc. rewrite IH by exact Ht.
    unfold snoc. now rewrite str_app_assoc.
Qed.

Lemma split_join_tokens args :
  Forall is_token args -> split (join " " args) = args.
Proof.
  unfold split, join. induction 1 as [|x l [Hne Hws] Hl IH]; [reflexivity|].
  destruct l as [|y l].
  - simpl. rewrite <- (str_app_nil_r x) at 1. rewrite split_from_word by exact Hws.
    simpl. now rewrite Hne.
  - change (String.concat " " (x :: y :: l)) with (x ++ " " ++ String.concat " " (y :: l)).
    rewrite split_from_word by exact Hws. simpl "++" at 1.
    change (" " ++ String.concat " " (y :: l))
      with (String " " (String.concat " " (y :: l))).
    cbn [split_from]. change (isspace " ") with true. cbn iota.
    rewrite Hne. now rewrite IH.
Qed.

(** A blank ends the word being read. *)
Lemma split_from_blank_app cur a b :
  split_from cur (a ++ String " " b) = (split_from cur a ++ split_from "" b)%list.
Proof.
  revert cur. induction a as [|c a IH]; intros cur.
  - change ("" ++ String " " b) with (String " " b). cbn [split_from].
    change (isspace " ") with true. cbn iota. now destruct (is_empty cur).
  - change (String c a ++ String " " b) with (String c (a ++ String " " b)).
    cbn [split_from]. destruct (isspace c); [|apply IH].
    destruct (is_empty cur); rewrite IH; reflexivity.
Qed.

(** Splitting a command made by joining arguments with blanks splits
    each argument on its own. *)
Lemma split_join args : split (join " " args) = concat (map split args).
Proof.
  unfold join. induction args as [|x [|y l] IH].
  - reflexivity.
  - cbn [String.concat map concat]. now rewrite app_nil_r.
  - change (String.concat " " (x :: y :: l))
      with (x ++ String " " (String.concat " " (y :: l))).
    unfold split at 1. rewrite split_from_blank_app.
    change (map split (x :: y :: l)) with (split x :: map split (y :: l)).
    cbn [concat]. f_equal. exact IH.
Qed.

(** A token is its own split. *)
Lemma split_token a : is_token a -> split a = [a].
Proof.
  intros Ha. change a with (join " " [a]) at 1.
  apply split_join_tokens. now constructor.
Qed.

End Split.

(** ** Reading back what [json.dumps] wrote *)

Section JsonRoundTrip.

Import JsonRead.

Lemma read_chars_escape_char c t :
  read_chars (escape_char c ++ t) = cons_char c (read_chars t).
Proof. destruct c as [[] [] [] [] [] [] [] []]; reflexivity. Qed.

Lemma read_chars_escape s rest :
  read_chars (escape s ++ String "034" rest) = Some (s, rest).
Proof.
  induction s as [|c s IH]; [reflexivity|].
  simpl escape. rewrite str_app_assoc, read_chars_escape_char, IH. reflexivity.
Qed.

Lemma read_value_quote f s :
  read_value (S f) (String "034" s) =
  match read_chars s with Some (t, r) => Some (JStr t, r) | None => None end.
Proof. reflexivity. Qed.

Lemma read_value_str f s rest :
  read_value (S f) (encode_str s ++ rest) = Some (JStr s, rest).
Proof.
  unfold encode_str. rewrite !str_app_assoc.
  change (DQ ++ escape s ++ DQ ++ rest)
    with (String "034" (escape s ++ String "034" rest)).
  now rewrite read_value_quote, read_chars_escape.
Qed.

Lemma read_value_space_str f s rest :
  read_value (S f) (" " ++ encode_str s ++ rest) = Some (JStr s, rest).
Proof.
  rewrite <- (read_value_str f s rest). reflexivity.
Qed.

Lemma dumps_strs_text l : dumps_strs l = "[" ++ strs_text l ++ "]".
Proof.
  unfold dumps_strs. cbn [dumps]. f_equal. f_equal.
  induction l as [|x l IH]; [reflexivity|].
  destruct l as [|y l]; [reflexivity|].
  change (strs_text (x :: y :: l)) with (encode_str x ++ ", " ++ strs_text (y :: l)).
  rewrite <- IH. reflexivity.
Qed.

Lemma read_items_strs f n l rest :
  l <> [] -> length l <= n ->
  (read_items (read_value (S f)) n (strs_text l ++ "]" ++ rest) = Some (map JStr l, rest))
  /\ (read_items (read_value (S f)) n (" " ++ strs_text l ++ "]" ++ rest)
      = Some (map JStr l, rest)).
Proof.
  revert n. induction l as [|x l IH]; intros n Hne Hn; [congruence|].
  destruct n as [|n]; [simpl in Hn; lia|].
  destruct l as [|y l].
  - cbn [strs_text read_items map]. rewrite read_value_str, read_value_space_str.
    split; reflexivity.
  - assert (Hl : length (y :: l) <= n) by (simpl in *; lia).
    destruct (IH n ltac:(discriminate) Hl) as [_ IH2].
    change (strs_text (x :: y :: l)) with (encode_str x ++ ", " ++ strs_text (y :: l)).
    remember (strs_text (y :: l)) as T eqn:HT in *.
    cbn [read_items]. rewrite !str_app_assoc.
    rewrite read_value_str, read_value_space_str.
    change (skip_ws (", " ++ T ++ "]" ++ rest))
      with (String "," (" " ++ T ++ "]" ++ rest)).
    cbv iota. rewrite IH2. split; reflexivity.
Qed.

Lemma encode_str_length x : 1 <= String.length (encode_str x).
Proof. unfold encode_str. rewrite str_length_app. simpl. lia. Qed.

Lemma strs_text_length l : length l <= String.length (strs_text l).
Proof.
  induction l as [|x l IH]; [simpl; lia|].
  pose proof (encode_str_length x) as Hx.
  destruct l as [|y l]; [exact Hx|].
  change (strs_text (x :: y :: l)) with (encode_str x ++ ", " ++ strs_text (y :: l)).
  remember (strs_text (y :: l)) as T eqn:HT in *.
  rewrite !str_length_app. cbn [length] in *. lia.
Qed.

Lemma read_value_array f s :
  read_value (S f) (String "[" s) =
  match skip_ws s with
  | String "]" r => Some (JArr [], r)
  | _ =>
      match read_items (read_value f) f s with
      | Some (vs, r) => Some (JArr vs, r)
      | None => None
      end
  end.
Proof. reflexivity. Qed.

Lemma strs_text_head x l rest :
  exists r, strs_text (x :: l) ++ rest = String "034" r.
Proof.
  destruct l as [|y l]; cbn [strs_text]; unfold encode_str;
    rewrite !str_app_assoc; eexists; reflexivity.
Qed.

Lemma loads_dumps_strs l : loads (dumps_strs l) = Ok (JArr (map JStr l)).
Proof.
  rewrite dumps_strs_text. destruct l as [|x l]; [reflexivity|].
  unfold loads.
  set (n := String.length ("[" ++ strs_text (x :: l) ++ "]")).
  assert (Hn : length (x :: l) <= n).
  { subst n. pose proof (strs_text_length (x :: l)) as HT.
    remember (strs_text (x :: l)) as T eqn:ET in *.
    rewrite !str_length_app. lia. }
  assert (Hpos : n = S (String.length (strs_text (x :: l) ++ "]"))) by reflexivity.
  clearbody n. subst n.
  set (f := String.length (strs_text (x :: l) ++ "]")) in *.
  destruct (read_items_strs f (S f) (x :: l) "" ltac:(discriminate) Hn) as [H1 _].
  change ("[" ++ strs_text (x :: l) ++ "]")
    with (String "[" (strs_text (x :: l) ++ "]")).
  rewrite read_value_array.
  change ("]" ++ "") with "]" in H1.
  destruct (strs_text_head x l "]") as [r Hr].
  rewrite Hr in *. change (skip_ws (String "034" r)) with (String "034" r).
  cbv iota. rewrite H1. reflexivity.
Qed.

End JsonRoundTrip.

(** ** The run command *)

Section RunCommand.

Lemma fold_left_append {A B} (f : A -> list B) (l : list A) (init : list B) :
  fold_left (fun acc x => app acc (f x)) l init = app init (concat (map f l)).
Proof.
  revert init. induction l as [|x l IH]; intros init; simpl.
  - now rewrite app_nil_r.
  - rewrite IH. now rewrite app_assoc.
Qed.

Lemma fold_left_ext_in {A B} (f g : B -> A -> B) (l : list A) (init : B) :
  (forall b a, f b a = g b a) -> fold_left f l init = fold_left g l init.
Proof.
  intros E. revert init. induction l as [|x l IH]; intros init; simpl; [reflexivity|].
  rewrite E. apply IH.
Qed.

Lemma get_docker_command_tokens image env_vars docker_args :
  get_docker_command image env_vars docker_args =
  app ["docker"; "run"; "--rm"]
    (app (concat (map env_tokens env_vars))
       (app (concat (map flag_tokens (args_or_empty docker_args)))
          [shlex_quote image])).
Proof.
  unfold get_docker_command.
  rewrite (fold_left_ext_in _ (fun acc kv => app acc (env_tokens kv)))
    by (intros b [k v]; reflexivity).
  rewrite (fold_left_ext_in _ (fun acc nv => app acc (flag_tokens nv))).
  2:{ intros b [n v]. unfold flag_tokens, flag_dashes. simpl.
      destruct (Py.is_true v), (Nat.eqb (String.length n) 1); reflexivity. }
  rewrite !fold_left_append. now rewrite <- !app_assoc.
Qed.

End RunCommand.

(** C6, as the specification words its example: the command for
    [{"A": "1 2"}] has no token [A=1\ 2]; [shlex_quote] wraps the value in
    single quotes instead of escaping the blank. *)
Lemma get_docker_command_backslash_example_fails :
  ~ In ("A=1" ++ BS ++ " 2")
       (get_docker_command "img" [("A", "1 2")]
          (Some [("gpus", VStr "all"); ("rm", VBool true)]))
  /\ get_docker_command "img" [("A", "1 2")]
       (Some [("gpus", VStr "all"); ("rm", VBool true)])
     = ["docker"; "run"; "--rm"; "-e"; "A='1 2'"; "--gpus"; "all"; "--rm"; "img"].
Proof.
  split; [|reflexivity].
  vm_compute. intros H.
  repeat (destruct H as [H|H]; [discriminate H|]). exact H.
Qed.

(** C6, amended: the command is [docker run --rm], then ["-e"] and
    [quote(KEY)=quote(VALUE)] for every environment variable in order, then
    for every engine flag its name behind one dash (one character) or two
    (otherwise) followed by the quoted [str(value)] unless the value is
    the boolean [True], then the quoted image; the specification's example
    renders as [-e A='1 2' --gpus all --rm]. *)
Theorem get_docker_command_shape :
  (forall image env_vars docker_args,
     get_docker_command image env_vars docker_args =
     app ["docker"; "run"; "--rm"]
       (app (concat (map env_tokens env_vars))
          (app (concat (map flag_tokens (args_or_empty docker_args)))
             [shlex_quote image])))
  /\ (forall image env_vars docker_args,
        List.last (get_docker_command image env_vars docker_args) "" = shlex_quote image)
  /\ (forall name, flag_tokens (name, VBool true) = [flag_dashes name ++ shlex_quote name])
  /\ get_docker_command "img" [("A", "1 2")]
       (Some [("gpus", VStr "all"); ("rm", VBool true)])
     = ["docker"; "run"; "--rm"; "-e"; "A='1 2'"; "--gpus"; "all"; "--rm"; "img"].
Proof.
  split; [exact get_docker_command_tokens|].
  split; [|split; reflexivity].
  intros image env_vars docker_args.
  rewrite get_docker_command_tokens, !app_assoc. apply last_last.
Qed.

(** C10: an engine flag whose value is the boolean [False] is rendered as
    the flag (one dash for a one-character name, two otherwise) followed by
    the token [False]. *)
Theorem get_docker_command_false_flag :
  forall image env_vars before name after,
    get_docker_command image env_vars
      (Some (app before ((name, VBool false) :: after))) =
    app ["docker"; "run"; "--rm"]
      (app (concat (map env_tokens env_vars))
         (app (concat (map flag_tokens before))
            (app [(if Nat.eqb (String.length name) 1 then "-" else "--")
                    ++ shlex_quote name; "False"]
               (app (concat (map flag_tokens after)) [shlex_quote image])))).
Proof.
  intros. rewrite get_docker_command_tokens. simpl args_or_empty.
  rewrite map_app, concat_app. simpl. rewrite <- !app_assoc. reflexivity.
Qed.

(** ** Image URIs *)

Section ImageUri.

Lemma replace_char_length a b s :
  String.length (replace_char a b s) = String.length s.
Proof. induction s as [|c s IH]; simpl; [reflexivity | now rewrite IH]. Qed.

Lemma replace_char_get a b s i :
  String.get i (replace_char a b s) =
  option_map (fun c => if Ascii.eqb c a then b else c) (String.get i s).
Proof.
  revert i. induction s as [|c s IH]; intros i; simpl; [reflexivity|].
  destruct i; simpl; [reflexivity | apply IH].
Qed.

Lemma replace_char_absent a b s :
  Ascii.eqb b a = false ->
  forall_chars (fun c => negb (Ascii.eqb c a)) (replace_char a b s) = true.
Proof.
  intros Hab. induction s as [|c s IH]; simpl; [reflexivity|].
  rewrite IH, andb_true_r.
  destruct (Ascii.eqb c a) eqn:E; [now rewrite Hab | now rewrite E].
Qed.

Lemma slice_to_length n s :
  String.length (slice_to n s) = Nat.min n (String.length s).
Proof.
  revert s. induction n as [|n IH]; intros [|c s]; simpl; try reflexivity.
  now rewrite IH.
Qed.

Lemma slice_to_prefix n s : String.prefix (slice_to n s) s = true.
Proof.
  revert s. induction n as [|n IH]; intros [|c s]; simpl; try reflexivity.
  rewrite IH. now destruct (ascii_dec c c).
Qed.

End ImageUri.

(** C8: the local image URI is the base name with every blank replaced by
    a hyphen ([wandb-launch] when no name is given), a colon, the first
    seven characters of the revision hash when the project directory has
    one, and the run id. *)
Theorem construct_local_image_uri_spec :
  forall h launch_project,
    construct_local_image_uri h launch_project =
      match image_name launch_project with
      | Some (String c n) => replace_char " " "-" (String c n)
      | _ => "wandb-launch"
      end
      ++ ":"
      ++ match last_commit h (project_dir launch_project) with
         | Some commit => slice_to 7 commit
         | None => ""
         end
      ++ run_id launch_project
    /\ (forall name i,
          String.length (replace_char " " "-" name) = String.length name
          /\ forall_chars (fun c => negb (Ascii.eqb c " ")) (replace_char " " "-" name) = true
          /\ String.get i (replace_char " " "-" name) =
             option_map (fun c => if Ascii.eqb c " " then "-"%char else c) (String.get i name))
    /\ (forall commit,
          String.prefix (slice_to 7 commit) commit = true
          /\ String.length (slice_to 7 commit) = Nat.min 7 (String.length commit)).
Proof.
  intros h lp. split; [|split].
  - unfold construct_local_image_uri, _get_docker_image_uri.
    destruct (image_name lp) as [[|c n]|], (last_commit h (project_dir lp)) as [[|d k]|];
      reflexivity.
  - intros name i. split; [apply replace_char_length|].
    split; [now apply replace_char_absent | apply replace_char_get].
  - intros commit. split; [apply slice_to_prefix | apply slice_to_length].
Qed.

(** ** The inline entrypoint *)

(** C3, as stated: an argument that contains a blank is not kept as one
    token.  The command for the arguments [python train.py --name 'my run']
    is rendered with five tokens, the last argument cut in two with its
    quote characters left inside the tokens. *)
Lemma get_entrypoint_setup_splits_quoted_argument :
  let args := ["python"; "train.py"; "--name"; "my run"] in
  let entry_cmd := join " " (map shlex_quote args) in
  entry_cmd = "python train.py --name 'my run'"
  /\ get_entrypoint_setup (Sample.project (Some "pip")) entry_cmd "/home/alice" "local"
       Sample.empty_world
     = (Ok ("ENTRYPOINT " ++ dumps_strs ["python"; "train.py"; "--name"; "'my"; "run'"]),
        Sample.empty_world)
  /\ split entry_cmd <> args
  /\ get_entrypoint_setup (Sample.project (Some "pip")) (join " " args) "/home/alice" "local"
       Sample.empty_world
     <> (Ok ("ENTRYPOINT " ++ dumps_strs args), Sample.empty_world).
Proof.
  cbv zeta. split; [reflexivity|]. split; [reflexivity|].
  split; [vm_compute; discriminate | vm_compute; discriminate].
Qed.

(** C3, amended: for a backend other than sagemaker the entrypoint
    fragment is [ENTRYPOINT] followed by the JSON array of
    [entry_cmd.split()], nothing else happens, the array reads back as
    exactly those tokens whatever characters they contain, and the tokens
    are the whitespace-free pieces of the command.  For a command made of
    arguments joined by blanks, each argument is split on its own: an
    argument that is not empty and free of whitespace is kept as one
    token at its place, whatever the arguments beside it are, and any
    other argument is cut into its whitespace-free pieces. *)
Theorem get_entrypoint_setup_inline :
  forall launch_project entry_cmd workdir runner_type w,
    String.eqb runner_type "sagemaker" = false ->
    get_entrypoint_setup launch_project entry_cmd workdir runner_type w
      = (Ok ("ENTRYPOINT " ++ dumps_strs (split entry_cmd)), w)
    /\ JsonRead.loads (dumps_strs (split entry_cmd)) = Ok (JArr (map JStr (split entry_cmd)))
    /\ Forall is_token (split entry_cmd)
    /\ (forall args, split (join " " args) = concat (map split args))
    /\ (forall a, is_token a -> split a = [a])
    /\ (forall args a, In a args -> is_token a -> In a (split (join " " args)))
    /\ (forall args, Forall is_token args -> split (join " " args) = args).
Proof.
  intros lp entry_cmd workdir runner_type w Hrt.
  split; [|split; [|split; [|split; [|split; [|split]]]]].
  - unfold get_entrypoint_setup. rewrite Hrt. reflexivity.
  - apply loads_dumps_strs.
  - now apply split_from_tokens.
  - apply split_join.
  - apply split_token.
  - intros args a Hin Ha. rewrite split_join. apply in_concat.
    exists (split a). split; [now apply in_map|].
    rewrite (split_token a Ha). now left.
  - apply split_join_tokens.
Qed.

Lemma get_entrypoint_setup_inline_witness :
  String.eqb "local" "sagemaker" = false
  /\ get_entrypoint_setup (Sample.project (Some "pip")) "python train.py --lr 3"
       "/home/alice" "local" Sample.empty_world
     = (Ok ("ENTRYPOINT " ++ dumps_strs (split "python train.py --lr 3")),
        Sample.empty_world)
  /\ split (join " " ["python"; "train.py"; "--name"; "my run"])
     = ["python"; "train.py"; "--name"; "my"; "run"].
Proof.
  split; [reflexivity|].
  destruct (get_entrypoint_setup_inline (Sample.project (Some "pip"))
              "python train.py --lr 3" "/home/alice" "local" Sample.empty_world eq_refl)
    as (Hfrag & _ & _ & Hsplit & _).
  split; [exact Hfrag|].
  exact (Hsplit ["python"; "train.py"; "--name"; "my run"]).
Defined.

(** ** Environment variables *)

(** C4, as stated: on a Linux host a base URL on localhost is passed on
    unchanged; the rewrite to [host.docker.internal] is guarded by
    [sys.platform == "darwin"]. *)
Lemma get_env_vars_dict_localhost_on_linux :
  let h := Sample.host Sample.engine_fails (Ok "") "linux" true [] None in
  let api := mkApi "http://localhost:8080" "key" in
  _is_wandb_local_uri h (base_url api) = true
  /\ exists env,
       get_env_vars_dict h (Sample.project (Some "pip")) api = Ok env
       /\ dict_get "WANDB_BASE_URL" env = Some "http://localhost:8080".
Proof. cbv zeta. split; [reflexivity|]. eexists. split; reflexivity. Qed.

(** C4, amended: [WANDB_BASE_URL] is [http://host.docker.internal:<port>],
    with the port taken from the configured URL, when that URL is a local
    one and the platform is darwin (the URL must then split at colons into
    exactly three parts, else [ValueError] is raised);
    [http://host.docker.internal:9002] when otherwise it is a development
    URL; and the configured URL unchanged in every other case. *)
Theorem get_env_vars_dict_base_url :
  forall h launch_project api,
    let url := base_url api in
    let rewrite_local :=
      _is_wandb_local_uri h url && String.eqb (sys_platform h) "darwin" in
    let rest :=
      ([("WANDB_API_KEY", api_key api);
        ("WANDB_PROJECT", target_project launch_project);
        ("WANDB_ENTITY", target_entity launch_project);
        ("WANDB_LAUNCH", "True");
        ("WANDB_RUN_ID", run_id launch_project)]
       ++ (if truthy_opt (docker_image launch_project)
           then [("WANDB_DOCKER", default "" (docker_image launch_project))] else [])
       ++ [("WANDB_CONFIG", dumps (override_config launch_project));
           ("WANDB_ARTIFACTS", dumps (override_artifacts launch_project))])%list in
    (forall scheme host port,
       rewrite_local = true -> split_sep ":" url = [scheme; host; port] ->
       get_env_vars_dict h launch_project api
       = Ok (("WANDB_BASE_URL", "http://host.docker.internal:" ++ port) :: rest))
    /\ (rewrite_local = true -> length (split_sep ":" url) <> 3 ->
        exists msg, get_env_vars_dict h launch_project api = Raise (ValueError msg))
    /\ (rewrite_local = false -> _is_wandb_dev_uri h url = true ->
        get_env_vars_dict h launch_project api
        = Ok (("WANDB_BASE_URL", "http://host.docker.internal:9002") :: rest))
    /\ (rewrite_local = false -> _is_wandb_dev_uri h url = false ->
        get_env_vars_dict h launch_project api = Ok (("WANDB_BASE_URL", url) :: rest)).
Proof.
  intros h lp api url rewrite_local rest. subst url rewrite_local rest.
  unfold get_env_vars_dict.
  split; [|split; [|split]].
  - intros scheme host port -> ->. cbn [result_bind].
    destruct (truthy_opt (docker_image lp)); reflexivity.
  - intros -> Hlen.
    destruct (split_sep ":" (base_url api)) as [|a [|b [|c [|d l]]]];
      cbn [result_bind]; eauto.
    now contradiction Hlen.
  - intros -> ->. cbn [result_bind].
    destruct (truthy_opt (docker_image lp)); reflexivity.
  - intros -> ->. cbn [result_bind].
    destruct (truthy_opt (docker_image lp)); reflexivity.
Qed.

Lemma get_env_vars_dict_base_url_witness :
  let h := Sample.host Sample.engine_fails (Ok "") "darwin" true [] None in
  let api := mkApi "http://localhost:8080" "key" in
  (_is_wandb_local_uri h (base_url api) && String.eqb (sys_platform h) "darwin" = true
   /\ split_sep ":" (base_url api) = ["http"; "//localhost"; "8080"])
  /\ exists env,
       get_env_vars_dict h (Sample.project (Some "pip")) api = Ok env
       /\ dict_get "WANDB_BASE_URL" env = Some "http://host.docker.internal:8080".
Proof.
  cbv zeta. split; [split; reflexivity|].
  destruct (get_env_vars_dict_base_url
              (Sample.host Sample.engine_fails (Ok "") "darwin" true [] None)
              (Sample.project (Some "pip")) (mkApi "http://localhost:8080" "key"))
    as [H _].
  eexists. split.
  - apply (H "http" "//localhost" "8080"); reflexivity.
  - reflexivity.
Defined.

(** ** Existence checks and the inspection cache *)

Section InspectionCache.

Variable h : Host.

Lemma docker_image_exists_unfold docker_image should_raise w :
  docker_image_exists h docker_image should_raise w =
  match inspect_output h docker_image w with
  | Ok data =>
      match result_bind (json_loads h data) subscript0 with
      | Ok parsed =>
          (Ok true,
           add_event (LogInfo "Base image found. Won't generate new base image")
             (set_inspected_images
                (<[docker_image := parsed]> (inspected_images w))
                (after_query docker_image w)))
      | Raise e => after_failure e should_raise (after_query docker_image w)
      end
  | Raise e => after_failure e should_raise (after_query docker_image w)
  end.
Proof.
  unfold docker_image_exists, inspect_output, after_failure, after_query, inspect_args,
    bind, try_except, emit, docker_run_call, lift, cache_store, ret, raise.
  cbn [trace add_event].
  destruct (docker_run h _ _) as [data|e].
  - destruct (result_bind (json_loads h data) subscript0) as [parsed|e]; [reflexivity|].
    destruct e, should_raise; reflexivity.
  - destruct e, should_raise; reflexivity.
Qed.

Lemma after_failure_not_true e should_raise w :
  fst (after_failure e should_raise w) <> Ok true
  /\ inspected_images (snd (after_failure e should_raise w)) = inspected_images w.
Proof.
  unfold after_failure.
  destruct (is_inspection_failure e), should_raise; split; simpl;
    congruence || reflexivity.
Qed.

Lemma subscript0_ok v x :
  subscript0 v = Ok x <->
  (exists l, v = JArr (x :: l))
  \/ (exists c s, v = JStr (String c s) /\ x = JStr (String c "")).
Proof.
  split.
  - destruct v as [| | |[|c s]|[|y l]|]; simpl; intros H; try discriminate H.
    + right. inversion H. eauto.
    + left. inversion H. eauto.
  - intros [[l ->]|(c & s & -> & ->)]; reflexivity.
Qed.

(** Nothing ever leaves the cache. *)
Lemma docker_image_exists_keeps docker_image should_raise w k :
  is_Some (inspected_images w !! k) ->
  is_Some (inspected_images (snd (docker_image_exists h docker_image should_raise w)) !! k).
Proof.
  intros Hk. rewrite docker_image_exists_unfold.
  destruct (inspect_output h docker_image w) as [data|e].
  - destruct (result_bind _ _) as [parsed|e].
    + cbn. destruct (decide (docker_image = k)) as [->|Hne].
      * rewrite lookup_insert_eq. eauto.
      * now rewrite lookup_insert_ne.
    + now rewrite (proj2 (after_failure_not_true e should_raise _)).
  - now rewrite (proj2 (after_failure_not_true e should_raise _)).
Qed.

Lemma docker_image_inspect_keeps docker_image w k :
  is_Some (inspected_images w !! k) ->
  is_Some (inspected_images (snd (docker_image_inspect h docker_image w)) !! k).
Proof.
  intros Hk. unfold docker_image_inspect, bind, ret.
  destruct (get_is_none (inspected_images w !! docker_image)); [|exact Hk].
  pose proof (docker_image_exists_keeps docker_image true w k Hk) as H.
  destruct (docker_image_exists h docker_image true w) as [[b|e] w']; exact H.
Qed.

(** Neither operation touches the entry of another image. *)
Lemma docker_image_exists_other docker_image should_raise w k :
  k <> docker_image ->
  inspected_images (snd (docker_image_exists h docker_image should_raise w)) !! k
  = inspected_images w !! k.
Proof.
  intros Hk. rewrite docker_image_exists_unfold.
  destruct (inspect_output h docker_image w) as [data|e].
  - destruct (result_bind _ _) as [parsed|e].
    + cbn. now rewrite lookup_insert_ne.
    + now rewrite (proj2 (after_failure_not_true e should_raise _)).
  - now rewrite (proj2 (after_failure_not_true e should_raise _)).
Qed.

Lemma docker_image_inspect_other docker_image w k :
  k <> docker_image ->
  inspected_images (snd (docker_image_inspect h docker_image w)) !! k
  = inspected_images w !! k.
Proof.
  intros Hk. unfold docker_image_inspect, bind, ret.
  destruct (get_is_none (inspected_images w !! docker_image)); [|reflexivity].
  pose proof (docker_image_exists_other docker_image true w k Hk) as H.
  destruct (docker_image_exists h docker_image true w) as [[b|e] w']; exact H.
Qed.

(** A record in the cache that is not [null] is returned as it is, with
    no effect at all. *)
Lemma docker_image_inspect_hit docker_image w x :
  inspected_images w !! docker_image = Some x -> x <> JNull ->
  docker_image_inspect h docker_image w = (Ok x, w).
Proof.
  intros Hx Hnull. unfold docker_image_inspect, bind, ret. rewrite Hx.
  destruct x; [now contradiction Hnull|..]; cbn [get_is_none]; now rewrite Hx.
Qed.

Lemma pull_docker_image_cache docker_image w :
  inspected_images (snd (pull_docker_image h docker_image w)) = inspected_images w.
Proof.
  unfold pull_docker_image, try_except, bind, emit, docker_run_call, ret, raise.
  cbn [trace add_event].
  destruct (docker_run h _ _) as [out|[]]; reflexivity.
Qed.

End InspectionCache.

(** C1, as stated: the engine printing a two-element array makes
    [docker_image_exists] return [True] and cache the first element, so
    the answer is not tied to a singleton array; and for the empty array
    the [IndexError] of [[0]] escapes although [should_raise] is false. *)
Lemma docker_image_exists_not_singleton :
  let h2 := Sample.host (Sample.engine_prints "[1, 2]") (Ok "") "linux" true [] None in
  let h0 := Sample.host (Sample.engine_prints "[]") (Ok "") "linux" true [] None in
  json_loads h2 "[1, 2]" = Ok (JArr [JInt 1; JInt 2])
  /\ fst (docker_image_exists h2 "img" false Sample.empty_world) = Ok true
  /\ inspected_images (snd (docker_image_exists h2 "img" false Sample.empty_world)) !! "img"
     = Some (JInt 1)
  /\ json_loads h0 "[]" = Ok (JArr [])
  /\ fst (docker_image_exists h0 "img" false Sample.empty_world)
     = Raise (IndexError "list index out of range").
Proof. cbv zeta. repeat split; vm_compute; reflexivity. Qed.

(** C1, amended: [docker_image_exists] returns [True] exactly when the
    engine query succeeds and its output parses to a JSON value that has a
    first element (a non-empty array, or a non-empty string), and whenever
    that is so that first element, the first item of the array or the
    first character of the string, is what is cached under the image
    reference; when the query raises [DockerError] or the output does not
    parse ([ValueError]) it caches nothing and returns [False], or
    re-raises the same exception if [should_raise]; the cache changes only
    when it returns [True]. *)
Theorem docker_image_exists_spec :
  forall h docker_image should_raise w,
    let out := inspect_output h docker_image w in
    let r := docker_image_exists h docker_image should_raise w in
    (fst r = Ok true <->
       exists data v x, out = Ok data /\ json_loads h data = Ok v /\ has_first v x)
    /\ (forall data v x,
          out = Ok data -> json_loads h data = Ok v -> has_first v x ->
          fst r = Ok true
          /\ inspected_images (snd r) = <[docker_image := x]> (inspected_images w))
    /\ (forall e,
          is_inspection_failure e = true ->
          out = Raise e \/ (exists data, out = Ok data /\ json_loads h data = Raise e) ->
          fst r = (if should_raise then Raise e else Ok false)
          /\ inspected_images (snd r) = inspected_images w)
    /\ (fst r <> Ok true -> inspected_images (snd r) = inspected_images w).
Proof.
  intros h img sr w out r. subst out r. rewrite docker_image_exists_unfold.
  destruct (inspect_output h img w) as [data|e] eqn:Hout.
  - destruct (json_loads h data) as [v|e] eqn:Hload; cbn [result_bind].
    + destruct (subscript0 v) as [x|e] eqn:Hsub.
      * cbn [fst snd]. split; [|split; [|split]].
        -- split; [intros _|reflexivity].
           exists data, v, x. split; [reflexivity|]. split; [exact Hload|].
           now apply subscript0_ok.
        -- intros data' v' x' Hd Hl Hx. injection Hd as <-. rewrite Hload in Hl.
           injection Hl as <-. apply subscript0_ok in Hx. rewrite Hsub in Hx.
           injection Hx as <-. now split.
        -- intros e He [Hd|(data' & Hd & Hl)]; [discriminate Hd|].
           injection Hd as <-. rewrite Hload in Hl. discriminate Hl.
        -- intros Hne. now contradiction Hne.
      * destruct (after_failure_not_true e sr (after_query img w)) as [Hnt Hc].
        split; [|split; [|split]].
        -- split; [intros Ht; now contradiction Hnt|].
           intros (data' & v' & x & Hd & Hl & Hx). injection Hd as <-.
           rewrite Hload in Hl. injection Hl as <-.
           apply subscript0_ok in Hx. rewrite Hsub in Hx. discriminate Hx.
        -- intros data' v' x Hd Hl Hx. injection Hd as <-. rewrite Hload in Hl.
           injection Hl as <-. apply subscript0_ok in Hx. rewrite Hsub in Hx.
           discriminate Hx.
        -- intros e' He [Hd|(data' & Hd & Hl)]; [discriminate Hd|].
           injection Hd as <-. rewrite Hload in Hl. discriminate Hl.
        -- intros _. exact Hc.
    + destruct (after_failure_not_true e sr (after_query img w)) as [Hnt Hc].
      split; [|split; [|split]].
      * split; [intros Ht; now contradiction Hnt|].
        intros (data' & v' & x & Hd & Hl & _). injection Hd as <-.
        rewrite Hload in Hl. discriminate Hl.
      * intros data' v' x Hd Hl. injection Hd as <-. rewrite Hload in Hl. discriminate Hl.
      * intros e' He [Hd|(data' & Hd & Hl)]; [discriminate Hd|].
        injection Hd as <-. rewrite Hload in Hl. injection Hl as <-.
        split; [|exact Hc]. unfold after_failure. rewrite He. now destruct sr.
      * intros _. exact Hc.
  - destruct (after_failure_not_true e sr (after_query img w)) as [Hnt Hc].
    split; [|split; [|split]].
    + split; [intros Ht; now contradiction Hnt|].
      intros (data' & v' & x & Hd & _). discriminate Hd.
    + intros data' v' x Hd. discriminate Hd.
    + intros e' He [Hd|(data' & Hd & _)]; [|discriminate Hd].
      injection Hd as <-. split; [|exact Hc]. unfold after_failure. rewrite He.
      now destruct sr.
    + intros _. exact Hc.
Qed.

(** C9, as stated: when the inspection record is JSON [null] the cache
    holds [None], [docker_image_inspect] takes the entry for missing and
    queries the engine a second time. *)
Lemma docker_image_inspect_null_record_requeries :
  let h := Sample.host (Sample.engine_prints "[null]") (Ok "") "linux" true [] None in
  let w1 := snd (docker_image_exists h "img" false Sample.empty_world) in
  fst (docker_image_exists h "img" false Sample.empty_world) = Ok true
  /\ inspected_images w1 !! "img" = Some JNull
  /\ engine_invocations w1 = 1
  /\ engine_invocations (snd (docker_image_inspect h "img" w1)) = 2.
Proof. cbv zeta. repeat split; vm_compute; reflexivity. Qed.

(** C9, amended: when [docker_image_exists] has returned [True] for an
    image, the engine's answer parsed to a value with a first element, and
    that element is the record the cache now holds for the image.  Unless
    the record is JSON [null], [docker_image_inspect] of the same image
    returns it in every later state of the process in which the cache
    still holds it, with no engine invocation and no other effect.  The
    cache keeps its entries: inspecting or looking up an image leaves the
    entries of all other images exactly as they are and removes none, and
    pulling an image does not touch the cache. *)
Theorem docker_image_inspect_cached :
  forall h docker_image should_raise w w1,
    docker_image_exists h docker_image should_raise w = (Ok true, w1) ->
    (exists data v x,
       inspect_output h docker_image w = Ok data
       /\ json_loads h data = Ok v
       /\ has_first v x
       /\ inspected_images w1 = <[docker_image := x]> (inspected_images w)
       /\ (x <> JNull ->
           forall w2,
             inspected_images w2 !! docker_image = Some x ->
             docker_image_inspect h docker_image w2 = (Ok x, w2)
             /\ engine_invocations (snd (docker_image_inspect h docker_image w2))
                = engine_invocations w2))
    /\ (forall k other flag w0,
          let after_exists := snd (docker_image_exists h other flag w0) in
          let after_inspect := snd (docker_image_inspect h other w0) in
          (k <> other ->
           inspected_images after_exists !! k = inspected_images w0 !! k
           /\ inspected_images after_inspect !! k = inspected_images w0 !! k)
          /\ (is_Some (inspected_images w0 !! k) ->
              is_Some (inspected_images after_exists !! k)
              /\ is_Some (inspected_images after_inspect !! k))
          /\ inspected_images (snd (pull_docker_image h other w0)) = inspected_images w0).
Proof.
  intros h img sr w w1 Hex. split.
  - rewrite docker_image_exists_unfold in Hex.
    destruct (inspect_output h img w) as [data|e].
    + destruct (json_loads h data) as [v|e] eqn:Hload; cbn [result_bind] in Hex.
      * destruct (subscript0 v) as [x|e] eqn:Hsub.
        -- injection Hex as <-. exists data, v, x.
           split; [reflexivity|]. split; [exact Hload|].
           split; [now apply subscript0_ok|]. split; [reflexivity|].
           intros Hx w2 Hw2. now rewrite (docker_image_inspect_hit h img w2 x Hw2 Hx).
        -- exfalso. apply (proj1 (after_failure_not_true e sr (after_query img w))).
           now rewrite Hex.
      * exfalso. apply (proj1 (after_failure_not_true e sr (after_query img w))).
        now rewrite Hex.
    + exfalso. apply (proj1 (after_failure_not_true e sr (after_query img w))).
      now rewrite Hex.
  - intros k other flag w0. cbv zeta. split; [|split].
    + intros Hk. split.
      * now apply docker_image_exists_other.
      * now apply docker_image_inspect_other.
    + intros Hk. split.
      * now apply docker_image_exists_keeps.
      * now apply docker_image_inspect_keeps.
    + apply pull_docker_image_cache.
Qed.

Lemma docker_image_inspect_cached_witness :
  let out := "[{" ++ DQ ++ "Id" ++ DQ ++ ": " ++ DQ ++ "sha256:1" ++ DQ ++ "}]" in
  let h := Sample.host (Sample.engine_prints out) (Ok "") "linux" true [] None in
  let record := JObj [("Id", JStr "sha256:1")] in
  let w1 := snd (docker_image_exists h "img" false Sample.empty_world) in
  let w2 := add_event (LogInfo "later") w1 in
  docker_image_exists h "img" false Sample.empty_world = (Ok true, w1)
  /\ inspected_images w1 !! "img" = Some record
  /\ docker_image_inspect h "img" w2 = (Ok record, w2)
  /\ engine_invocations (snd (docker_image_inspect h "img" w2)) = 1.
Proof.
  intros out h record w1 w2.
  assert (E : docker_image_exists h "img" false Sample.empty_world = (Ok true, w1))
    by (vm_compute; reflexivity).
  assert (Hrec : inspected_images w1 !! "img" = Some record) by (vm_compute; reflexivity).
  split; [exact E|]. split; [exact Hrec|].
  destruct (docker_image_inspect_cached h "img" false Sample.empty_world w1 E)
    as [(data & v & x & _ & _ & _ & Hcache & Hhit) _].
  assert (Hx : x = record).
  { rewrite Hcache, lookup_insert_eq in Hrec. now injection Hrec as ->. }
  subst x.
  assert (Hnull : record <> JNull) by discriminate.
  destruct (Hhit Hnull w2 Hrec) as [Hret Hcount].
  split; [exact Hret|]. rewrite Hcount. vm_compute. reflexivity.
Defined.

(** ** The dependency-installation fragment *)

Section Requirements.

Lemma escape_quotes_no_blank s :
  no_blank s = true -> no_blank (Shlex.escape_quotes s) = true.
Proof.
  unfold no_blank. induction s as [|c s IH]; [reflexivity|].
  cbn [forall_chars Shlex.escape_quotes]. intros [Hc Hs]%andb_prop.
  rewrite forall_chars_app, (IH Hs), andb_true_r.
  destruct (Ascii.eqb c "'"); [reflexivity|]. cbn [forall_chars]. now rewrite Hc.
Qed.

Lemma shlex_quote_no_blank s : no_blank s = true -> no_blank (shlex_quote s) = true.
Proof.
  intros Hs. unfold shlex_quote, Shlex.quote.
  destruct (is_empty s); [reflexivity|].
  destruct (forall_chars Shlex.is_safe s); [exact Hs|].
  unfold no_blank. rewrite !forall_chars_app. fold (no_blank (Shlex.escape_quotes s)).
  now rewrite escape_quotes_no_blank.
Qed.

Lemma join_no_blank l :
  Forall (fun x => no_blank x = true) l -> no_blank (join "," l) = true.
Proof.
  unfold join. induction 1 as [|x l Hx Hl IH]; [reflexivity|].
  destruct l as [|y l]; [exact Hx|].
  change (String.concat "," (x :: y :: l)) with (x ++ "," ++ String.concat "," (y :: l)).
  unfold no_blank in *. rewrite !forall_chars_app, Hx, IH. reflexivity.
Qed.

Lemma prefix_cons_inv a p s :
  String.prefix (String a p) s = true ->
  exists s', s = String a s' /\ String.prefix p s' = true.
Proof.
  destruct s as [|b s]; simpl; [discriminate|].
  destruct (ascii_dec a b) as [->|]; [|discriminate]. eauto.
Qed.

Lemma prefix_pip_install s :
  String.prefix PIP_INSTALL s = true -> exists r, s = "pip i" ++ r.
Proof.
  intros H. unfold PIP_INSTALL in H.
  do 5 (apply prefix_cons_inv in H as (? & -> & H)). eauto.
Qed.

Lemma count_occ_names_tail names :
  no_blank names = true -> count_occ PIP_INSTALL (names ++ FROZEN_TAIL) = 0.
Proof.
  induction names as [|c names IH]; intros Hn; [reflexivity|].
  unfold no_blank in Hn. cbn [forall_chars] in Hn. apply andb_prop in Hn as [Hc Hn].
  change (String c names ++ FROZEN_TAIL) with (String c (names ++ FROZEN_TAIL)).
  cbn [count_occ]. rewrite (IH Hn), Nat.add_0_r.
  destruct (String.prefix PIP_INSTALL (String c (names ++ FROZEN_TAIL))) eqn:Hp;
    [|reflexivity].
  exfalso. apply prefix_pip_install in Hp as [r Hr].
  destruct names as [|c1 [|c2 [|c3 names]]];
    cbv [FROZEN_TAIL BOOTSTRAP_COMMAND NL String.append] in Hr; fold String.append in Hr;
    try discriminate Hr.
  injection Hr as E0 E1 E2 E3 E4. subst. cbn in Hn. discriminate Hn.
Qed.

Lemma prefix_app_l n a b : String.prefix n a = true -> String.prefix n (a ++ b) = true.
Proof.
  revert a. induction n as [|c n IH]; intros a H; [now destruct (a ++ b)|].
  apply prefix_cons_inv in H as (a' & -> & H). simpl.
  destruct (ascii_dec c c); [now apply IH | congruence].
Qed.

Lemma contains_app_l n a b : contains n a = true -> contains n (a ++ b) = true.
Proof.
  induction a as [|c a IH].
  - cbn [contains]. rewrite orb_false_r. intros H.
    destruct n; [now destruct b | discriminate H].
  - change (String c a ++ b) with (String c (a ++ b)). cbn [contains].
    intros [H|H]%orb_prop.
    + pose proof (prefix_app_l n (String c a) b H) as Hp.
      change (String c a ++ b) with (String c (a ++ b)) in Hp. now rewrite Hp.
    + rewrite (IH H). apply orb_true_r.
Qed.

Lemma contains_app_r n a b : contains n b = true -> contains n (a ++ b) = true.
Proof.
  intros H. induction a as [|c a IH]; [exact H|].
  change (String c a ++ b) with (String c (a ++ b)). cbn [contains].
  rewrite IH. apply orb_true_r.
Qed.

Lemma PIP_TEMPLATE_text files prefix pip :
  PIP_TEMPLATE files prefix pip =
  NL ++ "RUN python -m venv /env" ++ NL
  ++ "# make sure we install into the env" ++ NL
  ++ ENV_PATH_LINE ++ NL
  ++ "COPY " ++ files ++ " ." ++ NL
  ++ prefix ++ " " ++ pip ++ NL.
Proof.
  unfold PIP_TEMPLATE, unlines. cbn [map String.concat].
  rewrite ?str_app_assoc, ?str_app_nil_r. reflexivity.
Qed.

Lemma frozen_section_names b names :
  PIP_TEMPLATE FROZEN_FILES (pip_prefix b)
    (("WANDB_ONLY_INCLUDE=" ++ names ++ " ") ++ BOOTSTRAP_COMMAND)
  = frozen_head b ++ names ++ FROZEN_TAIL.
Proof.
  rewrite PIP_TEMPLATE_text. unfold frozen_head, FROZEN_TAIL, FROZEN_COPY_LINE.
  rewrite ?str_app_assoc. reflexivity.
Qed.

Lemma count_occ_frozen_head b rest :
  count_occ PIP_INSTALL (frozen_head b ++ rest) = count_occ PIP_INSTALL rest.
Proof. destruct b; reflexivity. Qed.

Variable h : Host.

(** The loop always ends normally, touches only the log, and collects
    quoted requirement names. *)
Lemma parse_loop_result items include_only w :
  exists found evs,
    parse_loop items include_only w
    = (Ok found, mkWorld (fs w) (inspected_images w) (trace w ++ evs))
    /\ forallb (fun ev => match ev with LogWarn _ => true | _ => false end) evs = true
    /\ forall x, x ∈ found ->
         x ∈ include_only
         \/ exists pkg, In (Ok pkg) items /\ x = shlex_quote (requirement_name pkg).
Proof.
  revert include_only w. induction items as [|[pkg|e] items IH]; intros S w.
  - exists S, []. rewrite app_nil_r. destruct w. split; [reflexivity|]. split; auto.
  - destruct (IH ({[ shlex_quote (requirement_name pkg) ]} ∪ S) w)
      as (found & evs & E & Hev & Hin).
    exists found, evs. split; [exact E|]. split; [exact Hev|].
    intros x Hx. destruct (Hin x Hx) as [Hu|(p & Hp & ->)].
    + apply elem_of_union in Hu as [->%elem_of_singleton|Hs]; [|now left].
      right. exists pkg. split; [now left | reflexivity].
    + right. exists p. split; [now right | reflexivity].
  - destruct (IH S (add_event (LogWarn ("Unable to parse requirements.txt: " ++ exn_str e)) w))
      as (found & evs & E & Hev & Hin).
    exists found, (LogWarn ("Unable to parse requirements.txt: " ++ exn_str e) :: evs).
    split; [|split].
    + cbn [parse_loop]. unfold bind, emit. rewrite E. cbn [add_event fs inspected_images trace].
      now rewrite <- app_assoc.
    + exact Hev.
    + intros x Hx. destruct (Hin x Hx) as [Hs|(p & Hp & ->)]; [now left|].
      right. exists p. split; [now right | reflexivity].
Qed.

Hypothesis Hnames : names_have_no_blank h.

Lemma parse_existing_requirements_cases launch_project w :
  fs (snd (_parse_existing_requirements h launch_project w)) = fs w
  /\ match fst (_parse_existing_requirements h launch_project w) with
     | Ok line =>
         line = ""
         \/ exists names, no_blank names = true
                          /\ line = "WANDB_ONLY_INCLUDE=" ++ names ++ " "
     | Raise _ => fs w !! requirements_path launch_project = Some Dir
     end.
Proof.
  unfold _parse_existing_requirements, requirements_path, bind, path_exists, read_file, ret.
  msimpl.
  destruct (fs w !! path_join (project_dir launch_project) "requirements.txt")
    as [[content|]|] eqn:Hreq.
  - rewrite bool_decide_true by eauto. msimpl. rewrite Hreq. msimpl.
    destruct (parse_loop_result (parse_requirements h content) ∅
                (add_event (FsRead (path_join (project_dir launch_project) "requirements.txt"))
                   (add_event (FsExists (path_join (project_dir launch_project) "requirements.txt")) w)))
      as (found & evs & E & _ & Hin).
    rewrite E. msimpl. split; [reflexivity|].
    right. exists (join "," (elements found)). split; [|reflexivity].
    apply join_no_blank. apply Forall_forall. intros x Hx.
    apply elem_of_elements in Hx.
    destruct (Hin x Hx) as [Hemp|(pkg & Hp & ->)]; [now apply not_elem_of_empty in Hemp|].
    apply shlex_quote_no_blank. now apply (Hnames content).
  - rewrite bool_decide_true by eauto. msimpl. rewrite Hreq. msimpl. now split.
  - rewrite bool_decide_false by (intros [? ?]; discriminate).
    msimpl. split; [reflexivity | now left].
Qed.

End Requirements.

(** The fragment for [deps_type] pip, with and without a locked manifest. *)
Lemma requirements_section_pip_cases :
  forall h launch_project w,
    opt_eqb (deps_type launch_project) "pip" = true ->
    names_have_no_blank h ->
    match fst (get_requirements_section h launch_project w) with
    | Ok section =>
        if bool_decide (is_Some (fs w !! frozen_path launch_project)) then
          (exists install,
             section = PIP_TEMPLATE FROZEN_FILES (pip_prefix (is_buildx_installed h))
                         (install ++ BOOTSTRAP_COMMAND))
          /\ contains FROZEN_COPY_LINE section = true
          /\ contains BOOTSTRAP_COMMAND section = true
          /\ count_occ PIP_INSTALL section = 0
        else
          section = PIP_TEMPLATE "src/requirements.txt"
                      (pip_prefix (is_buildx_installed h)) PIP_INSTALL
          /\ count_occ PIP_INSTALL section = 1
          /\ count_occ BOOTSTRAP section = 0
    | Raise _ =>
        is_Some (fs w !! frozen_path launch_project)
        /\ fs w !! requirements_path launch_project = Some Dir
    end.
Proof.
  intros h lp w Hpip Hnames.
  unfold get_requirements_section, bind, emit, path_exists, read_local, ret, raise.
  rewrite Hpip. msimpl. fold (frozen_path lp).
  assert (Hw : forall b : bool,
             fs (if b then add_event BuildxProbe w
                 else add_event (TermWarn BUILDX_WARNING) (add_event BuildxProbe w)) = fs w)
    by (intros []; reflexivity).
  destruct (bool_decide (is_Some (fs w !! frozen_path lp))) eqn:Hfrozen.
  - (* a locked manifest *)
    destruct (is_buildx_installed h) eqn:Hb; cbn [negb]; msimpl; rewrite Hfrozen; msimpl.
    all: match goal with
         | Hn : names_have_no_blank ?H
           |- context [_parse_existing_requirements ?H ?L ?W] =>
             destruct (parse_existing_requirements_cases H Hn L W) as [Hfs Hcase];
             destruct (_parse_existing_requirements H L W) as [[parsed|e] w4]
         end; msimpl; cbn [fst snd] in Hcase.
    all: try (split; [now apply bool_decide_eq_true in Hfrozen | exact Hcase]).
    all: split; [eexists; reflexivity|].
    all: split; [rewrite PIP_TEMPLATE_text, <- !str_app_assoc;
                 do 4 apply contains_app_l; reflexivity|].
    all: split; [rewrite PIP_TEMPLATE_text, <- !str_app_assoc;
                 apply contains_app_l, contains_app_r; reflexivity|].
    all: destruct Hcase as [->|(names & Hn & ->)]; [reflexivity|].
    + change "RUN --mount=type=cache,mode=0777,target=/root/.cache/pip" with (pip_prefix true).
      change "python _wandb_bootstrap.py" with BOOTSTRAP_COMMAND.
      change (join " " (["src/requirements.txt"] ++ ["src/requirements.frozen.txt"; "_wandb_bootstrap.py"])%list)
        with FROZEN_FILES.
      rewrite frozen_section_names, count_occ_frozen_head. now apply count_occ_names_tail.
    + change "RUN WANDB_DISABLE_CACHE=true" with (pip_prefix false).
      change "python _wandb_bootstrap.py" with BOOTSTRAP_COMMAND.
      change (join " " (["src/requirements.txt"] ++ ["src/requirements.frozen.txt"; "_wandb_bootstrap.py"])%list)
        with FROZEN_FILES.
      rewrite frozen_section_names, count_occ_frozen_head. now apply count_occ_names_tail.
  - (* no locked manifest *)
    destruct (is_buildx_installed h) eqn:Hb; cbn [negb]; msimpl; rewrite Hfrozen; msimpl;
      repeat split; reflexivity.
Qed.

(** ** The fragment within the build file *)

Section Lines.

Lemma prefix_before_newline n s b :
  no_newline n = true -> String.prefix n (s ++ NL ++ b) = String.prefix n s.
Proof.
  revert s. induction n as [|c n IH]; intros s Hn; [now destruct s|].
  unfold no_newline in Hn. cbn [forall_chars] in Hn. apply andb_prop in Hn as [Hc Hn].
  destruct s as [|d s].
  - cbn. destruct (ascii_dec c "010") as [->|]; [discriminate Hc | reflexivity].
  - change (String d s ++ NL ++ b) with (String d (s ++ NL ++ b)). cbn [String.prefix].
    destruct (ascii_dec c d); [now apply IH | reflexivity].
Qed.

(** Text without a newline occurs in the lines before a newline and in
    the lines after it, never across. *)
Lemma count_occ_newline n a b :
  no_newline n = true ->
  count_occ n (a ++ NL ++ b) = count_occ n a + count_occ n b.
Proof.
  intros Hn. induction a as [|c a IH].
  - change ("" ++ NL ++ b) with (String "010" b). cbn [count_occ].
    change (String "010" b) with ("" ++ NL ++ b).
    rewrite (prefix_before_newline n "" b Hn). lia.
  - change (String c a ++ NL ++ b) with (String c (a ++ NL ++ b)). cbn [count_occ].
    change (String c (a ++ NL ++ b)) with (String c a ++ NL ++ b).
    rewrite (prefix_before_newline n (String c a) b Hn), IH. lia.
Qed.

Lemma unlines_cons x l : unlines (x :: l) = x ++ NL ++ unlines l.
Proof.
  unfold unlines. destruct l as [|y l]; cbn [map String.concat];
    rewrite ?str_app_assoc, ?str_app_nil_r; reflexivity.
Qed.

Lemma count_occ_unlines n x l :
  no_newline n = true ->
  count_occ n (unlines (x :: l)) = count_occ n x + count_occ n (unlines l).
Proof. intros Hn. rewrite unlines_cons. now apply count_occ_newline. Qed.

(** The build file counts what its requirements fragment counts, plus
    what the same file counts with that fragment left empty. *)
Lemma count_occ_dockerfile n image section base user_setup workdir uid entrypoint :
  is_empty n = false -> no_newline n = true ->
  count_occ n (DOCKERFILE_TEMPLATE image section base user_setup workdir uid entrypoint)
  = count_occ n section
    + count_occ n (DOCKERFILE_TEMPLATE image "" base user_setup workdir uid entrypoint).
Proof.
  intros Hne Hn. unfold DOCKERFILE_TEMPLATE.
  rewrite !(count_occ_unlines n _ _ Hn).
  assert (H0 : count_occ n "" = 0) by (destruct n; [discriminate Hne | reflexivity]).
  rewrite !H0. lia.
Qed.

Lemma contains_dockerfile n image section base user_setup workdir uid entrypoint :
  contains n section = true ->
  contains n (DOCKERFILE_TEMPLATE image section base user_setup workdir uid entrypoint) = true.
Proof.
  intros H. unfold DOCKERFILE_TEMPLATE. rewrite !unlines_cons.
  do 5 (rewrite <- str_app_assoc; apply contains_app_r).
  now apply contains_app_l.
Qed.

End Lines.

Lemma python_version_step_pure h launch_project w r w1 :
  (if truthy_opt (python_version launch_project)
   then
     let spl := firstn 2 (split_sep "." (default "" (python_version launch_project))) in
     let* major := lift (first_item spl) in ret (join "." spl, major)
   else lift (get_current_python_version h)) w = (r, w1) ->
  w1 = w.
Proof.
  destruct (truthy_opt (python_version launch_project)); cbv zeta; unfold bind, lift, ret.
  - destruct (first_item _); now intros [= _ <-].
  - now intros [= _ <-].
Qed.

(** A rendered build file is the template around the fragment that
    [get_requirements_section] gives in the same world. *)
Lemma generate_dockerfile_section h api launch_project entry_cmd runner_type w doc w' :
  generate_dockerfile h api launch_project entry_cmd runner_type w = (Ok doc, w') ->
  exists section image base user_setup workdir uid entrypoint,
    fst (get_requirements_section h launch_project w) = Ok section
    /\ doc = DOCKERFILE_TEMPLATE image section base user_setup workdir uid entrypoint.
Proof.
  unfold generate_dockerfile. intros E.
  apply bind_ok_inv in E as ([py_version py_major] & w1 & Hpy & E).
  apply python_version_step_pure in Hpy as ->.
  apply bind_ok_inv in E as (section & w2 & Hsec & E).
  apply bind_ok_inv in E as ([username userid] & w3 & _ & E).
  apply bind_ok_inv in E as (frag & w4 & _ & E).
  apply bind_ok_inv in E as (image & w5 & _ & E).
  injection E as <- _. rewrite Hsec. cbn [fst]. eauto 10.
Qed.

(** The fragment and the whole build file on the two example projects. *)
Example requirements_section_frozen :
  fst (get_requirements_section Sample.pip_host (Sample.project (Some "pip"))
         Sample.frozen_world)
  = Ok (unlines [
      "";
      "RUN python -m venv /env";
      "# make sure we install into the env";
      ENV_PATH_LINE;
      "COPY src/requirements.txt src/requirements.frozen.txt _wandb_bootstrap.py .";
      "RUN --mount=type=cache,mode=0777,target=/root/.cache/pip WANDB_ONLY_INCLUDE=numpy python _wandb_bootstrap.py"
    ]).
Proof. vm_compute. reflexivity. Qed.

Example dockerfile_without_frozen :
  exists doc,
    fst (generate_dockerfile Sample.pip_host Sample.api (Sample.project (Some "pip"))
           "python train.py" "local" Sample.plain_world) = Ok doc
    /\ count_occ PIP_INSTALL doc = 1
    /\ count_occ BOOTSTRAP doc = 0.
Proof. eexists. split; [vm_compute; reflexivity|]. split; vm_compute; reflexivity. Qed.

Example dockerfile_with_frozen :
  exists doc,
    fst (generate_dockerfile Sample.pip_host Sample.api (Sample.project (Some "pip"))
           "python train.py" "local" Sample.frozen_world) = Ok doc
    /\ count_occ PIP_INSTALL doc = 0
    /\ contains FROZEN_COPY_LINE doc = true
    /\ contains BOOTSTRAP_COMMAND doc = true.
Proof. eexists. split; [vm_compute; reflexivity|]. repeat split; vm_compute; reflexivity. Qed.

(** ** What rendering does to the world *)

Section Confinement.

Context {allowed : event -> bool} {touched : string -> bool}.

Lemma extends_refl w : extends allowed touched w w.
Proof.
  split; [reflexivity|]. split; [reflexivity|].
  exists []. now rewrite app_nil_r.
Qed.

Lemma extends_trans w1 w2 w3 :
  extends allowed touched w1 w2 -> extends allowed touched w2 w3 ->
  extends allowed touched w1 w3.
Proof.
  intros (F1 & C1 & e1 & T1 & A1) (F2 & C2 & e2 & T2 & A2).
  split; [|split].
  - intros q Hq. now rewrite F2, F1.
  - now rewrite C2.
  - exists (e1 ++ e2)%list. rewrite T2, T1, <- app_assoc. split; [reflexivity|].
    now rewrite forallb_app, A1, A2.
Qed.

Lemma extends_event ev w :
  allowed ev = true -> extends allowed touched w (add_event ev w).
Proof.
  intros He. split; [reflexivity|]. split; [reflexivity|].
  exists [ev]. split; [reflexivity|]. simpl. now rewrite He.
Qed.

Lemma confined_ret {A} (a : A) : confined allowed touched (ret a).
Proof. intros w. apply extends_refl. Qed.

Lemma confined_raise {A} e : confined allowed touched (@raise A e).
Proof. intros w. apply extends_refl. Qed.

Lemma confined_lift {A} (r : result A) : confined allowed touched (lift r).
Proof. intros w. apply extends_refl. Qed.

Lemma confined_bind {A B} (m : M A) (k : A -> M B) :
  confined allowed touched m -> (forall a, confined allowed touched (k a)) ->
  confined allowed touched (bind m k).
Proof.
  intros Hm Hk w. unfold bind. specialize (Hm w).
  destruct (m w) as [[a|e] w1]; [|exact Hm].
  eapply extends_trans; [exact Hm | apply Hk].
Qed.

Lemma confined_emit ev : allowed ev = true -> confined allowed touched (emit ev).
Proof. intros He w. now apply extends_event. Qed.

Lemma confined_path_exists p :
  allowed (FsExists p) = true -> confined allowed touched (path_exists p).
Proof. intros He w. now apply extends_event. Qed.

Lemma confined_read_file p :
  allowed (FsRead p) = true -> confined allowed touched (read_file p).
Proof.
  intros He w. unfold read_file. msimpl.
  destruct (fs w !! p) as [[c|]|]; now apply extends_event.
Qed.

Lemma confined_write_file p c :
  allowed (FsWrite p c) = true -> touched p = true ->
  confined allowed touched (write_file p c).
Proof.
  intros He Hp w. unfold write_file. msimpl.
  assert (Hw : extends allowed touched w
                 (set_fs (<[p := File c]> (fs w)) (add_event (FsWrite p c) w))).
  { split; [|split].
    - intros q Hq. msimpl. apply lookup_insert_ne. intros ->. congruence.
    - reflexivity.
    - exists [FsWrite p c]. split; [reflexivity|]. simpl. now rewrite He. }
  destruct (fs w !! p) as [[c0|]|]; try (now apply extends_event);
    destruct (parent_ok (fs w) p); try exact Hw; now apply extends_event.
Qed.

Lemma confined_read_local name v : confined allowed touched (read_local name v).
Proof. destruct v; [apply confined_ret | apply confined_raise]. Qed.

End Confinement.

Create HintDb confined.

#[local] Hint Resolve confined_ret confined_raise confined_lift confined_emit
  confined_path_exists confined_read_file confined_write_file confined_read_local
  : confined.

(** Split a monadic program at its binds and branches. *)
Ltac confined_step :=
  match goal with
  | |- confined _ _ (bind _ _) => apply confined_bind; [|intros ?]
  | |- confined _ _ (if ?b then _ else _) => destruct b
  | |- confined _ _ (match ?x with (_, _) => _ end) => destruct x
  | |- confined _ _ (match ?x with Some _ => _ | None => _ end) => destruct x
  | |- confined _ _ _ => solve [auto with confined]
  end.

Section Rendering.

Variable h : Host.
Variable launch_project : LaunchProject.

Local Abbreviation render := (confined (is_render_event launch_project)
                      (String.eqb (train_path launch_project))).

Lemma is_render_exists_frozen :
  is_render_event launch_project (FsExists (frozen_path launch_project)) = true.
Proof. simpl. now rewrite String.eqb_refl. Qed.

Lemma is_render_exists_requirements :
  is_render_event launch_project (FsExists (requirements_path launch_project)) = true.
Proof. simpl. rewrite (String.eqb_refl (requirements_path _)). apply orb_true_r. Qed.

Lemma is_render_read_requirements :
  is_render_event launch_project (FsRead (requirements_path launch_project)) = true.
Proof. simpl. apply String.eqb_refl. Qed.

Lemma is_render_write_train c :
  is_render_event launch_project (FsWrite (train_path launch_project) c) = true.
Proof. simpl. apply String.eqb_refl. Qed.

Lemma confined_parse_loop items include_only :
  render (parse_loop items include_only).
Proof.
  revert include_only. induction items as [|[pkg|e] items IH]; intros S; cbn [parse_loop].
  - apply confined_ret.
  - apply IH.
  - apply confined_bind; [now apply confined_emit | intros _; apply IH].
Qed.

Lemma confined_parse_existing_requirements :
  render (_parse_existing_requirements h launch_project).
Proof.
  unfold _parse_existing_requirements. fold (requirements_path launch_project).
  apply confined_bind; [apply confined_path_exists, is_render_exists_requirements|].
  intros [|]; [|apply confined_ret].
  apply confined_bind; [apply confined_read_file, is_render_read_requirements|].
  intros f. apply confined_bind; [apply confined_parse_loop | intros; apply confined_ret].
Qed.

Lemma confined_get_requirements_section :
  render (get_requirements_section h launch_project).
Proof.
  unfold get_requirements_section. fold (frozen_path launch_project).
  pose proof is_render_exists_frozen. pose proof confined_parse_existing_requirements.
  repeat confined_step; auto with confined.
Qed.

Lemma confined_get_docker_user runner_type :
  render (get_docker_user h launch_project runner_type).
Proof.
  unfold get_docker_user. repeat confined_step; auto with confined.
Qed.

Lemma confined_get_entrypoint_setup entry_cmd workdir runner_type :
  render (get_entrypoint_setup launch_project entry_cmd workdir runner_type).
Proof.
  unfold get_entrypoint_setup. fold (train_path launch_project).
  pose proof (is_render_write_train entry_cmd).
  pose proof (String.eqb_refl (train_path launch_project)).
  repeat confined_step; auto with confined.
Qed.

Lemma confined_generate_dockerfile api entry_cmd runner_type :
  render (generate_dockerfile h api launch_project entry_cmd runner_type).
Proof.
  unfold generate_dockerfile.
  pose proof confined_get_requirements_section.
  pose proof (confined_get_docker_user runner_type).
  pose proof confined_get_entrypoint_setup.
  repeat confined_step; auto with confined.
Qed.

End Rendering.

Section Sagemaker.

Lemma get_docker_user_name h launch_project runner_type w r w' :
  get_docker_user h launch_project runner_type w = (Ok r, w') -> fst r = getuser h.
Proof.
  unfold get_docker_user, bind, emit, ret. msimpl.
  destruct (_ && _); [now intros [= <- _]|].
  destruct (docker_user_id launch_project) as [u|]; [destruct (Z.eqb u 0)|];
    msimpl; now intros [= <- _].
Qed.

Lemma get_entrypoint_setup_sagemaker launch_project entry_cmd workdir w frag w' :
  get_entrypoint_setup launch_project entry_cmd workdir "sagemaker" w = (Ok frag, w') ->
  frag = SAGEMAKER_ENTRYPOINT_TEMPLATE workdir
  /\ w' = set_fs (<[train_path launch_project := File entry_cmd]> (fs w))
            (add_event (FsWrite (train_path launch_project) entry_cmd) w).
Proof.
  unfold get_entrypoint_setup. cbn [String.eqb Ascii.eqb Bool.eqb andb].
  fold (train_path launch_project). unfold bind, write_file, ret. msimpl.
  destruct (fs w !! train_path launch_project) as [[c|]|];
    try discriminate; destruct (parent_ok (fs w) (train_path launch_project));
    try discriminate; now intros [= <- <-].
Qed.

End Sagemaker.

(** C7, as stated: rendering for sagemaker in a project with a locked
    manifest probes the engine, tests two paths, reads [requirements.txt]
    (never the locked manifest) and asks for the user name, so its I/O is
    not confined to reading the locked manifest; and the script is written
    into the project directory, before any build context exists. *)
Lemma generate_dockerfile_sagemaker_io :
  let h := Sample.host Sample.engine_fails (Ok "") "linux" true [Ok Sample.numpy] None in
  let lp := Sample.project (Some "pip") in
  let rw := generate_dockerfile h (mkApi "http://api" "key") lp "python train.py" "sagemaker"
              Sample.frozen_world in
  trace (snd rw)
  = [BuildxProbe; FsExists "/proj/requirements.frozen.txt";
     FsExists "/proj/requirements.txt"; FsRead "/proj/requirements.txt";
     GetUser; FsWrite "/proj/train" "python train.py"]
  /\ forallb (is_spec_render_event lp) (trace (snd rw)) = false
  /\ project_dir lp = "/proj"
  /\ fs (snd rw) !! "/proj/train" = Some (File "python train.py").
Proof. cbv zeta. repeat split; vm_compute; reflexivity. Qed.

(** C7, amended: rendering for sagemaker writes the resolved command to
    the file [train] of the project directory, and the entrypoint fragment
    copies [./src/train] into the image, makes it executable there and
    runs it with [sh] instead of carrying the command inline.  Apart from
    that file rendering changes no file and does not touch the inspection
    cache; its other interactions are the buildx probe and its warning,
    the existence tests for [requirements.frozen.txt] and
    [requirements.txt], reading [requirements.txt], warnings about
    unparseable requirements, and looking up the user name and id. *)
Theorem generate_dockerfile_sagemaker_effects :
  forall h api launch_project entry_cmd w,
    let script := train_path launch_project in
    let rw := generate_dockerfile h api launch_project entry_cmd "sagemaker" w in
    extends (is_render_event launch_project) (String.eqb script) w (snd rw)
    /\ match fst rw with
       | Ok doc =>
           fs (snd rw) !! script = Some (File entry_cmd)
           /\ (exists image reqs base uid,
                 doc = DOCKERFILE_TEMPLATE image reqs base "USER root"
                         ("/home/" ++ getuser h) uid
                         (SAGEMAKER_ENTRYPOINT_TEMPLATE ("/home/" ++ getuser h)))
       | Raise _ => True
       end
    /\ (forall workdir,
          SAGEMAKER_ENTRYPOINT_TEMPLATE workdir
          = NL ++ "COPY ./src/train " ++ workdir ++ NL
            ++ "RUN chmod +x " ++ workdir ++ "/train" ++ NL
            ++ ENTRYPOINT_SH_TRAIN ++ NL).
Proof.
  intros h api lp entry_cmd w script rw. subst script rw.
  split; [apply confined_generate_dockerfile|]. split.
  - destruct (generate_dockerfile h api lp entry_cmd "sagemaker" w) as [[doc|e] w'] eqn:E;
      [|exact I].
    cbn [fst snd]. unfold generate_dockerfile in E.
    apply bind_ok_inv in E as ([py_version py_major] & w1 & _ & E).
    apply bind_ok_inv in E as (reqs & w2 & _ & E).
    apply bind_ok_inv in E as ([username userid] & w3 & Huser & E).
    apply bind_ok_inv in E as (frag & w4 & Hentry & E).
    apply bind_ok_inv in E as (image & w5 & Himage & E).
    apply get_docker_user_name in Huser. cbn [fst] in Huser. subst username.
    apply get_entrypoint_setup_sagemaker in Hentry as [-> ->].
    match type of Himage with
    | read_local _ ?v _ = _ => destruct v as [img|]; [|discriminate Himage]
    end.
    injection Himage as <- <-. injection E as <- <-. split.
    + cbn [fs set_fs]. apply lookup_insert_eq.
    + eauto.
  - intros workdir. unfold SAGEMAKER_ENTRYPOINT_TEMPLATE, unlines, ENTRYPOINT_SH_TRAIN.
    cbn [map String.concat]. rewrite ?str_app_assoc, ?str_app_nil_r. reflexivity.
Qed.

(** ** Building the image *)

Section BuildContext.

Lemma path_join_longer a b :
  String.length a + String.length b <= String.length (path_join a b) \/ String.prefix "/" b = true.
Proof.
  unfold path_join. destruct (String.prefix "/" b); [now right|left].
  destruct (is_empty a || ends_with_slash a); rewrite !str_length_app; simpl; lia.
Qed.

Lemma dir_prefix_longer d : String.length d <= String.length (dir_prefix d).
Proof.
  unfold dir_prefix. destruct (ends_with_slash d); [lia|].
  rewrite str_length_app. lia.
Qed.

Lemma mkdtemp_dir name w d w' :
  mkdtemp name w = (Ok d, w') -> fs w' !! d = Some Dir.
Proof.
  unfold mkdtemp. msimpl. destruct (fs w !! name (fs w)); [discriminate|].
  destruct (parent_ok (fs w) (name (fs w))); [|discriminate].
  intros [= <- <-]. msimpl. apply lookup_insert_eq.
Qed.

Lemma write_file_keeps_dir p c w w' d :
  write_file p c w = (Ok tt, w') -> fs w !! d = Some Dir -> fs w' !! d = Some Dir.
Proof.
  unfold write_file. msimpl. intros H Hd.
  destruct (decide (p = d)) as [->|Hne].
  - rewrite Hd in H. discriminate H.
  - destruct (fs w !! p) as [[c0|]|]; try discriminate H;
      destruct (parent_ok (fs w) p); try discriminate H;
      injection H as <-; msimpl; now rewrite lookup_insert_ne.
Qed.

Lemma copy_keeps_dir src dst w w' d :
  copy src dst w = (Ok tt, w') -> fs w !! d = Some Dir -> fs w' !! d = Some Dir.
Proof.
  unfold copy. msimpl. intros H Hd.
  set (target := match fs w !! dst with
                 | Some Dir => path_join dst (basename src)
                 | _ => dst
                 end) in *.
  destruct (fs w !! src) as [[c|]|]; try discriminate H.
  destruct (decide (target = d)) as [E|Hne].
  - rewrite E, Hd in H. discriminate H.
  - destruct (fs w !! target) as [[c0|]|]; try discriminate H;
      destruct (parent_ok (fs w) target); try discriminate H;
      injection H as <-; msimpl; now rewrite lookup_insert_ne.
Qed.

Lemma copytree_keeps_dir src w w' d :
  copytree src (path_join d "src") w = (Ok tt, w') ->
  fs w !! d = Some Dir -> fs w' !! d = Some Dir.
Proof.
  unfold copytree. msimpl. intros H Hd.
  destruct (fs w !! src) as [[c|]|]; try discriminate H.
  destruct (fs w !! path_join d "src") eqn:Hdst; [discriminate H|].
  injection H as <-. msimpl.
  assert (Hlen : String.length d + 3 <= String.length (path_join d "src")).
  { destruct (path_join_longer d "src") as [Hl|Hp]; [exact Hl | discriminate Hp]. }
  apply (map_fold_weak_ind (fun r _ => r !! d = Some Dir)).
  - rewrite lookup_insert_ne; [exact Hd|]. intros E. rewrite E in Hlen. lia.
  - intros p n m r _ Hr. unfold copy_entry.
    destruct (strip_prefix (dir_prefix src) p) as [rest|]; [|exact Hr].
    destruct (is_empty rest); [exact Hr|].
    rewrite lookup_insert_ne; [exact Hr|]. intros E.
    pose proof (dir_prefix_longer (path_join d "src")) as Hp.
    apply (f_equal String.length) in E. rewrite str_length_app in E. lia.
Qed.

Variable h : Host.

(** A build context that was created is a directory of the file system. *)
Lemma create_docker_build_ctx_dir launch_project dockerfile_contents w ctx w' :
  _create_docker_build_ctx h launch_project dockerfile_contents w = (Ok ctx, w') ->
  fs w' !! ctx = Some Dir.
Proof.
  unfold _create_docker_build_ctx. intros E.
  apply bind_ok_inv in E as (directory & w1 & Hmk & E).
  apply bind_ok_inv in E as ([] & w2 & Htree & E).
  apply bind_ok_inv in E as ([] & w3 & Hcopy & E).
  apply bind_ok_inv in E as ([] & w4 & Hrt & E).
  apply bind_ok_inv in E as ([] & w5 & Hdf & E).
  injection E as <- <-.
  apply mkdtemp_dir in Hmk.
  apply (copytree_keeps_dir _ _ _ _ Htree) in Hmk.
  apply (copy_keeps_dir _ _ _ _ _ Hcopy) in Hmk.
  apply (write_file_keeps_dir _ _ _ _ _ Hdf).
  destruct (truthy_opt (python_version launch_project)).
  - apply (write_file_keeps_dir _ _ _ _ _ Hrt Hmk).
  - injection Hrt as <-. exact Hmk.
Qed.

(** Up to the engine build, a run of [generate_docker_image] that got
    as far as a build context [ctx] in world [w3]. *)
Lemma generate_docker_image_unfold api launch_project image_uri entrypoint docker_args
    runner_type w entry_cmd doc w1 w2 ctx w3 :
  first_item (get_entry_point_command h entrypoint (override_args launch_project))
    = Ok entry_cmd ->
  generate_dockerfile h api launch_project entry_cmd runner_type w = (Ok doc, w1) ->
  create_metadata_file h launch_project image_uri (sanitize_wandb_api_key h entry_cmd)
    docker_args (sanitize_wandb_api_key h doc) w1 = (Ok tt, w2) ->
  _create_docker_build_ctx h launch_project doc w2 = (Ok ctx, w3) ->
  generate_docker_image h api launch_project image_uri entrypoint docker_args runner_type w
  = match docker_build h (trace w3) [image_uri]
            (path_join ctx _GENERATED_DOCKERFILE_NAME) ctx with
    | Ok image =>
        (Ok image,
         add_event (LogInfo ("Temporary docker context file " ++ ctx ++ " was not deleted."))
           (add_event (FsRemove ctx)
              (add_event (DockerBuild image_uri
                            (path_join ctx _GENERATED_DOCKERFILE_NAME) ctx) w3)))
    | Raise (DockerError msg) =>
        (Raise (LaunchError ("Error communicating with docker client: " ++ msg)),
         add_event (DockerBuild image_uri (path_join ctx _GENERATED_DOCKERFILE_NAME) ctx) w3)
    | Raise e =>
        (Raise e,
         add_event (DockerBuild image_uri (path_join ctx _GENERATED_DOCKERFILE_NAME) ctx) w3)
    end.
Proof.
  intros Hcmd Hdoc Hmeta Hctx.
  pose proof (create_docker_build_ctx_dir _ _ _ _ _ Hctx) as Hdir.
  unfold generate_docker_image, bind at 1. unfold lift at 1. rewrite Hcmd.
  unfold bind at 1. rewrite Hdoc. unfold bind at 1. rewrite Hmeta.
  unfold bind at 1. rewrite Hctx.
  unfold bind, try_except, docker_build_call, remove, raise, emit, ret. msimpl.
  change (join "," [image_uri]) with image_uri.
  destruct (docker_build h (trace w3) [image_uri] _ ctx) as [image|e].
  - msimpl. rewrite Hdir. reflexivity.
  - destruct e; reflexivity.
Qed.

End BuildContext.

(** C2, on the failing path: when the engine build raises [DockerError],
    [generate_docker_image] raises [LaunchError] straight away; the build
    context is still a directory of the file system, no removal was
    attempted and nothing was logged about it (the build is the last
    event). *)
Theorem generate_docker_image_build_failure_leaves_context :
  forall h api launch_project image_uri entrypoint docker_args runner_type
         w entry_cmd doc w1 w2 ctx w3 msg,
    first_item (get_entry_point_command h entrypoint (override_args launch_project))
      = Ok entry_cmd ->
    generate_dockerfile h api launch_project entry_cmd runner_type w = (Ok doc, w1) ->
    create_metadata_file h launch_project image_uri (sanitize_wandb_api_key h entry_cmd)
      docker_args (sanitize_wandb_api_key h doc) w1 = (Ok tt, w2) ->
    _create_docker_build_ctx h launch_project doc w2 = (Ok ctx, w3) ->
    docker_build h (trace w3) [image_uri] (path_join ctx _GENERATED_DOCKERFILE_NAME) ctx
      = Raise (DockerError msg) ->
    let build := DockerBuild image_uri (path_join ctx _GENERATED_DOCKERFILE_NAME) ctx in
    let r := generate_docker_image h api launch_project image_uri entrypoint docker_args
               runner_type w in
    fst r = Raise (LaunchError ("Error communicating with docker client: " ++ msg))
    /\ fs (snd r) !! ctx = Some Dir
    /\ trace (snd r) = (trace w3 ++ [build])%list.
Proof.
  intros h api lp image_uri entrypoint docker_args runner_type w entry_cmd doc w1 w2 ctx w3
    msg Hcmd Hdoc Hmeta Hctx Hbuild build r. subst build r.
  rewrite (generate_docker_image_unfold h api lp image_uri entrypoint docker_args runner_type
             w entry_cmd doc w1 w2 ctx w3 Hcmd Hdoc Hmeta Hctx), Hbuild.
  msimpl. split; [reflexivity|]. split; [|reflexivity].
  now apply (create_docker_build_ctx_dir h lp doc w2).
Qed.

Lemma generate_docker_image_build_failure_witness :
  let h := Sample.failing_build_host in
  let lp := Sample.project (Some "pip") in
  let r1 := generate_dockerfile h Sample.api lp "python train.py" "local"
              Sample.frozen_world in
  let doc := match fst r1 with Ok d => d | Raise _ => "" end in
  let r3 := _create_docker_build_ctx h lp doc (snd r1) in
  let r := generate_docker_image h Sample.api lp "img:tag" "python train.py" None "local"
             Sample.frozen_world in
  (first_item (get_entry_point_command h "python train.py" (override_args lp))
     = Ok "python train.py"
   /\ r1 = (Ok doc, snd r1)
   /\ create_metadata_file h lp "img:tag" (sanitize_wandb_api_key h "python train.py") None
        (sanitize_wandb_api_key h doc) (snd r1) = (Ok tt, snd r1)
   /\ r3 = (Ok "/tmp/tmpctx", snd r3)
   /\ docker_build h (trace (snd r3)) ["img:tag"]
        (path_join "/tmp/tmpctx" _GENERATED_DOCKERFILE_NAME) "/tmp/tmpctx"
      = Raise (DockerError "build failed"))
  /\ fst r = Raise (LaunchError "Error communicating with docker client: build failed")
  /\ fs (snd r) !! "/tmp/tmpctx" = Some Dir.
Proof.
  cbv zeta.
  assert (H1 : first_item (get_entry_point_command Sample.failing_build_host
                             "python train.py"
                             (override_args (Sample.project (Some "pip"))))
               = Ok "python train.py") by reflexivity.
  split; [split; [exact H1|split; [|split; [|split]]; vm_compute; reflexivity]|].
  destruct (generate_docker_image_build_failure_leaves_context
              Sample.failing_build_host Sample.api (Sample.project (Some "pip"))
              "img:tag" "python train.py" None "local" Sample.frozen_world
              "python train.py"
              (match fst (generate_dockerfile Sample.failing_build_host Sample.api
                            (Sample.project (Some "pip")) "python train.py" "local"
                            Sample.frozen_world) with Ok d => d | Raise _ => "" end)
              (snd (generate_dockerfile Sample.failing_build_host Sample.api
                      (Sample.project (Some "pip")) "python train.py" "local"
                      Sample.frozen_world))
              (snd (generate_dockerfile Sample.failing_build_host Sample.api
                      (Sample.project (Some "pip")) "python train.py" "local"
                      Sample.frozen_world))
              "/tmp/tmpctx"
              (snd (_create_docker_build_ctx Sample.failing_build_host
                      (Sample.project (Some "pip"))
                      (match fst (generate_dockerfile Sample.failing_build_host Sample.api
                                    (Sample.project (Some "pip")) "python train.py" "local"
                                    Sample.frozen_world) with Ok d => d | Raise _ => "" end)
                      (snd (generate_dockerfile Sample.failing_build_host Sample.api
                              (Sample.project (Some "pip")) "python train.py" "local"
                              Sample.frozen_world))))
              "build failed" H1)
    as (Hr & Hdir & _); [vm_compute; reflexivity..|].
  split; [exact Hr | exact Hdir].
Defined.

(** The sibling path: when the build succeeds, [os.remove] is tried on the
    context directory, fails because it is a directory, and the failure is
    logged at level info; the directory stays. *)
Lemma generate_docker_image_success_keeps_context :
  forall h api launch_project image_uri entrypoint docker_args runner_type
         w entry_cmd doc w1 w2 ctx w3 image,
    first_item (get_entry_point_command h entrypoint (override_args launch_project))
      = Ok entry_cmd ->
    generate_dockerfile h api launch_project entry_cmd runner_type w = (Ok doc, w1) ->
    create_metadata_file h launch_project image_uri (sanitize_wandb_api_key h entry_cmd)
      docker_args (sanitize_wandb_api_key h doc) w1 = (Ok tt, w2) ->
    _create_docker_build_ctx h launch_project doc w2 = (Ok ctx, w3) ->
    docker_build h (trace w3) [image_uri] (path_join ctx _GENERATED_DOCKERFILE_NAME) ctx
      = Ok image ->
    let r := generate_docker_image h api launch_project image_uri entrypoint docker_args
               runner_type w in
    fst r = Ok image
    /\ fs (snd r) !! ctx = Some Dir
    /\ trace (snd r)
       = (trace w3 ++
          [DockerBuild image_uri (path_join ctx _GENERATED_DOCKERFILE_NAME) ctx;
           FsRemove ctx;
           LogInfo ("Temporary docker context file " ++ ctx ++ " was not deleted.")])%list.
Proof.
  intros h api lp image_uri entrypoint docker_args runner_type w entry_cmd doc w1 w2 ctx w3
    image Hcmd Hdoc Hmeta Hctx Hbuild r. subst r.
  rewrite (generate_docker_image_unfold h api lp image_uri entrypoint docker_args runner_type
             w entry_cmd doc w1 w2 ctx w3 Hcmd Hdoc Hmeta Hctx), Hbuild.
  msimpl. split; [reflexivity|]. split.
  - now apply (create_docker_build_ctx_dir h lp doc w2).
  - now rewrite <- !app_assoc.
Qed.

(** For sagemaker the launcher script, written into the project directory
    while rendering, reaches the build context with the copy of the
    project; both the context and the script in the project stay behind. *)
Example sagemaker_script_reaches_context :
  let r := generate_docker_image Sample.pip_host Sample.api (Sample.project (Some "pip"))
             "img:tag" "python train.py" None "sagemaker" Sample.frozen_world in
  fst r = Ok "sha256:0"
  /\ fs (snd r) !! "/proj/train" = Some (File "python train.py")
  /\ fs (snd r) !! "/tmp/tmpctx/src/train" = Some (File "python train.py")
  /\ fs (snd r) !! "/tmp/tmpctx" = Some Dir.
Proof. cbv zeta. split; [|split; [|split]]; vm_compute; reflexivity. Qed.

(** * Further properties of the module *)

(** ** [str.split(sep)] and [sep.join] *)

Section SplitSep.

Variable sep : ascii.

Lemma split_sep_cons s : exists t ts, split_sep sep s = t :: ts.
Proof.
  induction s as [|c s (t & ts & IH)]; cbn [split_sep]; [eauto|].
  destruct (Ascii.eqb c sep); [eauto|]. rewrite IH. eauto.
Qed.

Lemma split_sep_free s : Forall (fun t => free_of sep t = true) (split_sep sep s).
Proof.
  induction s as [|c s IH]; cbn [split_sep]; [repeat constructor|].
  destruct (Ascii.eqb c sep) eqn:Hc; [constructor; [reflexivity | exact IH]|].
  destruct (split_sep sep s) as [|t ts]; [repeat constructor; cbn; now rewrite Hc|].
  inversion IH as [|? ? Ht Hts]; subst. constructor; [|exact Hts].
  unfold free_of in *. cbn [forall_chars]. now rewrite Hc, Ht.
Qed.

(** A piece free of the separator, followed by the separator, is the
    first item of the split. *)
Lemma split_sep_app a b :
  free_of sep a = true -> split_sep sep (a ++ String sep b) = a :: split_sep sep b.
Proof.
  induction a as [|c a IH]; intros Ha.
  - change ("" ++ String sep b) with (String sep b). cbn [split_sep].
    now rewrite Ascii.eqb_refl.
  - unfold free_of in Ha. cbn [forall_chars] in Ha. apply andb_prop in Ha as [Hc Ha].
    apply negb_true_iff in Hc.
    change (String c a ++ String sep b) with (String c (a ++ String sep b)).
    cbn [split_sep]. rewrite Hc, (IH Ha). reflexivity.
Qed.

Lemma split_sep_whole a : free_of sep a = true -> split_sep sep a = [a].
Proof.
  induction a as [|c a IH]; intros Ha; [reflexivity|].
  unfold free_of in Ha. cbn [forall_chars] in Ha. apply andb_prop in Ha as [Hc Ha].
  apply negb_true_iff in Hc. cbn [split_sep]. rewrite Hc, (IH Ha). reflexivity.
Qed.

(** [sep.join(s.split(sep)) == s]. *)
Lemma join_split_sep s : join (String sep "") (split_sep sep s) = s.
Proof.
  unfold join. induction s as [|c s IH]; [reflexivity|].
  cbn [split_sep].
  destruct (split_sep_cons s) as (t & ts & E). rewrite E in *.
  destruct (Ascii.eqb c sep) eqn:Hc.
  - apply Ascii.eqb_eq in Hc as ->.
    change (String.concat (String sep "") ("" :: t :: ts))
      with ("" ++ String sep "" ++ String.concat (String sep "") (t :: ts)).
    rewrite IH. reflexivity.
  - destruct ts as [|u ts].
    + cbn [String.concat] in *. now rewrite IH.
    + change (String.concat (String sep "") (String c t :: u :: ts))
        with (String c (t ++ String sep "" ++ String.concat (String sep "") (u :: ts))).
      f_equal. exact IH.
Qed.

End SplitSep.

(** ** Interpreter version, registry URIs, service URL *)

(** X1. The interpreter version taken from [sys.version] is read off
    the first whitespace-separated token: it is that token's first
    dot-separated piece, a dot, and the second piece, or [0] when there
    is none, so it holds exactly one dot.  The only failure is
    [IndexError], exactly when [sys.version] is blank. *)
Theorem get_current_python_version_shape :
  forall h,
    match get_current_python_version h with
    | Ok (version, major) =>
        exists token rest pieces,
          split (sys_version h) = token :: rest
          /\ split_sep "." token = major :: pieces
          /\ version = major ++ "." ++ hd "0" pieces
          /\ free_of "." major = true
          /\ free_of "." (hd "0" pieces) = true
    | Raise e =>
        split (sys_version h) = [] /\ e = IndexError "list index out of range"
    end.
Proof.
  intros h. unfold get_current_python_version.
  destruct (split (sys_version h)) as [|token rest]; cbn [first_item result_bind];
    [now split|].
  pose proof (split_sep_free "." token) as Hfree.
  destruct (split_sep "." token) as [|major pieces] eqn:E;
    [destruct (split_sep_cons "." token) as (? & ? & E'); congruence|].
  cbn [first_item result_bind].
  inversion Hfree as [|? ? Hm Hp]; subst.
  exists token, rest, pieces. split; [reflexivity|]. split; [exact E|].
  destruct pieces as [|minor pieces]; cbn [length Nat.leb firstn hd].
  - split; [reflexivity|]. split; [exact Hm | reflexivity].
  - inversion Hp; subst. split; [reflexivity|]. split; assumption.
Qed.

(** X2. A registry URI splits at slashes into the registry host, the
    project, the repository and then the pieces of the local URI, as long
    as the three names hold no slash: the local URI, tag included, is
    carried over unchanged. *)
Theorem construct_gcp_image_uri_split :
  forall h launch_project gcp_repo gcp_project gcp_registry,
    free_of "/" gcp_registry = true ->
    free_of "/" gcp_project = true ->
    free_of "/" gcp_repo = true ->
    split_sep "/" (construct_gcp_image_uri h launch_project gcp_repo gcp_project gcp_registry)
    = gcp_registry :: gcp_project :: gcp_repo
        :: split_sep "/" (construct_local_image_uri h launch_project).
Proof.
  intros h lp repo project registry Hr Hp Hrepo.
  unfold construct_gcp_image_uri, join. cbn [String.concat].
  change ("/" ++ ?x) with (String "/" x).
  rewrite (split_sep_app "/" registry _ Hr).
  change ("/" ++ repo ++ "/" ++ construct_local_image_uri h lp)
    with (String "/" (repo ++ "/" ++ construct_local_image_uri h lp)).
  rewrite (split_sep_app "/" project _ Hp).
  change ("/" ++ construct_local_image_uri h lp)
    with (String "/" (construct_local_image_uri h lp)).
  now rewrite (split_sep_app "/" repo _ Hrepo).
Qed.

Lemma construct_gcp_image_uri_split_witness :
  (free_of "/" "gcr.io" = true /\ free_of "/" "proj" = true /\ free_of "/" "repo" = true)
  /\ split_sep "/" (construct_gcp_image_uri (Sample.host Sample.engine_fails (Ok "") "linux"
                                             true [] (Some "abcdef0123"))
                      (Sample.project (Some "pip")) "repo" "proj" "gcr.io")
     = ["gcr.io"; "proj"; "repo"; "my-image:abcdef0run1"].
Proof.
  split; [repeat split|].
  apply (construct_gcp_image_uri_split
           (Sample.host Sample.engine_fails (Ok "") "linux" true [] (Some "abcdef0123"))
           (Sample.project (Some "pip")) "repo" "proj" "gcr.io"); reflexivity.
Defined.

(** X3. On macOS a local service URL [scheme://host:port] is replaced by
    [http://host.docker.internal:port]: the port is kept, the host and the
    scheme (also [https]) are not. *)
Theorem get_env_vars_dict_keeps_port :
  forall h launch_project api scheme host port,
    _is_wandb_local_uri h (base_url api) = true ->
    sys_platform h = "darwin" ->
    base_url api = scheme ++ "://" ++ host ++ ":" ++ port ->
    free_of ":" scheme = true -> free_of ":" host = true -> free_of ":" port = true ->
    exists env,
      get_env_vars_dict h launch_project api = Ok env
      /\ dict_get "WANDB_BASE_URL" env = Some ("http://host.docker.internal:" ++ port).
Proof.
  intros h lp api scheme host port Hlocal Hdarwin Hurl Hs Hh Hp.
  unfold get_env_vars_dict. rewrite Hlocal, Hdarwin, Hurl. cbn [andb String.eqb].
  change (String.eqb "darwin" "darwin") with true. cbv iota.
  change (scheme ++ "://" ++ host ++ ":" ++ port)
    with (scheme ++ String ":" (("//" ++ host) ++ String ":" port)).
  rewrite (split_sep_app ":" scheme _ Hs).
  assert (Hh' : free_of ":" ("//" ++ host) = true) by exact Hh.
  rewrite (split_sep_app ":" ("//" ++ host) _ Hh'), (split_sep_whole ":" port Hp).
  cbn [result_bind]. eexists. split; [reflexivity|].
  destruct (truthy_opt (docker_image lp)); reflexivity.
Qed.

Lemma get_env_vars_dict_keeps_port_witness :
  let h := Sample.host Sample.engine_fails (Ok "") "darwin" true [] None in
  let api := mkApi "https://localhost:9443" "key" in
  (_is_wandb_local_uri h (base_url api) = true
   /\ sys_platform h = "darwin"
   /\ base_url api = "https" ++ "://" ++ "localhost" ++ ":" ++ "9443"
   /\ free_of ":" "https" = true /\ free_of ":" "localhost" = true
   /\ free_of ":" "9443" = true)
  /\ exists env,
       get_env_vars_dict h (Sample.project (Some "pip")) api = Ok env
       /\ dict_get "WANDB_BASE_URL" env = Some ("http://host.docker.internal:" ++ "9443").
Proof.
  cbv zeta. split; [repeat split|].
  apply (get_env_vars_dict_keeps_port
           (Sample.host Sample.engine_fails (Ok "") "darwin" true [] None)
           (Sample.project (Some "pip")) (mkApi "https://localhost:9443" "key")
           "https" "localhost" "9443"); reflexivity.
Defined.

(** X4. On macOS a local service URL without a port, [scheme://host],
    makes [get_env_vars_dict] raise [ValueError]: the unpacking of
    [split(":")] finds two parts instead of three, and says so. *)
Theorem get_env_vars_dict_needs_port :
  forall h launch_project api scheme host,
    _is_wandb_local_uri h (base_url api) = true ->
    sys_platform h = "darwin" ->
    base_url api = scheme ++ "://" ++ host ->
    free_of ":" scheme = true -> free_of ":" host = true ->
    get_env_vars_dict h launch_project api
    = Raise (ValueError "not enough values to unpack (expected 3, got 2)").
Proof.
  intros h lp api scheme host Hlocal Hdarwin Hurl Hs Hh.
  unfold get_env_vars_dict. rewrite Hlocal, Hdarwin, Hurl. cbn [andb String.eqb].
  change (String.eqb "darwin" "darwin") with true. cbv iota.
  change (scheme ++ "://" ++ host) with (scheme ++ String ":" ("//" ++ host)).
  rewrite (split_sep_app ":" scheme _ Hs).
  assert (Hh' : free_of ":" ("//" ++ host) = true) by exact Hh.
  rewrite (split_sep_whole ":" _ Hh'). reflexivity.
Qed.

Lemma get_env_vars_dict_needs_port_witness :
  let h := Sample.host Sample.engine_fails (Ok "") "darwin" true [] None in
  let api := mkApi "http://localhost" "key" in
  (_is_wandb_local_uri h (base_url api) = true
   /\ sys_platform h = "darwin"
   /\ base_url api = "http" ++ "://" ++ "localhost"
   /\ free_of ":" "http" = true /\ free_of ":" "localhost" = true)
  /\ get_env_vars_dict h (Sample.project (Some "pip")) api
     = Raise (ValueError "not enough values to unpack (expected 3, got 2)").
Proof.
  cbv zeta. split; [repeat split|].
  apply (get_env_vars_dict_needs_port
           (Sample.host Sample.engine_fails (Ok "") "darwin" true [] None)
           (Sample.project (Some "pip")) (mkApi "http://localhost" "key")
           "http" "localhost"); reflexivity.
Defined.

(** ** Reading the run command back *)

Section ShellQuoting.

Lemma sh_read_safe_char c t :
  Shlex.is_safe c = true ->
  sh_read ShPlain (String c t) = option_map (String c) (sh_read ShPlain t).
Proof.
  destruct c as [[] [] [] [] [] [] [] []]; intros H;
    first [discriminate H | reflexivity].
Qed.

Lemma sh_read_safe s rest :
  forall_chars Shlex.is_safe s = true ->
  sh_read ShPlain (s ++ rest) = option_map (String.append s) (sh_read ShPlain rest).
Proof.
  induction s as [|c s IH]; intros Hs.
  - change ("" ++ rest) with rest. now destruct (sh_read ShPlain rest).
  - cbn [forall_chars] in Hs. apply andb_prop in Hs as [Hc Hs].
    change (String c s ++ rest) with (String c (s ++ rest)).
    rewrite (sh_read_safe_char c _ Hc), (IH Hs).
    now destruct (sh_read ShPlain rest).
Qed.

Lemma sh_read_single_char c t :
  Ascii.eqb c "'" = false ->
  sh_read ShSingle (String c t) = option_map (String c) (sh_read ShSingle t).
Proof.
  destruct c as [[] [] [] [] [] [] [] []]; intros H;
    first [discriminate H | reflexivity].
Qed.

(** Inside single quotes the escaped text reads back as the original. *)
Lemma sh_read_escape_quotes s rest :
  sh_read ShSingle (Shlex.escape_quotes s ++ "'" ++ rest)
  = option_map (String.append s) (sh_read ShPlain rest).
Proof.
  induction s as [|c s IH].
  - change (Shlex.escape_quotes "" ++ "'" ++ rest) with (String "'" rest).
    cbn [sh_read]. change (is_char 39 "'") with true. cbv iota.
    now destruct (sh_read ShPlain rest).
  - cbn [Shlex.escape_quotes]. destruct (Ascii.eqb c "'") eqn:Hc.
    + apply Ascii.eqb_eq in Hc as ->. rewrite !str_app_assoc.
      change ("'" ++ DQ ++ "'" ++ DQ ++ "'" ++ Shlex.escape_quotes s ++ "'" ++ rest)
        with (String "'" (String "034" (String "'" (String "034"
               (String "'" (Shlex.escape_quotes s ++ "'" ++ rest)))))).
      cbn [sh_read]. change (is_char 39 "'") with true.
      change (is_char 34 "034") with true. change (is_char 34 "'") with false.
      change (is_char 92 "'") with false. change (is_sh_space "034") with false.
      change (is_sh_space "'") with false. change (is_char 39 "034") with false.
      cbv iota. rewrite IH. now destruct (sh_read ShPlain rest).
    + rewrite str_app_assoc.
      change (String c "" ++ Shlex.escape_quotes s ++ "'" ++ rest)
        with (String c (Shlex.escape_quotes s ++ "'" ++ rest)).
      rewrite (sh_read_single_char c _ Hc), IH. now destruct (sh_read ShPlain rest).
Qed.

(** [shlex_quote] followed by more text: the shell reads the original
    string and goes on. *)
Lemma sh_read_quote s rest :
  sh_read ShPlain (shlex_quote s ++ rest)
  = option_map (String.append s) (sh_read ShPlain rest).
Proof.
  unfold shlex_quote, Shlex.quote. destruct s as [|c s].
  - cbn [is_empty]. change ("''" ++ rest) with (String "'" (String "'" rest)).
    cbn [sh_read]. change (is_char 39 "'") with true.
    change (is_sh_space "'") with false. cbv iota.
    now destruct (sh_read ShPlain rest).
  - cbn [is_empty]. destruct (forall_chars Shlex.is_safe (String c s)) eqn:Hs.
    + now apply sh_read_safe.
    + rewrite !str_app_assoc.
      change ("'" ++ Shlex.escape_quotes (String c s) ++ "'" ++ rest)
        with (String "'" (Shlex.escape_quotes (String c s) ++ "'" ++ rest)).
      cbn [sh_read]. change (is_char 39 "'") with true.
      change (is_sh_space "'") with false. cbv iota.
      apply sh_read_escape_quotes.
Qed.

Lemma shlex_quote_not_empty s : is_empty (shlex_quote s) = false.
Proof.
  unfold shlex_quote, Shlex.quote. destruct s as [|c s]; [reflexivity|].
  cbn [is_empty]. now destruct (forall_chars Shlex.is_safe (String c s)).
Qed.

Lemma sh_word_quote s : sh_word (shlex_quote s) = Some s.
Proof.
  unfold sh_word. rewrite shlex_quote_not_empty.
  rewrite <- (str_app_nil_r (shlex_quote s)), sh_read_quote.
  cbn. now rewrite str_app_nil_r.
Qed.

Lemma sh_word_prefixed p s :
  is_empty p = false -> forall_chars Shlex.is_safe p = true ->
  sh_word (p ++ shlex_quote s) = Some (p ++ s).
Proof.
  intros Hne Hp. unfold sh_word.
  destruct p as [|c p]; [discriminate Hne|].
  change (is_empty (String c p ++ shlex_quote s)) with false. cbv iota.
  rewrite (sh_read_safe _ _ Hp), <- (str_app_nil_r (shlex_quote s)), sh_read_quote.
  cbn [sh_read option_map]. now rewrite str_app_nil_r.
Qed.

Lemma sh_word_env k v :
  sh_word (shlex_quote k ++ "=" ++ shlex_quote v) = Some (k ++ "=" ++ v).
Proof.
  unfold sh_word.
  assert (Hne : is_empty (shlex_quote k ++ "=" ++ shlex_quote v) = false).
  { pose proof (shlex_quote_not_empty k). now destruct (shlex_quote k). }
  rewrite Hne, sh_read_quote.
  change ("=" ++ shlex_quote v) with (String "=" (shlex_quote v)).
  rewrite (sh_read_safe_char "=" _ eq_refl).
  rewrite <- (str_app_nil_r (shlex_quote v)), sh_read_quote.
  cbn [sh_read option_map]. now rewrite str_app_nil_r.
Qed.

Lemma sh_word_env_tokens kv : map sh_word (env_tokens kv) = map Some (plain_env_tokens kv).
Proof.
  destruct kv as [k v]. unfold env_tokens, plain_env_tokens. cbn [map fst snd].
  now rewrite sh_word_env.
Qed.

Lemma sh_word_flag_tokens nv :
  map sh_word (flag_tokens nv) = map Some (plain_flag_tokens nv).
Proof.
  destruct nv as [n v]. unfold flag_tokens, plain_flag_tokens. cbn [map fst snd].
  assert (Hd : sh_word (flag_dashes n ++ shlex_quote n) = Some (flag_dashes n ++ n)).
  { unfold flag_dashes. destruct (Nat.eqb (String.length n) 1);
      now apply sh_word_prefixed. }
  rewrite Hd. destruct (is_true v); cbn [map]; [reflexivity|].
  now rewrite sh_word_quote.
Qed.

Lemma map_concat_tokens {A} (f g : A -> list string) (l : list A) :
  (forall x, map sh_word (f x) = map Some (g x)) ->
  map sh_word (concat (map f l)) = map Some (concat (map g l)).
Proof.
  intros H. induction l as [|x l IH]; [reflexivity|].
  cbn [map concat]. now rewrite !map_app, H, IH.
Qed.

End ShellQuoting.

(** X5. Every token of the run command is one complete shell word, and
    read by the shell (quotes removed) the command is [docker run --rm],
    [-e KEY=VALUE] for every environment variable, the flags with their
    values, and the image, each exactly as given: whatever characters
    keys, values, flag names and the image hold. *)
Theorem get_docker_command_reads_back :
  forall image env_vars docker_args,
    map sh_word (get_docker_command image env_vars docker_args)
    = map Some (plain_command image env_vars docker_args).
Proof.
  intros image env_vars docker_args.
  rewrite get_docker_command_tokens. unfold plain_command.
  rewrite !map_app.
  rewrite (map_concat_tokens env_tokens plain_env_tokens _ sh_word_env_tokens).
  rewrite (map_concat_tokens flag_tokens plain_flag_tokens _ sh_word_flag_tokens).
  cbn [map]. now rewrite sh_word_quote.
Qed.

(** ** Whitespace in the entry command *)

Section Whitespace.

Lemma split_from_blank s :
  forall_chars isspace s = true -> split_from "" s = [].
Proof.
  induction s as [|c s IH]; [reflexivity|].
  cbn [forall_chars split_from]. intros [Hc Hs]%andb_prop.
  rewrite Hc. cbn [is_empty]. now apply IH.
Qed.

(** Splitting what was split and joined by single blanks changes nothing. *)
Lemma split_join_split s : split (join " " (split s)) = split s.
Proof. apply split_join_tokens. now apply split_from_tokens. Qed.

End Whitespace.

(** X6. For a backend other than sagemaker only the tokens of the entry
    command matter: the command and the command with its whitespace
    normalised (tokens joined by single blanks, none at either end)
    render the same entrypoint fragment. *)
Theorem get_entrypoint_setup_normalises_whitespace :
  forall launch_project entry_cmd workdir runner_type w,
    String.eqb runner_type "sagemaker" = false ->
    get_entrypoint_setup launch_project (join " " (split entry_cmd)) workdir runner_type w
    = get_entrypoint_setup launch_project entry_cmd workdir runner_type w.
Proof.
  intros lp entry_cmd workdir runner_type w Hrt.
  unfold get_entrypoint_setup. rewrite Hrt. now rewrite split_join_split.
Qed.

Lemma get_entrypoint_setup_normalises_whitespace_witness :
  String.eqb "local" "sagemaker" = false
  /\ get_entrypoint_setup (Sample.project (Some "pip"))
       (join " " (split "  python   train.py ")) "/home/alice" "local" Sample.empty_world
     = get_entrypoint_setup (Sample.project (Some "pip"))
         "  python   train.py " "/home/alice" "local" Sample.empty_world.
Proof.
  split; [reflexivity|].
  apply (get_entrypoint_setup_normalises_whitespace (Sample.project (Some "pip"))
           "  python   train.py " "/home/alice" "local" Sample.empty_world).
  reflexivity.
Defined.

(** X7. An entry command that is empty or all whitespace gives, for a
    backend other than sagemaker, the instruction [ENTRYPOINT []]: an
    entrypoint with no program at all, and no error. *)
Theorem get_entrypoint_setup_blank_command :
  forall launch_project entry_cmd workdir runner_type w,
    String.eqb runner_type "sagemaker" = false ->
    forall_chars isspace entry_cmd = true ->
    get_entrypoint_setup launch_project entry_cmd workdir runner_type w
    = (Ok "ENTRYPOINT []", w).
Proof.
  intros lp entry_cmd workdir runner_type w Hrt Hblank.
  unfold get_entrypoint_setup, split. rewrite Hrt, (split_from_blank _ Hblank).
  reflexivity.
Qed.

Lemma get_entrypoint_setup_blank_command_witness :
  (String.eqb "local" "sagemaker" = false /\ forall_chars isspace "   " = true)
  /\ get_entrypoint_setup (Sample.project (Some "pip")) "   " "/home/alice" "local"
       Sample.empty_world
     = (Ok "ENTRYPOINT []", Sample.empty_world).
Proof.
  split; [split; reflexivity|].
  apply (get_entrypoint_setup_blank_command (Sample.project (Some "pip")) "   "
           "/home/alice" "local" Sample.empty_world); reflexivity.
Defined.

(** ** Reading the project's requirements *)

Section ParsedRequirements.

Variable h : Host.

Lemma parse_loop_exact items include_only w :
  parse_loop items include_only w
  = (Ok (list_to_set (parsed_names items) ∪ include_only),
     after_events (parse_warnings items) w).
Proof.
  unfold after_events.
  revert include_only w. induction items as [|[pkg|e] items IH]; intros S w.
  - cbn [parse_loop parsed_names parse_warnings flat_map ret list_to_set].
    rewrite app_nil_r, (left_id_L ∅ (∪)). now destruct w.
  - change (parsed_names (Ok pkg :: items))
      with (shlex_quote (requirement_name pkg) :: parsed_names items).
    change (parse_warnings (Ok pkg :: items)) with (parse_warnings items).
    cbn [parse_loop]. rewrite IH, list_to_set_cons.
    now rewrite (assoc_L (∪)), (comm_L (∪) (list_to_set (parsed_names items))).
  - change (parsed_names (Raise e :: items)) with (parsed_names items).
    change (parse_warnings (Raise e :: items))
      with (LogWarn ("Unable to parse requirements.txt: " ++ exn_str e)
            :: parse_warnings items).
    cbn [parse_loop]. unfold bind, emit. rewrite IH.
    cbn [add_event fs inspected_images trace].
    now rewrite <- app_assoc.
Qed.

Lemma parse_existing_requirements_exact launch_project w :
  _parse_existing_requirements h launch_project w
  = match fs w !! requirements_path launch_project with
    | Some (File content) =>
        (Ok ("WANDB_ONLY_INCLUDE="
             ++ join "," (elements (list_to_set (parsed_names (parse_requirements h content))
                                    : gset string))
             ++ " "),
         after_events (FsExists (requirements_path launch_project)
                       :: FsRead (requirements_path launch_project)
                       :: parse_warnings (parse_requirements h content)) w)
    | Some Dir =>
        (Raise (OSError "IsADirectoryError" (requirements_path launch_project)),
         after_events [FsExists (requirements_path launch_project);
                       FsRead (requirements_path launch_project)] w)
    | None => (Ok "", after_events [FsExists (requirements_path launch_project)] w)
    end.
Proof.
  unfold _parse_existing_requirements, requirements_path, bind, path_exists, read_file, ret,
    after_events.
  msimpl.
  destruct (fs w !! path_join (project_dir launch_project) "requirements.txt")
    as [[content|]|] eqn:Hreq.
  - rewrite bool_decide_true by eauto. msimpl. rewrite Hreq. msimpl.
    rewrite parse_loop_exact, (right_id_L ∅ (∪)). unfold after_events. msimpl.
    change ("" ++ ?x) with x.
    rewrite <- (app_assoc _ _ (parse_warnings _)), <- (app_assoc (trace w)).
    reflexivity.
  - rewrite bool_decide_true by eauto. msimpl. rewrite Hreq. unfold add_event. msimpl.
    now rewrite <- app_assoc.
  - rewrite bool_decide_false by (intros [? ?]; discriminate). reflexivity.
Qed.

End ParsedRequirements.

(** X8. What [_parse_existing_requirements] does is fixed by what is at
    [requirements.txt]: nothing there gives the empty line; a file gives
    [WANDB_ONLY_INCLUDE=] followed by the quoted names of the readable
    requirements, each once, joined by commas, and a blank, with one
    warning logged per unreadable requirement and no failure; a directory
    there fails on opening it.  No file and no cache entry changes. *)
Theorem parse_existing_requirements_line :
  forall h launch_project w,
    let p := requirements_path launch_project in
    match fs w !! p with
    | Some (File content) =>
        let items := parse_requirements h content in
        exists names,
          _parse_existing_requirements h launch_project w
          = (Ok ("WANDB_ONLY_INCLUDE=" ++ join "," names ++ " "),
             after_events (FsExists p :: FsRead p :: parse_warnings items) w)
          /\ List.NoDup names
          /\ forall x, List.In x names <-> List.In x (parsed_names items)
    | Some Dir =>
        _parse_existing_requirements h launch_project w
        = (Raise (OSError "IsADirectoryError" p), after_events [FsExists p; FsRead p] w)
    | None =>
        _parse_existing_requirements h launch_project w
        = (Ok "", after_events [FsExists p] w)
    end.
Proof.
  intros h lp w p. subst p. rewrite parse_existing_requirements_exact.
  destruct (fs w !! requirements_path lp) as [[content|]|]; try reflexivity.
  intros items.
  exists (elements (list_to_set (parsed_names items) : gset string)).
  split; [reflexivity|]. split; [apply (proj1 (NoDup_ListNoDup _)), NoDup_elements|].
  intros x. rewrite <- !list_elem_of_In, elem_of_elements, elem_of_list_to_set.
  reflexivity.
Qed.

(** X9. The one step of [get_requirements_section] that can fail is
    opening [requirements.txt], which it does only for a pip project
    whose locked manifest exists: if it raises, the project declares pip,
    [requirements.frozen.txt] and [requirements.txt] both exist, and
    opening [requirements.txt] was the last thing done.  It does raise,
    [IsADirectoryError], when [requirements.txt] is a directory: its
    existence is tested, not its kind. *)
Theorem get_requirements_section_only_failure :
  forall h launch_project w,
    let r := get_requirements_section h launch_project w in
    let probe :=
      (BuildxProbe
       :: (if is_buildx_installed h then [] else [TermWarn BUILDX_WARNING]))%list in
    (forall e,
       fst r = Raise e ->
       opt_eqb (deps_type launch_project) "pip" = true
       /\ is_Some (fs w !! frozen_path launch_project)
       /\ is_Some (fs w !! requirements_path launch_project)
       /\ snd r = after_events (probe ++ [FsExists (frozen_path launch_project);
                                          FsExists (requirements_path launch_project);
                                          FsRead (requirements_path launch_project)]) w)
    /\ (opt_eqb (deps_type launch_project) "pip" = true ->
        is_Some (fs w !! frozen_path launch_project) ->
        fs w !! requirements_path launch_project = Some Dir ->
        fst r = Raise (OSError "IsADirectoryError" (requirements_path launch_project))).
Proof.
  intros h lp w. cbv zeta. unfold get_requirements_section. fold (frozen_path lp).
  unfold bind at 1. unfold emit at 1. msimpl.
  unfold bind at 1.
  destruct (is_buildx_installed h); cbn [negb]; unfold bind, emit, ret, path_exists; msimpl.
  all: destruct (opt_eqb (deps_type lp) "pip");
    [|split; [|intros HR; discriminate HR];
      destruct (opt_eqb (deps_type lp) "conda"); cbn [read_local ret fst];
      intros e HR; discriminate HR].
  all: destruct (bool_decide _) eqn:Hfrozen; msimpl;
    [apply bool_decide_eq_true in Hfrozen
    |apply bool_decide_eq_false in Hfrozen;
     split; [cbn [read_local ret fst]; intros e HR; discriminate HR
            |intros _ Hf; contradiction]].
  all: rewrite parse_existing_requirements_exact; msimpl.
  all: destruct (fs w !! requirements_path lp) as [[content|]|] eqn:Hreq;
    msimpl; cbn [read_local ret fst snd];
    (split; [intros e HR; try discriminate HR | intros _ _ HD; try discriminate HD]).
  all: try reflexivity.
  all: split; [reflexivity|]; split; [exact Hfrozen|]; split; [eauto|].
  all: unfold after_events, add_event; msimpl; now rewrite <- !app_assoc.
Qed.

Lemma get_requirements_section_only_failure_witness :
  let h := Sample.pip_host in
  let lp := Sample.project (Some "pip") in
  let w := mkWorld (<["/proj/requirements.txt" := Dir]> Sample.frozen_fs) ∅ [] in
  (opt_eqb (deps_type lp) "pip" = true
   /\ is_Some (fs w !! frozen_path lp)
   /\ fs w !! requirements_path lp = Some Dir)
  /\ fst (get_requirements_section h lp w)
     = Raise (OSError "IsADirectoryError" (requirements_path lp)).
Proof.
  intros h lp w.
  assert (Hf : is_Some (fs w !! frozen_path lp)) by (vm_compute; eauto).
  assert (Hd : fs w !! requirements_path lp = Some Dir) by (vm_compute; reflexivity).
  split; [split; [reflexivity|split; [exact Hf|exact Hd]]|].
  exact (proj2 (get_requirements_section_only_failure h lp w) eq_refl Hf Hd).
Defined.

(** ** Rendering the build file *)

Section BindSteps.

Context {A B : Type}.

Lemma bind_ok (m : M A) (k : A -> M B) w a w1 :
  m w = (Ok a, w1) -> bind m k w = k a w1.
Proof. unfold bind. now intros ->. Qed.

Lemma bind_raise (m : M A) (k : A -> M B) w e w1 :
  m w = (Raise e, w1) -> bind m k w = (Raise e, w1).
Proof. unfold bind. now intros ->. Qed.

End BindSteps.

Section RenderingSteps.

Variable h : Host.
Variable launch_project : LaunchProject.

Lemma get_docker_user_exact runner_type w :
  exists evs,
    get_docker_user h launch_project runner_type w
    = (Ok (getuser h, docker_uid h launch_project runner_type), after_events evs w)
    /\ forallb (is_read_event launch_project) evs = true.
Proof.
  unfold get_docker_user, docker_uid, bind, emit, ret, after_events, add_event. msimpl.
  destruct (_ && _); [now exists [GetUser]|].
  destruct (docker_user_id launch_project) as [u|]; [destruct (Z.eqb u 0)|]; msimpl;
    try (now exists [GetUser]);
    exists [GetUser; GetEuid]; now rewrite <- app_assoc.
Qed.

(** A pinned version always has a first piece. *)
Lemma pinned_version_step w :
  truthy_opt (python_version launch_project) = true ->
  exists major,
    (if truthy_opt (python_version launch_project)
     then
       let spl := firstn 2 (split_sep "." (default "" (python_version launch_project))) in
       let* major := lift (first_item spl) in ret (join "." spl, major)
     else lift (get_current_python_version h)) w
    = (Ok (major_minor (default "" (python_version launch_project)), major), w).
Proof.
  intros ->. cbv zeta. unfold major_minor.
  destruct (split_sep_cons "." (default "" (python_version launch_project)))
    as (t & ts & ->).
  exists t. reflexivity.
Qed.

Local Abbreviation reads := (confined (is_read_event launch_project) (fun _ => false)).

Lemma reads_parse_loop items include_only : reads (parse_loop items include_only).
Proof.
  revert include_only. induction items as [|[pkg|e] items IH]; intros S; cbn [parse_loop].
  - apply confined_ret.
  - apply IH.
  - apply confined_bind; [now apply confined_emit | intros _; apply IH].
Qed.

Lemma reads_parse_existing_requirements :
  reads (_parse_existing_requirements h launch_project).
Proof.
  unfold _parse_existing_requirements. fold (requirements_path launch_project).
  apply confined_bind;
    [apply confined_path_exists; cbn; apply is_render_exists_requirements|].
  intros [|]; [|apply confined_ret].
  apply confined_bind; [apply confined_read_file; cbn; apply String.eqb_refl|].
  intros f. apply confined_bind; [apply reads_parse_loop | intros; apply confined_ret].
Qed.

Lemma reads_get_requirements_section : reads (get_requirements_section h launch_project).
Proof.
  unfold get_requirements_section. fold (frozen_path launch_project).
  assert (is_read_event launch_project (FsExists (frozen_path launch_project)) = true)
    by apply is_render_exists_frozen.
  pose proof reads_parse_existing_requirements.
  repeat confined_step; auto with confined.
Qed.

Lemma reads_get_docker_user runner_type :
  reads (get_docker_user h launch_project runner_type).
Proof.
  unfold get_docker_user. repeat confined_step; auto with confined.
Qed.

Lemma reads_generate_dockerfile api entry_cmd runner_type :
  String.eqb runner_type "sagemaker" = false ->
  reads (generate_dockerfile h api launch_project entry_cmd runner_type).
Proof.
  intros Hrt. unfold generate_dockerfile, get_entrypoint_setup. rewrite Hrt.
  pose proof reads_get_requirements_section.
  pose proof (reads_get_docker_user runner_type).
  repeat confined_step; auto with confined.
Qed.

End RenderingSteps.

(** X10. A project whose [deps_type] is set to something other than pip
    or conda never gets a build file: rendering always ends in an
    exception.  With a pinned interpreter version and a backend other
    than sagemaker it is the [UnboundLocalError] of the build image that
    was never chosen. *)
Theorem generate_dockerfile_unknown_deps_type :
  forall h api launch_project entry_cmd runner_type w,
    deps_type launch_project <> None ->
    opt_eqb (deps_type launch_project) "pip" = false ->
    opt_eqb (deps_type launch_project) "conda" = false ->
    (exists e, fst (generate_dockerfile h api launch_project entry_cmd runner_type w)
               = Raise e)
    /\ (truthy_opt (python_version launch_project) = true ->
        String.eqb runner_type "sagemaker" = false ->
        fst (generate_dockerfile h api launch_project entry_cmd runner_type w)
        = Raise (UnboundLocalError "python_build_image")).
Proof.
  intros h api lp entry_cmd rt w Hnone Hpip Hconda.
  assert (Hsec : forall w0, exists w1, get_requirements_section h lp w0 = (Ok "", w1)).
  { intros w0. unfold get_requirements_section, bind, emit, ret. msimpl.
    rewrite Hpip, Hconda. destruct (is_buildx_installed h); cbn [negb]; msimpl; eauto. }
  unfold generate_dockerfile.
  rewrite Hpip, Hconda, bool_decide_false by exact Hnone. cbn [orb].
  split.
  - match goal with
    | |- context [fst (bind ?m ?k w)] =>
        destruct (m w) as [[[v major]|e] w1] eqn:Hpy;
        [rewrite (bind_ok _ _ _ _ _ Hpy) | rewrite (bind_raise _ _ _ _ _ Hpy); eauto]
    end.
    destruct (Hsec w1) as (w2 & Hs). rewrite (bind_ok _ _ _ _ _ Hs).
    destruct (get_docker_user_exact h lp rt w2) as (evs & Hu & _).
    rewrite (bind_ok _ _ _ _ _ Hu).
    match goal with
    | |- context [fst (bind ?m ?k ?w0)] =>
        destruct (m w0) as [[frag|e] w4] eqn:Hent;
        [rewrite (bind_ok _ _ _ _ _ Hent) | rewrite (bind_raise _ _ _ _ _ Hent)]
    end; cbn [fst]; eauto.
  - intros Hpinned Hrt.
    destruct (pinned_version_step h lp w Hpinned) as (major & Hstep).
    rewrite (bind_ok _ _ _ _ _ Hstep).
    destruct (Hsec w) as (w2 & Hs). rewrite (bind_ok _ _ _ _ _ Hs).
    destruct (get_docker_user_exact h lp rt w2) as (evs & Hu & _).
    rewrite (bind_ok _ _ _ _ _ Hu).
    unfold get_entrypoint_setup. rewrite Hrt. reflexivity.
Qed.

Lemma generate_dockerfile_unknown_deps_type_witness :
  let lp := Sample.project (Some "poetry") in
  (deps_type lp <> None
   /\ opt_eqb (deps_type lp) "pip" = false
   /\ opt_eqb (deps_type lp) "conda" = false
   /\ truthy_opt (python_version lp) = true
   /\ String.eqb "local" "sagemaker" = false)
  /\ fst (generate_dockerfile Sample.pip_host Sample.api lp "python train.py" "local"
            Sample.plain_world)
     = Raise (UnboundLocalError "python_build_image").
Proof.
  intros lp.
  assert (Hnone : deps_type lp <> None) by discriminate.
  split; [repeat split; try reflexivity; exact Hnone|].
  apply (generate_dockerfile_unknown_deps_type Sample.pip_host Sample.api lp
           "python train.py" "local" Sample.plain_world Hnone eq_refl eq_refl);
    reflexivity.
Defined.

(** X11. For a backend other than sagemaker, rendering the build file
    writes nothing: whatever the outcome, every file and the inspection
    cache are as before, and all it did was to probe the engine, warn,
    ask for the user's identity, and look at the two manifests of the
    project. *)
Theorem generate_dockerfile_writes_nothing :
  forall h api launch_project entry_cmd runner_type w,
    String.eqb runner_type "sagemaker" = false ->
    let w' := snd (generate_dockerfile h api launch_project entry_cmd runner_type w) in
    fs w' = fs w
    /\ inspected_images w' = inspected_images w
    /\ exists evs, trace w' = (trace w ++ evs)%list
                   /\ forallb (is_read_event launch_project) evs = true.
Proof.
  intros h api lp entry_cmd rt w Hrt w'.
  destruct (reads_generate_dockerfile h lp api entry_cmd rt Hrt w) as (Hfs & Hcache & Hev).
  split; [|split; assumption].
  apply map_eq. intros q. now apply Hfs.
Qed.

Lemma generate_dockerfile_writes_nothing_witness :
  let w' := snd (generate_dockerfile Sample.pip_host Sample.api (Sample.project (Some "pip"))
                   "python train.py" "local" Sample.frozen_world) in
  String.eqb "local" "sagemaker" = false
  /\ fs w' = fs Sample.frozen_world
  /\ inspected_images w' = inspected_images Sample.frozen_world
  /\ exists evs, trace w' = (trace Sample.frozen_world ++ evs)%list
                 /\ forallb (is_read_event (Sample.project (Some "pip"))) evs = true.
Proof.
  intros w'. split; [reflexivity|].
  apply (generate_dockerfile_writes_nothing Sample.pip_host Sample.api
           (Sample.project (Some "pip")) "python train.py" "local" Sample.frozen_world).
  reflexivity.
Defined.

(** ** Lines of the build file *)

Section Lines.

Lemma prefix_self n : String.prefix n n = true.
Proof.
  induction n as [|c n IH]; [reflexivity|]. simpl.
  destruct (ascii_dec c c); [exact IH | congruence].
Qed.

Lemma contains_self n : contains n n = true.
Proof. destruct n; cbn [contains]; now rewrite prefix_self. Qed.

Lemma contains_unlines_tail n a l :
  contains n (unlines l) = true -> contains n (unlines (a :: l)) = true.
Proof.
  intros H. rewrite unlines_cons, <- (str_app_assoc a NL). now apply contains_app_r.
Qed.

(** A line that is an item of the block, after another item. *)
Lemma has_line_item x a l : has_line x (unlines (a :: x :: l)) = true.
Proof.
  unfold has_line. rewrite !unlines_cons.
  apply contains_app_r. rewrite <- !str_app_assoc. apply contains_app_l.
  rewrite !str_app_assoc. apply contains_self.
Qed.

(** A line inside an item of the block. *)
Lemma has_line_inside x item l :
  has_line x (item ++ NL) = true -> has_line x (unlines (item :: l)) = true.
Proof.
  unfold has_line. intros H. rewrite unlines_cons, <- (str_app_assoc item NL).
  now apply contains_app_l.
Qed.

Lemma has_line_tail x a l :
  has_line x (unlines l) = true -> has_line x (unlines (a :: l)) = true.
Proof. apply contains_unlines_tail. Qed.

Lemma has_line_last x a : has_line x ((a ++ NL ++ x) ++ NL) = true.
Proof.
  unfold has_line. rewrite !str_app_assoc. apply contains_app_r.
  apply contains_self.
Qed.

Lemma has_line_user_created uid user runner_type :
  String.eqb runner_type "sagemaker" = false ->
  has_line (USERADD ++ str_of_int uid ++ "     " ++ user)
    (get_user_setup user uid runner_type ++ NL) = true
  /\ has_line ("USER " ++ user) (get_user_setup user uid runner_type ++ NL) = true.
Proof.
  intros Hrt. unfold get_user_setup. rewrite Hrt. split.
  - unfold has_line. do 2 apply contains_app_l.
    apply (has_line_item (USERADD ++ str_of_int uid ++ "     " ++ user) "" []).
  - apply has_line_last.
Qed.

End Lines.

Section RenderedDocument.

Variable h : Host.
Variable launch_project : LaunchProject.

(** What a successful rendering is made of. *)
Lemma generate_dockerfile_ok_inv api entry_cmd runner_type w doc w' :
  generate_dockerfile h api launch_project entry_cmd runner_type w = (Ok doc, w') ->
  exists py_version py_major image section frag,
    (if truthy_opt (python_version launch_project)
     then
       let spl := firstn 2 (split_sep "." (default "" (python_version launch_project))) in
       let* major := lift (first_item spl) in ret (join "." spl, major)
     else lift (get_current_python_version h)) w
    = (Ok (py_version, py_major), w)
    /\ (opt_eqb (deps_type launch_project) "pip" = true
        \/ deps_type launch_project = None -> image = "python:" ++ py_version)
    /\ (String.eqb runner_type "sagemaker" = false ->
        frag = "ENTRYPOINT " ++ dumps_strs (split entry_cmd))
    /\ doc = DOCKERFILE_TEMPLATE image section
               (get_base_setup launch_project py_version py_major)
               (get_user_setup (getuser h) (docker_uid h launch_project runner_type)
                  runner_type)
               ("/home/" ++ getuser h)
               (str_of_int (docker_uid h launch_project runner_type))
               frag.
Proof.
  unfold generate_dockerfile. intros E.
  apply bind_ok_inv in E as ([py_version py_major] & w1 & Hpy & E).
  pose proof (python_version_step_pure _ _ _ _ _ Hpy) as ->.
  apply bind_ok_inv in E as (section & w2 & Hsec & E).
  apply bind_ok_inv in E as ([username userid] & w3 & Huser & E).
  destruct (get_docker_user_exact h launch_project runner_type w2) as (evs & Hu & _).
  rewrite Hu in Huser. injection Huser as <- <- _.
  apply bind_ok_inv in E as (frag & w4 & Hfrag & E).
  apply bind_ok_inv in E as (image & w5 & Himage & E).
  injection E as <- _.
  exists py_version, py_major, image, section, frag.
  split; [exact Hpy|]. split; [|split; [|reflexivity]].
  - intros Hdeps.
    assert (Hb : opt_eqb (deps_type launch_project) "pip"
                 || bool_decide (deps_type launch_project = None) = true).
    { destruct Hdeps as [-> | Hn]; [reflexivity|].
      rewrite (bool_decide_true _ Hn). apply orb_true_r. }
    rewrite Hb in Himage. cbn [read_local ret] in Himage. now injection Himage as <- _.
  - intros Hrt. unfold get_entrypoint_setup in Hfrag. rewrite Hrt in Hfrag.
    cbv zeta in Hfrag. unfold ret in Hfrag. now injection Hfrag as <- _.
Qed.

End RenderedDocument.

(** X12. For a backend other than sagemaker a rendered build file
    creates the user that runs the job and hands the code over to it: it
    has the [useradd] line with the uid and the name of the user, the line
    [USER name], the working directory [/home/name], and the [chown] and
    [COPY --chown] lines with the same uid.  The name is the one of the
    user running the process; the uid is the project's [docker_user_id],
    or the effective uid of the process when that is missing or zero. *)
Theorem generate_dockerfile_user_lines :
  forall h api launch_project entry_cmd runner_type w doc w',
    String.eqb runner_type "sagemaker" = false ->
    generate_dockerfile h api launch_project entry_cmd runner_type w = (Ok doc, w') ->
    let user := getuser h in
    let uid :=
      str_of_int (match docker_user_id launch_project with
                  | Some u => if Z.eqb u 0 then geteuid h else u
                  | None => geteuid h
                  end) in
    has_line (USERADD ++ uid ++ "     " ++ user) doc = true
    /\ has_line ("USER " ++ user) doc = true
    /\ has_line ("WORKDIR /home/" ++ user) doc = true
    /\ has_line ("RUN chown -R " ++ uid ++ " /home/" ++ user) doc = true
    /\ has_line ("COPY --chown=" ++ uid ++ " src/ /home/" ++ user) doc = true.
Proof.
  intros h api lp entry_cmd rt w doc w' Hrt E user uid.
  apply generate_dockerfile_ok_inv in E
    as (py_version & py_major & image & section & frag & _ & _ & _ & ->).
  assert (Huid : str_of_int (docker_uid h lp rt) = uid).
  { unfold docker_uid. now rewrite Hrt. }
  rewrite Huid. unfold docker_uid. rewrite Hrt. cbn [andb]. fold uid. fold user.
  destruct (has_line_user_created
              (match docker_user_id lp with
               | Some u => if Z.eqb u 0 then geteuid h else u
               | None => geteuid h
               end) user rt Hrt) as [Hadd Huser].
  fold uid in Hadd.
  unfold DOCKERFILE_TEMPLATE.
  split; [|split; [|split; [|split]]].
  - do 16 apply has_line_tail. now apply has_line_inside.
  - do 16 apply has_line_tail. now apply has_line_inside.
  - do 17 apply has_line_tail. apply (has_line_item ("WORKDIR /home/" ++ user)).
  - do 18 apply has_line_tail.
    apply (has_line_item ("RUN chown -R " ++ uid ++ " /home/" ++ user)).
  - do 24 apply has_line_tail.
    apply (has_line_item ("COPY --chown=" ++ uid ++ " src/ /home/" ++ user)).
Qed.

Lemma generate_dockerfile_user_lines_witness :
  let h := Sample.pip_host in
  let lp := Sample.project (Some "pip") in
  let r := generate_dockerfile h Sample.api lp "python train.py" "local"
             Sample.plain_world in
  let doc := match fst r with Ok d => d | Raise _ => "" end in
  (String.eqb "local" "sagemaker" = false /\ r = (Ok doc, snd r))
  /\ has_line (USERADD ++ "1000     alice") doc = true
  /\ has_line "USER alice" doc = true
  /\ has_line "WORKDIR /home/alice" doc = true
  /\ has_line "RUN chown -R 1000 /home/alice" doc = true
  /\ has_line "COPY --chown=1000 src/ /home/alice" doc = true.
Proof.
  intros h lp r doc.
  assert (E : r = (Ok doc, snd r)) by (vm_compute; reflexivity).
  split; [split; [reflexivity | exact E]|].
  exact (generate_dockerfile_user_lines h Sample.api lp "python train.py" "local"
           Sample.plain_world doc (snd r) eq_refl E).
Defined.

(** X13. With a pinned interpreter version and dependencies installed by
    pip (or none declared), both stages of a rendered build file start
    from the official image of the version cut to [major.minor]: the
    build stage from [python:major.minor] and, without CUDA, the base
    stage from [python:major.minor-buster]. *)
Theorem generate_dockerfile_pinned_images :
  forall h api launch_project entry_cmd runner_type w doc w' version,
    python_version launch_project = Some version ->
    is_empty version = false ->
    opt_eqb (deps_type launch_project) "pip" = true \/ deps_type launch_project = None ->
    cuda launch_project = false ->
    generate_dockerfile h api launch_project entry_cmd runner_type w = (Ok doc, w') ->
    has_line ("FROM python:" ++ major_minor version ++ " as build") doc = true
    /\ has_line ("FROM python:" ++ major_minor version ++ "-buster as base") doc = true.
Proof.
  intros h api lp entry_cmd rt w doc w' version Hv Hne Hdeps Hcuda E.
  assert (Hpinned : truthy_opt (python_version lp) = true).
  { rewrite Hv. unfold truthy_opt, truthy. now rewrite Hne. }
  apply generate_dockerfile_ok_inv in E
    as (py_version & py_major & image & section & frag & Hpy & Himage & _ & ->).
  destruct (pinned_version_step h lp w Hpinned) as (major & Hstep).
  rewrite Hstep in Hpy. injection Hpy as <- <-.
  rewrite (Himage Hdeps), Hv. cbn [default id].
  unfold DOCKERFILE_TEMPLATE, get_base_setup. rewrite Hcuda.
  split.
  - do 1 apply has_line_tail.
    apply (has_line_item ("FROM python:" ++ major_minor version ++ " as build")).
  - do 8 apply has_line_tail. apply has_line_inside.
    unfold PYTHON_SETUP_TEMPLATE, has_line. apply contains_app_l.
    rewrite (str_app_assoc "python:"), (str_app_assoc (major_minor version)).
    apply (has_line_item ("FROM python:" ++ major_minor version ++ "-buster as base")
             "" []).
Qed.

Lemma generate_dockerfile_pinned_images_witness :
  let h := Sample.pip_host in
  let lp := Sample.project (Some "pip") in
  let r := generate_dockerfile h Sample.api lp "python train.py" "local"
             Sample.plain_world in
  let doc := match fst r with Ok d => d | Raise _ => "" end in
  (python_version lp = Some "3.8.10"
   /\ is_empty "3.8.10" = false
   /\ (opt_eqb (deps_type lp) "pip" = true \/ deps_type lp = None)
   /\ cuda lp = false
   /\ r = (Ok doc, snd r))
  /\ has_line "FROM python:3.8 as build" doc = true
  /\ has_line "FROM python:3.8-buster as base" doc = true.
Proof.
  intros h lp r doc.
  assert (E : r = (Ok doc, snd r)) by (vm_compute; reflexivity).
  split; [split; [reflexivity|split; [reflexivity|split; [left; reflexivity|
    split; [reflexivity|exact E]]]]|].
  exact (generate_dockerfile_pinned_images h Sample.api lp "python train.py" "local"
           Sample.plain_world doc (snd r) "3.8.10" eq_refl eq_refl (or_introl eq_refl)
           eq_refl E).
Defined.

(** ** The requirements section inside the build file *)

Section PipDocument.

Variable h : Host.
Variable launch_project : LaunchProject.

(** A successful rendering for a pip project. *)
Lemma generate_dockerfile_pip_inv api entry_cmd runner_type w doc w' :
  opt_eqb (deps_type launch_project) "pip" = true ->
  generate_dockerfile h api launch_project entry_cmd runner_type w = (Ok doc, w') ->
  exists section py_version py_major,
    (if truthy_opt (python_version launch_project)
     then
       let spl := firstn 2 (split_sep "." (default "" (python_version launch_project))) in
       let* major := lift (first_item spl) in ret (join "." spl, major)
     else lift (get_current_python_version h)) w
    = (Ok (py_version, py_major), w)
    /\ fst (get_requirements_section h launch_project w) = Ok section
    /\ doc = document_around section h launch_project entry_cmd runner_type
               py_version py_major.
Proof.
  intros Hpip. unfold generate_dockerfile. intros E.
  apply bind_ok_inv in E as ([py_version py_major] & w1 & Hpy & E).
  pose proof (python_version_step_pure _ _ _ _ _ Hpy) as ->.
  apply bind_ok_inv in E as (section & w2 & Hsec & E).
  apply bind_ok_inv in E as ([username userid] & w3 & Huser & E).
  destruct (get_docker_user_exact h launch_project runner_type w2) as (evs & Hu & _).
  rewrite Hu in Huser. injection Huser as <- <- _.
  apply bind_ok_inv in E as (frag & w4 & Hfrag & E).
  apply bind_ok_inv in E as (image & w5 & Himage & E).
  injection E as <- _.
  rewrite Hpip in Himage. cbn [orb read_local ret] in Himage. injection Himage as <- _.
  assert (Hf : frag = entrypoint_fragment entry_cmd ("/home/" ++ getuser h) runner_type).
  { unfold get_entrypoint_setup, entrypoint_fragment in *.
    destruct (String.eqb runner_type "sagemaker").
    - apply bind_ok_inv in Hfrag as ([] & w6 & _ & Hret). now injection Hret as <- _.
    - cbv zeta in Hfrag. unfold ret in Hfrag. now injection Hfrag as <- _. }
  subst frag. exists section, py_version, py_major.
  split; [exact Hpy|]. split; [now rewrite Hsec|]. reflexivity.
Qed.

End PipDocument.

(** C5, as stated: what the build file contains is not decided by the
    requirements section alone.  Without a locked manifest, an entry
    command that runs a script named [_wandb_bootstrap.py] puts that name
    into the file; with a locked manifest, a CUDA version that holds the
    text [pip install -r requirements.txt] puts that text into the file. *)
Lemma dockerfile_texts_outside_section :
  let lp := Sample.project (Some "pip") in
  let cuda_lp :=
    {| project_dir := "/proj"; python_version := Some "3.8.10"; deps_type := Some "pip";
       docker_image := None; docker_user_id := None; cuda := true;
       cuda_version := Some "11.0 pip install -r requirements.txt"; run_id := "run1";
       image_name := None; target_project := "p"; target_entity := "e";
       override_config := JObj []; override_artifacts := JObj [];
       override_args := [] |} in
  let r1 := generate_dockerfile Sample.pip_host Sample.api lp "python _wandb_bootstrap.py"
              "local" Sample.plain_world in
  let r2 := generate_dockerfile Sample.pip_host Sample.api cuda_lp "python train.py"
              "local" Sample.frozen_world in
  (fs Sample.plain_world !! frozen_path lp = None
   /\ exists doc, fst r1 = Ok doc /\ count_occ BOOTSTRAP doc = 1)
  /\ (is_Some (fs Sample.frozen_world !! frozen_path cuda_lp)
      /\ exists doc, fst r2 = Ok doc /\ count_occ PIP_INSTALL doc = 1).
Proof.
  cbv zeta. split; (split; [vm_compute; eauto|]).
  - eexists. split; [vm_compute; reflexivity|]. vm_compute. reflexivity.
  - eexists. split; [vm_compute; reflexivity|]. vm_compute. reflexivity.
Qed.

(** C5, amended: with [deps_type] pip, a rendered build file is the
    template around the requirements section that
    [get_requirements_section] gives.  When the project directory has no
    [requirements.frozen.txt], the file holds [pip install -r
    requirements.txt] once more than the file rendered with an empty
    section does, and [_wandb_bootstrap.py] exactly as often: so exactly
    once and not at all when the rest of the file holds neither.  When it
    has one, the file copies [src/requirements.frozen.txt] and
    [_wandb_bootstrap.py], runs [python _wandb_bootstrap.py], and holds
    [pip install -r requirements.txt] exactly as often as the file
    rendered with an empty section does: so not at all when the rest of
    the file does not hold it. *)
Theorem get_requirements_section_pip :
  forall h api launch_project entry_cmd runner_type w doc w',
    opt_eqb (deps_type launch_project) "pip" = true ->
    names_have_no_blank h ->
    generate_dockerfile h api launch_project entry_cmd runner_type w = (Ok doc, w') ->
    exists section py_version py_major,
      let rest :=
        document_around "" h launch_project entry_cmd runner_type py_version py_major in
      (if truthy_opt (python_version launch_project)
       then
         let spl := firstn 2 (split_sep "." (default "" (python_version launch_project))) in
         let* major := lift (first_item spl) in ret (join "." spl, major)
       else lift (get_current_python_version h)) w
      = (Ok (py_version, py_major), w)
      /\ fst (get_requirements_section h launch_project w) = Ok section
      /\ doc = document_around section h launch_project entry_cmd runner_type
                 py_version py_major
      /\ if bool_decide (is_Some (fs w !! frozen_path launch_project)) then
           (exists install,
              section = PIP_TEMPLATE FROZEN_FILES (pip_prefix (is_buildx_installed h))
                          (install ++ BOOTSTRAP_COMMAND))
           /\ contains FROZEN_COPY_LINE doc = true
           /\ contains BOOTSTRAP_COMMAND doc = true
           /\ count_occ PIP_INSTALL doc = count_occ PIP_INSTALL rest
           /\ (count_occ PIP_INSTALL rest = 0 -> count_occ PIP_INSTALL doc = 0)
         else
           section = PIP_TEMPLATE "src/requirements.txt"
                       (pip_prefix (is_buildx_installed h)) PIP_INSTALL
           /\ count_occ PIP_INSTALL doc = 1 + count_occ PIP_INSTALL rest
           /\ count_occ BOOTSTRAP doc = count_occ BOOTSTRAP rest
           /\ (count_occ PIP_INSTALL rest = 0 -> count_occ PIP_INSTALL doc = 1)
           /\ (count_occ BOOTSTRAP rest = 0 -> count_occ BOOTSTRAP doc = 0).
Proof.
  intros h api lp entry_cmd rt w doc w' Hpip Hnames E.
  apply (generate_dockerfile_pip_inv h lp api entry_cmd rt w doc w' Hpip) in E
    as (section & py_version & py_major & Hpy & Hsec & ->).
  exists section, py_version, py_major. cbv zeta.
  split; [exact Hpy|]. split; [exact Hsec|]. split; [reflexivity|].
  pose proof (requirements_section_pip_cases h lp w Hpip Hnames) as Hcases.
  rewrite Hsec in Hcases.
  assert (Hcount : forall text,
             is_empty text = false -> no_newline text = true ->
             count_occ text (document_around section h lp entry_cmd rt py_version py_major)
             = count_occ text section
               + count_occ text (document_around "" h lp entry_cmd rt py_version py_major)).
  { intros text. apply count_occ_dockerfile. }
  destruct (bool_decide (is_Some (fs w !! frozen_path lp))).
  - destruct Hcases as (Hinstall & Hcopy & Hboot & Hpipc).
    assert (Hdoc : count_occ PIP_INSTALL
                     (document_around section h lp entry_cmd rt py_version py_major)
                   = count_occ PIP_INSTALL
                       (document_around "" h lp entry_cmd rt py_version py_major))
      by (rewrite (Hcount PIP_INSTALL eq_refl eq_refl), Hpipc; reflexivity).
    split; [exact Hinstall|].
    split; [now apply contains_dockerfile|].
    split; [now apply contains_dockerfile|].
    split; [exact Hdoc|]. intros H0. now rewrite Hdoc.
  - destruct Hcases as (Hsection & Hpipc & Hbootc).
    assert (Hdoc : count_occ PIP_INSTALL
                     (document_around section h lp entry_cmd rt py_version py_major)
                   = 1 + count_occ PIP_INSTALL
                           (document_around "" h lp entry_cmd rt py_version py_major))
      by (rewrite (Hcount PIP_INSTALL eq_refl eq_refl), Hpipc; reflexivity).
    assert (Hdocb : count_occ BOOTSTRAP
                      (document_around section h lp entry_cmd rt py_version py_major)
                    = count_occ BOOTSTRAP
                        (document_around "" h lp entry_cmd rt py_version py_major))
      by (rewrite (Hcount BOOTSTRAP eq_refl eq_refl), Hbootc; reflexivity).
    split; [exact Hsection|]. split; [exact Hdoc|]. split; [exact Hdocb|].
    split; intros H0; [rewrite Hdoc | rewrite Hdocb]; now rewrite H0.
Qed.

Lemma get_requirements_section_pip_witness :
  let h := Sample.pip_host in
  let lp := Sample.project (Some "pip") in
  let r := generate_dockerfile h Sample.api lp "python train.py" "local"
             Sample.plain_world in
  let doc := match fst r with Ok d => d | Raise _ => "" end in
  (opt_eqb (deps_type lp) "pip" = true
   /\ names_have_no_blank h
   /\ r = (Ok doc, snd r))
  /\ count_occ PIP_INSTALL doc = 1
  /\ count_occ BOOTSTRAP doc = 0.
Proof.
  intros h lp r doc.
  assert (Hn : names_have_no_blank h).
  { intros content pkg [H|[H|[]]]; [|discriminate H]. injection H as <-. reflexivity. }
  assert (E : r = (Ok doc, snd r)) by (vm_compute; reflexivity).
  split; [split; [reflexivity|split; [exact Hn|exact E]]|].
  destruct (get_requirements_section_pip h Sample.api lp "python train.py" "local"
              Sample.plain_world doc (snd r) eq_refl Hn E)
    as (section & py_version & py_major & Hpy & _ & _ & Hcase).
  cbv zeta in Hcase.
  change (bool_decide (is_Some (fs Sample.plain_world !! frozen_path lp)))
    with false in Hcase.
  destruct Hcase as (_ & _ & _ & Hpip1 & Hboot0).
  vm_compute in Hpy. injection Hpy as <- <-.
  split; [apply Hpip1 | apply Hboot0]; vm_compute; reflexivity.
Defined.

(** ** Image inspection and pulling *)

Section EngineCalls.

Lemma engine_invocations_event ev w :
  engine_invocations (add_event ev w)
  = (engine_invocations w + (if is_docker_run ev then 1 else 0))%nat.
Proof.
  unfold engine_invocations. cbn [trace add_event].
  rewrite filter_app, length_app. f_equal. now destruct ev.
Qed.

Lemma engine_invocations_irrelevant f c w :
  engine_invocations (mkWorld f c (trace w)) = engine_invocations w.
Proof. reflexivity. Qed.

Variable h : Host.

Lemma after_failure_world e should_raise w :
  let w' := snd (after_failure e should_raise w) in
  fs w' = fs w /\ inspected_images w' = inspected_images w
  /\ engine_invocations w' = engine_invocations w.
Proof.
  unfold after_failure.
  destruct (is_inspection_failure e), should_raise; cbn [snd]; repeat split;
    rewrite ?engine_invocations_event; cbn [is_docker_run]; lia.
Qed.

Lemma after_query_world docker_image w :
  fs (after_query docker_image w) = fs w
  /\ inspected_images (after_query docker_image w) = inspected_images w
  /\ engine_invocations (after_query docker_image w) = S (engine_invocations w).
Proof.
  unfold after_query. rewrite !engine_invocations_event. cbn [is_docker_run].
  repeat split. lia.
Qed.

(** Taking the first element fails with none of the exceptions that
    [docker_image_exists] handles. *)
Lemma subscript0_failure v e : subscript0 v = Raise e -> is_inspection_failure e = false.
Proof.
  destruct v as [| | |[|c s]|[|y l]|]; cbn [subscript0]; intros [= <-]; reflexivity.
Qed.

Lemma docker_image_exists_world docker_image should_raise w :
  let w' := snd (docker_image_exists h docker_image should_raise w) in
  engine_invocations w' = S (engine_invocations w)
  /\ fs w' = fs w
  /\ forall k, k <> docker_image -> inspected_images w' !! k = inspected_images w !! k.
Proof.
  rewrite docker_image_exists_unfold.
  destruct (after_query_world docker_image w) as (Hf & Hc & Hn).
  assert (Hfail : forall e,
             let w' := snd (after_failure e should_raise (after_query docker_image w)) in
             engine_invocations w' = S (engine_invocations w)
             /\ fs w' = fs w
             /\ forall k, k <> docker_image ->
                  inspected_images w' !! k = inspected_images w !! k).
  { intros e.
    destruct (after_failure_world e should_raise (after_query docker_image w))
      as (Hf' & Hc' & Hn').
    cbv zeta. rewrite Hf', Hc', Hn', Hf, Hc, Hn. auto. }
  destruct (inspect_output h docker_image w) as [data|e]; [|apply Hfail].
  destruct (result_bind (json_loads h data) subscript0) as [parsed|e]; [|apply Hfail].
  cbv zeta. cbn [snd]. rewrite engine_invocations_event. cbn [is_docker_run].
  unfold set_inspected_images. rewrite engine_invocations_irrelevant, Hn.
  split; [lia|]. split; [exact Hf|].
  intros k Hk. cbn [inspected_images add_event]. now rewrite lookup_insert_ne.
Qed.

Lemma docker_image_inspect_unfold docker_image w :
  docker_image_inspect h docker_image w
  = if get_is_none (inspected_images w !! docker_image)
    then
      match docker_image_exists h docker_image true w with
      | (Ok _, w1) => (Ok (default (JObj []) (inspected_images w1 !! docker_image)), w1)
      | (Raise e, w1) => (Raise e, w1)
      end
    else (Ok (default (JObj []) (inspected_images w !! docker_image)), w).
Proof.
  unfold docker_image_inspect, bind, ret.
  destruct (get_is_none _); [|reflexivity].
  now destruct (docker_image_exists h docker_image true w) as [[b|e] w1].
Qed.

End EngineCalls.

(** X14. Every call of [docker_image_exists] asks the engine exactly
    once, whatever the answer and the outcome; it changes no file, and in
    the inspection cache no entry other than the one of the image asked
    about. *)
Theorem docker_image_exists_one_query :
  forall h docker_image should_raise w,
    let w' := snd (docker_image_exists h docker_image should_raise w) in
    engine_invocations w' = S (engine_invocations w)
    /\ fs w' = fs w
    /\ forall k, k <> docker_image -> inspected_images w' !! k = inspected_images w !! k.
Proof. intros h docker_image should_raise w. apply docker_image_exists_world. Qed.

(** X15. [should_raise=False] does not make [docker_image_exists] safe:
    when the engine's answer parses but has no first element to take (an
    empty list or string, an object, a number, [null], a boolean), the
    [IndexError], [KeyError] or [TypeError] of the subscript escapes,
    with either value of [should_raise], and nothing is cached. *)
Theorem docker_image_exists_subscript_failure_escapes :
  forall h docker_image should_raise w data v e,
    inspect_output h docker_image w = Ok data ->
    json_loads h data = Ok v ->
    subscript0 v = Raise e ->
    docker_image_exists h docker_image should_raise w
    = (Raise e, after_query docker_image w).
Proof.
  intros h docker_image should_raise w data v e Hout Hv He.
  rewrite docker_image_exists_unfold, Hout, Hv. cbn [result_bind]. rewrite He.
  unfold after_failure. now rewrite (subscript0_failure _ _ He).
Qed.

Lemma docker_image_exists_subscript_failure_escapes_witness :
  let h := Sample.host (Sample.engine_prints "[]") (Ok "") "linux" true [] None in
  (inspect_output h "python:3.8" Sample.empty_world = Ok "[]"
   /\ json_loads h "[]" = Ok (JArr [])
   /\ subscript0 (JArr []) = Raise (IndexError "list index out of range"))
  /\ docker_image_exists h "python:3.8" false Sample.empty_world
     = (Raise (IndexError "list index out of range"),
        after_query "python:3.8" Sample.empty_world).
Proof.
  intros h. split; [repeat split; reflexivity|].
  apply (docker_image_exists_subscript_failure_escapes h "python:3.8" false
           Sample.empty_world "[]" (JArr []) (IndexError "list index out of range"));
    reflexivity.
Defined.

(** X16. What [docker_image_inspect] returns is what the cache holds for
    the image afterwards, so the [{}] of its last line is never the
    answer; when it fails the cache is as before.  The engine is asked
    once when the cache has no entry, or [None], for the image, and not
    at all otherwise; no file changes. *)
Theorem docker_image_inspect_result :
  forall h docker_image w,
    let r := docker_image_inspect h docker_image w in
    match fst r with
    | Ok x => inspected_images (snd r) !! docker_image = Some x
    | Raise _ => inspected_images (snd r) = inspected_images w
    end
    /\ engine_invocations (snd r)
       = (if get_is_none (inspected_images w !! docker_image)
          then S (engine_invocations w)
          else engine_invocations w)
    /\ fs (snd r) = fs w.
Proof.
  intros h docker_image w. cbv zeta.
  rewrite docker_image_inspect_unfold.
  destruct (get_is_none (inspected_images w !! docker_image)) eqn:Hnone.
  - destruct (docker_image_exists_world h docker_image true w) as (Hn & Hf & _).
    rewrite docker_image_exists_unfold in *.
    destruct (inspect_output h docker_image w) as [data|e].
    + destruct (result_bind (json_loads h data) subscript0) as [parsed|e].
      * cbn [fst snd inspected_images add_event set_inspected_images] in *.
        rewrite lookup_insert_eq. cbn [default]. auto.
      * unfold after_failure in *.
        destruct (is_inspection_failure e); cbn [fst snd] in *; auto.
    + unfold after_failure in *.
      destruct (is_inspection_failure e); cbn [fst snd] in *; auto.
  - cbn [fst snd].
    destruct (inspected_images w !! docker_image) as [x|] eqn:Hx; [|discriminate Hnone].
    cbn [default]. auto.
Qed.

(** X17. With no usable entry in the cache, a failed inspection makes
    [docker_image_inspect] fail with the same exception, be it the
    engine's or the one of reading its answer: it never answers [{}] for
    an image it could not inspect. *)
Theorem docker_image_inspect_failure :
  forall h docker_image w e,
    get_is_none (inspected_images w !! docker_image) = true ->
    inspect_output h docker_image w = Raise e
    \/ (exists data, inspect_output h docker_image w = Ok data
                     /\ result_bind (json_loads h data) subscript0 = Raise e) ->
    docker_image_inspect h docker_image w = (Raise e, after_query docker_image w).
Proof.
  intros h docker_image w e Hnone Hfail.
  rewrite docker_image_inspect_unfold, Hnone, docker_image_exists_unfold.
  assert (Haf : after_failure e true (after_query docker_image w)
                = (Raise e, after_query docker_image w)).
  { unfold after_failure. now destruct (is_inspection_failure e). }
  destruct Hfail as [-> | (data & -> & ->)]; now rewrite Haf.
Qed.

Lemma docker_image_inspect_failure_witness :
  let h := Sample.pip_host in
  (get_is_none (inspected_images Sample.empty_world !! "python:3.8") = true
   /\ inspect_output h "python:3.8" Sample.empty_world
      = Raise (DockerError "Error: No such image"))
  /\ docker_image_inspect h "python:3.8" Sample.empty_world
     = (Raise (DockerError "Error: No such image"),
        after_query "python:3.8" Sample.empty_world).
Proof.
  intros h. split; [split; reflexivity|].
  apply (docker_image_inspect_failure h "python:3.8" Sample.empty_world
           (DockerError "Error: No such image")); [reflexivity | left; reflexivity].
Defined.

(** X18. [pull_docker_image] asks the engine once, for [docker pull] of
    the image, and drops what it prints.  A [DockerError] of the engine
    comes out as a [LaunchError] whose message is [Docker server returned
    error: ] followed by the engine's; any other exception comes out as
    it is.  No file and no cache entry changes. *)
Theorem pull_docker_image_outcome :
  forall h docker_image w,
    let note := LogInfo "Pulling user provided docker image" in
    let args := ["docker"; "pull"; docker_image] in
    pull_docker_image h docker_image w
    = (match docker_run h (trace w ++ [note]) args with
       | Ok _ => Ok tt
       | Raise (DockerError msg) =>
           Raise (LaunchError ("Docker server returned error: " ++ msg))
       | Raise e => Raise e
       end,
       after_events [note; DockerRun args] w).
Proof.
  intros h docker_image w. cbv zeta.
  unfold pull_docker_image, try_except, bind, emit, docker_run_call, ret, raise,
    after_events, add_event.
  cbn [trace fs inspected_images]. rewrite <- app_assoc. cbn [app].
  destruct (docker_run h _ _) as [out|[]]; reflexivity.
Qed.

(** ** Paths *)

Section Paths.

Lemma prefix_app_self a b : String.prefix a (a ++ b) = true.
Proof. apply prefix_app_l, prefix_self. Qed.

Lemma str_app_inj_l a b c : a ++ b = a ++ c -> b = c.
Proof. induction a as [|x a IH]; [auto|]. intros [= H]. auto. Qed.

(** [os.path.join(d, x)] for a relative [x] is [d], a slash unless [d]
    is empty or ends with one, and [x]. *)
Lemma path_join_relative d x :
  String.prefix "/" x = false -> path_join d x = d ++ sep_of d ++ x.
Proof.
  intros Hx. unfold path_join, sep_of. rewrite Hx.
  now destruct (is_empty d || ends_with_slash d).
Qed.

Lemma dir_prefix_app d : exists s, dir_prefix d = d ++ s.
Proof.
  unfold dir_prefix. destruct (ends_with_slash d); [exists ""|exists "/"];
    now rewrite ?str_app_nil_r.
Qed.

Lemma dir_prefix_prefix d r : String.prefix d (dir_prefix d ++ r) = true.
Proof.
  destruct (dir_prefix_app d) as [s ->]. rewrite str_app_assoc. apply prefix_app_self.
Qed.

Lemma ends_with_slash_app a c b :
  ends_with_slash (a ++ String c b) = ends_with_slash (String c b).
Proof.
  induction a as [|x a IH]; [reflexivity|].
  change (String x a ++ String c b) with (String x (a ++ String c b)).
  cbn [ends_with_slash]. rewrite IH.
  destruct (a ++ String c b) eqn:E; [now destruct a|reflexivity].
Qed.

(** The part after the last slash. *)
Lemma rsplit_slash_free b : free_of "/" b = true -> rsplit_slash b = ("", b).
Proof.
  induction b as [|c b IH]; [reflexivity|]. unfold free_of. cbn [forall_chars].
  intros [Hc Hb]%andb_prop. cbn [rsplit_slash]. rewrite (IH Hb). cbn [is_empty].
  unfold is_slash. now apply negb_true_iff in Hc as ->.
Qed.

Lemma rsplit_slash_app a b :
  free_of "/" b = true ->
  rsplit_slash (a ++ b) = (fst (rsplit_slash a), snd (rsplit_slash a) ++ b).
Proof.
  intros Hb. induction a as [|c a IH].
  { change ("" ++ b) with b. now rewrite (rsplit_slash_free b Hb). }
  change (String c a ++ b) with (String c (a ++ b)). cbn [rsplit_slash].
  rewrite IH. destruct (rsplit_slash a) as [hd tl]. cbn [fst snd].
  destruct (is_empty hd); [destruct (is_slash c)|]; reflexivity.
Qed.

Lemma rsplit_slash_slash a : rsplit_slash (a ++ "/") = (a ++ "/", "").
Proof.
  induction a as [|c a IH]; [reflexivity|].
  change (String c a ++ "/") with (String c (a ++ "/")). cbn [rsplit_slash].
  rewrite IH. now destruct a.
Qed.

Lemma free_of_slash_relative x :
  free_of "/" x = true -> String.prefix "/" x = false.
Proof.
  intros Hx. destruct (String.prefix "/" x) eqn:E; [|reflexivity].
  apply prefix_cons_inv in E as (x' & -> & _). discriminate Hx.
Qed.

Lemma basename_path_join d x :
  free_of "/" x = true ->
  is_empty d = false -> ends_with_slash d = false ->
  basename (path_join d x) = x.
Proof.
  intros Hx Hd Hs.
  rewrite (path_join_relative d x (free_of_slash_relative x Hx)).
  unfold sep_of. rewrite Hd, Hs. cbn [orb].
  rewrite <- str_app_assoc. unfold basename.
  now rewrite (rsplit_slash_app (d ++ "/") x Hx), rsplit_slash_slash.
Qed.

End Paths.

(** ** The build context *)

Section FileOperations.

Lemma mkdtemp_ok name w d w' :
  mkdtemp name w = (Ok d, w') ->
  d = name (fs w) /\ fs w !! d = None
  /\ w' = set_fs (<[d := Dir]> (fs w)) (add_event (FsMkdtemp d) w).
Proof.
  unfold mkdtemp. msimpl. destruct (fs w !! name (fs w)) eqn:E; [discriminate|].
  destruct (parent_ok (fs w) (name (fs w))); [|discriminate].
  intros [= <- <-]. auto.
Qed.

Lemma write_file_ok p c w w' :
  write_file p c w = (Ok tt, w') ->
  w' = set_fs (<[p := File c]> (fs w)) (add_event (FsWrite p c) w).
Proof.
  unfold write_file. msimpl.
  destruct (fs w !! p) as [[c0|]|]; try discriminate;
    destruct (parent_ok (fs w) p); try discriminate; now intros [= <-].
Qed.

Lemma copy_ok src dst w w' :
  fs w !! dst = Some Dir ->
  copy src dst w = (Ok tt, w') ->
  exists c,
    fs w !! src = Some (File c)
    /\ w' = set_fs (<[path_join dst (basename src) := File c]> (fs w))
              (add_event (FsCopy src dst) w).
Proof.
  unfold copy. msimpl. intros ->.
  destruct (fs w !! src) as [[c|]|]; try discriminate.
  destruct (fs w !! path_join dst (basename src)) as [[c0|]|]; try discriminate;
    destruct (parent_ok (fs w) _); try discriminate; intros [= <-]; eauto.
Qed.

Lemma copytree_ok src dst w w' :
  copytree src dst w = (Ok tt, w') ->
  fs w !! src = Some Dir /\ fs w !! dst = None
  /\ w' = set_fs (map_fold (copy_entry src dst) (<[dst := Dir]> (fs w)) (fs w))
            (add_event (FsCopytree src dst) w).
Proof.
  unfold copytree. msimpl.
  destruct (fs w !! src) as [[c|]|]; try discriminate.
  destruct (fs w !! dst) eqn:E; [discriminate|]. intros [= <-]. auto.
Qed.

(** A recursive copy changes nothing outside the destination. *)
Lemma copy_entries_frame src dst (f acc : gmap string node) q :
  String.prefix dst q = false ->
  map_fold (copy_entry src dst) acc f !! q = acc !! q.
Proof.
  intros Hq.
  apply (map_fold_weak_ind (fun r _ => r !! q = acc !! q)); [reflexivity|].
  intros p x m r _ IH. unfold copy_entry.
  destruct (strip_prefix (dir_prefix src) p) as [rest|]; [|exact IH].
  destruct (is_empty rest); [exact IH|].
  rewrite lookup_insert_ne; [exact IH|].
  intros <-. now rewrite dir_prefix_prefix in Hq.
Qed.

End FileOperations.

Section BuildContextContents.

Variable h : Host.

(** The paths inside a context directory, all built on one base. *)
Lemma context_paths ctx :
  let base := ctx ++ sep_of ctx in
  context_src ctx = base ++ "src"
  /\ path_join ctx _GENERATED_DOCKERFILE_NAME = base ++ _GENERATED_DOCKERFILE_NAME
  /\ path_join ctx "_wandb_bootstrap.py" = base ++ "_wandb_bootstrap.py"
  /\ path_join (context_src ctx) "runtime.txt" = base ++ "src/runtime.txt"
  /\ dir_prefix (context_src ctx) = base ++ "src/".
Proof.
  intros base. subst base. unfold context_src.
  assert (Hsrc : path_join ctx "src" = (ctx ++ sep_of ctx) ++ "src").
  { rewrite path_join_relative by reflexivity. now rewrite str_app_assoc. }
  assert (Hend : ends_with_slash ((ctx ++ sep_of ctx) ++ "src") = false)
    by now rewrite ends_with_slash_app.
  assert (Hne : is_empty ((ctx ++ sep_of ctx) ++ "src") = false)
    by now destruct (ctx ++ sep_of ctx).
  rewrite Hsrc. split; [reflexivity|]. split; [|split; [|split]].
  - rewrite path_join_relative by reflexivity. now rewrite str_app_assoc.
  - rewrite path_join_relative by reflexivity. now rewrite str_app_assoc.
  - rewrite path_join_relative by reflexivity. unfold sep_of at 2.
    rewrite Hend, Hne. cbn [orb]. now rewrite !str_app_assoc.
  - unfold dir_prefix. rewrite Hend. now rewrite !str_app_assoc.
Qed.

Lemma bootstrap_template_basename : basename (bootstrap_template h) = "_wandb_bootstrap.py".
Proof.
  unfold bootstrap_template. apply basename_path_join; [reflexivity| |].
  - rewrite path_join_relative by reflexivity.
    destruct (module_dir h); [now destruct (sep_of "")|reflexivity].
  - rewrite path_join_relative by reflexivity.
    rewrite <- str_app_assoc. now rewrite ends_with_slash_app.
Qed.

(** The files of a world after a build context was created in it. *)
Lemma create_docker_build_ctx_inv launch_project dockerfile_contents w ctx w' :
  _create_docker_build_ctx h launch_project dockerfile_contents w = (Ok ctx, w') ->
  exists c,
    let f1 := <[ctx := Dir]> (fs w) in
    let f2 := map_fold (copy_entry (project_dir launch_project) (context_src ctx))
                (<[context_src ctx := Dir]> f1) f1 in
    let f3 := <[path_join ctx "_wandb_bootstrap.py" := File c]> f2 in
    let f4 :=
      if truthy_opt (python_version launch_project)
      then <[path_join (context_src ctx) "runtime.txt"
             := File ("python-" ++ default "" (python_version launch_project))]> f3
      else f3 in
    ctx = mkdtemp_name h (fs w)
    /\ fs w !! ctx = None
    /\ f2 !! bootstrap_template h = Some (File c)
    /\ fs w' = <[path_join ctx _GENERATED_DOCKERFILE_NAME := File dockerfile_contents]> f4.
Proof.
  unfold _create_docker_build_ctx. intros E.
  apply bind_ok_inv in E as (directory & w1 & Hmk & E).
  apply bind_ok_inv in E as ([] & w2 & Htree & E).
  apply bind_ok_inv in E as ([] & w3 & Hcopy & E).
  apply bind_ok_inv in E as ([] & w4 & Hrt & E).
  apply bind_ok_inv in E as ([] & w5 & Hdf & E).
  injection E as <- <-.
  pose proof (mkdtemp_dir _ _ _ _ Hmk) as Hdir.
  apply (copytree_keeps_dir _ _ _ _ Htree) in Hdir.
  apply mkdtemp_ok in Hmk as (Hctx & Hfresh & ->).
  apply copytree_ok in Htree as (_ & _ & ->).
  apply (copy_ok _ _ _ _ Hdir) in Hcopy as (c & Hc & ->).
  apply write_file_ok in Hdf as ->.
  exists c. cbv zeta. split; [exact Hctx|]. split; [exact Hfresh|]. split; [exact Hc|].
  rewrite <- bootstrap_template_basename. unfold bootstrap_template, context_src.
  destruct (truthy_opt (python_version launch_project)).
  - apply write_file_ok in Hrt as ->. reflexivity.
  - injection Hrt as <-. reflexivity.
Qed.

Lemma create_docker_build_ctx_file launch_project dockerfile_contents w ctx w' :
  _create_docker_build_ctx h launch_project dockerfile_contents w = (Ok ctx, w') ->
  fs w' !! path_join ctx _GENERATED_DOCKERFILE_NAME = Some (File dockerfile_contents).
Proof.
  intros E. apply create_docker_build_ctx_inv in E as (c & _ & _ & _ & Hfs).
  rewrite Hfs. apply lookup_insert_eq.
Qed.

End BuildContextContents.

Section BuildContextLookups.

Variable h : Host.

Lemma str_app_longer a b : is_empty b = false -> a ++ b <> a.
Proof.
  intros Hb E. apply (f_equal String.length) in E. rewrite str_length_app in E.
  destruct b; [discriminate Hb | simpl in E; lia].
Qed.

(** A recursive copy leaves the destination directory itself alone. *)
Lemma copy_entries_dst src dst (f acc : gmap string node) :
  map_fold (copy_entry src dst) acc f !! dst = acc !! dst.
Proof.
  apply (map_fold_weak_ind (fun r _ => r !! dst = acc !! dst)); [reflexivity|].
  intros p x m r _ IH. unfold copy_entry.
  destruct (strip_prefix (dir_prefix src) p) as [rest|]; [|exact IH].
  destruct (is_empty rest) eqn:Hrest; [exact IH|].
  rewrite lookup_insert_ne; [exact IH|].
  destruct (dir_prefix_app dst) as [s ->]. rewrite str_app_assoc.
  apply str_app_longer. destruct s; [exact Hrest | reflexivity].
Qed.

End BuildContextLookups.

(** Tell apart two paths built on the same base. *)
Ltac distinct_paths :=
  let E := fresh "E" in
  intros E; apply str_app_inj_l in E; try discriminate E.

(** X19. A build context that was created is a fresh directory, the one
    [mkdtemp] picked, with a directory [src] in it, the build file
    [Dockerfile.wandb-autogenerated] holding exactly the rendered text, a
    file [_wandb_bootstrap.py] (with the text of the package's template,
    unless that lies inside the new [src]), and, when the project pins an
    interpreter version, [src/runtime.txt] holding [python-] and that
    version in full. *)
Theorem create_docker_build_ctx_contents :
  forall h launch_project dockerfile_contents w ctx w',
    _create_docker_build_ctx h launch_project dockerfile_contents w = (Ok ctx, w') ->
    (ctx = mkdtemp_name h (fs w) /\ fs w !! ctx = None)
    /\ fs w' !! ctx = Some Dir
    /\ fs w' !! context_src ctx = Some Dir
    /\ fs w' !! path_join ctx _GENERATED_DOCKERFILE_NAME = Some (File dockerfile_contents)
    /\ (exists c,
          fs w' !! path_join ctx "_wandb_bootstrap.py" = Some (File c)
          /\ (String.prefix (context_src ctx) (bootstrap_template h) = false ->
              fs w !! bootstrap_template h = Some (File c)))
    /\ (truthy_opt (python_version launch_project) = true ->
        fs w' !! path_join (context_src ctx) "runtime.txt"
        = Some (File ("python-" ++ default "" (python_version launch_project)))).
Proof.
  intros h lp doc w ctx w' E.
  pose proof (create_docker_build_ctx_dir h lp doc w ctx w' E) as Hdir.
  apply create_docker_build_ctx_inv in E as (c & Hctx & Hfresh & Hc & Hfs).
  cbv zeta in Hc, Hfs.
  destruct (context_paths ctx) as (Psrc & Pdf & Pbs & Prt & _).
  split; [now split|]. split; [exact Hdir|].
  rewrite Hfs. rewrite Pdf, Pbs, Prt, Psrc in *.
  split; [|split; [apply lookup_insert_eq|split]].
  - rewrite lookup_insert_ne by distinct_paths.
    destruct (truthy_opt (python_version lp));
      rewrite ?(lookup_insert_ne _ ((ctx ++ sep_of ctx) ++ "src/runtime.txt"))
        by distinct_paths;
      rewrite lookup_insert_ne by distinct_paths;
      rewrite copy_entries_dst; apply lookup_insert_eq.
  - exists c. split.
    + rewrite lookup_insert_ne by distinct_paths.
      destruct (truthy_opt (python_version lp));
        rewrite ?(lookup_insert_ne _ ((ctx ++ sep_of ctx) ++ "src/runtime.txt"))
          by distinct_paths;
        apply lookup_insert_eq.
    + intros Hout. rewrite copy_entries_frame in Hc by exact Hout.
      rewrite lookup_insert_ne in Hc
        by (intros Heq; rewrite <- Heq, prefix_self in Hout; discriminate Hout).
      destruct (decide (ctx = bootstrap_template h)) as [Heq|Hne].
      * rewrite <- Heq, lookup_insert_eq in Hc. discriminate Hc.
      * now rewrite lookup_insert_ne in Hc.
  - intros ->. rewrite lookup_insert_ne by distinct_paths. apply lookup_insert_eq.
Qed.

Lemma create_docker_build_ctx_contents_witness :
  let h := Sample.pip_host in
  let lp := Sample.project (Some "pip") in
  let w := Sample.frozen_world in
  let ctx := "/tmp/tmpctx" in
  let w' := snd (_create_docker_build_ctx h lp "FROM python:3.8" w) in
  _create_docker_build_ctx h lp "FROM python:3.8" w = (Ok ctx, w')
  /\ (ctx = mkdtemp_name h (fs w) /\ fs w !! ctx = None)
  /\ fs w' !! ctx = Some Dir
  /\ fs w' !! context_src ctx = Some Dir
  /\ fs w' !! path_join ctx _GENERATED_DOCKERFILE_NAME = Some (File "FROM python:3.8")
  /\ (exists c,
        fs w' !! path_join ctx "_wandb_bootstrap.py" = Some (File c)
        /\ (String.prefix (context_src ctx) (bootstrap_template h) = false ->
            fs w !! bootstrap_template h = Some (File c)))
  /\ (truthy_opt (python_version lp) = true ->
      fs w' !! path_join (context_src ctx) "runtime.txt"
      = Some (File ("python-" ++ default "" (python_version lp)))).
Proof.
  intros h lp w ctx w'.
  assert (E : _create_docker_build_ctx h lp "FROM python:3.8" w = (Ok ctx, w'))
    by (vm_compute; reflexivity).
  split; [exact E|].
  exact (create_docker_build_ctx_contents h lp "FROM python:3.8" w ctx w' E).
Defined.

(** ** Building the image: what is left behind *)

(** X22. Once the build file is rendered and the build context [ctx]
    created, [generate_docker_image] asks the engine to build from the
    file [Dockerfile.wandb-autogenerated] of [ctx], which holds the
    rendered text, and returns the engine's answer; a [DockerError] comes
    out as [LaunchError], any other exception as it is.  Whatever the
    outcome, nothing is cleaned up: every file is as it was right after
    the context was created, the context included. *)
Theorem generate_docker_image_never_cleans_up :
  forall h api launch_project image_uri entrypoint docker_args runner_type
         w entry_cmd doc w1 w2 ctx w3,
    first_item (get_entry_point_command h entrypoint (override_args launch_project))
      = Ok entry_cmd ->
    generate_dockerfile h api launch_project entry_cmd runner_type w = (Ok doc, w1) ->
    create_metadata_file h launch_project image_uri (sanitize_wandb_api_key h entry_cmd)
      docker_args (sanitize_wandb_api_key h doc) w1 = (Ok tt, w2) ->
    _create_docker_build_ctx h launch_project doc w2 = (Ok ctx, w3) ->
    let file := path_join ctx _GENERATED_DOCKERFILE_NAME in
    let r := generate_docker_image h api launch_project image_uri entrypoint docker_args
               runner_type w in
    fst r = match docker_build h (trace w3) [image_uri] file ctx with
            | Ok image => Ok image
            | Raise (DockerError msg) =>
                Raise (LaunchError ("Error communicating with docker client: " ++ msg))
            | Raise e => Raise e
            end
    /\ In (DockerBuild image_uri file ctx) (trace (snd r))
    /\ fs (snd r) = fs w3
    /\ fs (snd r) !! file = Some (File doc)
    /\ fs (snd r) !! ctx = Some Dir.
Proof.
  intros h api lp image_uri entrypoint docker_args runner_type w entry_cmd doc w1 w2 ctx w3
    Hcmd Hdoc Hmeta Hctx file r.
  assert (Hfs : fs (snd r) = fs w3
                /\ In (DockerBuild image_uri file ctx) (trace (snd r))
                /\ fst r = match docker_build h (trace w3) [image_uri] file ctx with
                           | Ok image => Ok image
                           | Raise (DockerError msg) =>
                               Raise (LaunchError
                                        ("Error communicating with docker client: " ++ msg))
                           | Raise e => Raise e
                           end).
  { subst r file.
    rewrite (generate_docker_image_unfold h api lp image_uri entrypoint docker_args
               runner_type w entry_cmd doc w1 w2 ctx w3 Hcmd Hdoc Hmeta Hctx).
    destruct (docker_build h (trace w3) [image_uri] _ ctx) as [image|e];
      [|destruct e]; cbn [fst snd fs trace add_event];
      (split; [reflexivity|]); (split; [|reflexivity]);
      rewrite ?in_app_iff; cbn [In]; auto 10. }
  destruct Hfs as (Hfs & Hin & Hres).
  pose proof (create_docker_build_ctx_dir h lp doc w2 ctx w3 Hctx) as Hdir.
  pose proof (create_docker_build_ctx_file h lp doc w2 ctx w3 Hctx) as Hfile.
  rewrite Hfs. auto.
Qed.

Lemma generate_docker_image_never_cleans_up_witness :
  let h := Sample.pip_host in
  let lp := Sample.project (Some "pip") in
  let w := Sample.frozen_world in
  let r1 := generate_dockerfile h Sample.api lp "python train.py" "local" w in
  let doc := match fst r1 with Ok d => d | Raise _ => "" end in
  let r3 := _create_docker_build_ctx h lp doc (snd r1) in
  let ctx := "/tmp/tmpctx" in
  let file := path_join ctx _GENERATED_DOCKERFILE_NAME in
  let r := generate_docker_image h Sample.api lp "img:tag" "python train.py" None "local"
             w in
  (first_item (get_entry_point_command h "python train.py" (override_args lp))
     = Ok "python train.py"
   /\ r1 = (Ok doc, snd r1)
   /\ create_metadata_file h lp "img:tag" (sanitize_wandb_api_key h "python train.py") None
        (sanitize_wandb_api_key h doc) (snd r1) = (Ok tt, snd r1)
   /\ r3 = (Ok ctx, snd r3))
  /\ fst r = match docker_build h (trace (snd r3)) ["img:tag"] file ctx with
             | Ok image => Ok image
             | Raise (DockerError msg) =>
                 Raise (LaunchError ("Error communicating with docker client: " ++ msg))
             | Raise e => Raise e
             end
  /\ In (DockerBuild "img:tag" file ctx) (trace (snd r))
  /\ fs (snd r) = fs (snd r3)
  /\ fs (snd r) !! file = Some (File doc)
  /\ fs (snd r) !! ctx = Some Dir.
Proof.
  intros h lp w r1 doc r3 ctx file r.
  assert (H1 : first_item (get_entry_point_command h "python train.py" (override_args lp))
               = Ok "python train.py") by reflexivity.
  assert (H2 : r1 = (Ok doc, snd r1)) by (vm_compute; reflexivity).
  assert (H3 : create_metadata_file h lp "img:tag"
                 (sanitize_wandb_api_key h "python train.py") None
                 (sanitize_wandb_api_key h doc) (snd r1) = (Ok tt, snd r1))
    by reflexivity.
  assert (H4 : r3 = (Ok ctx, snd r3)) by (vm_compute; reflexivity).
  split; [split; [exact H1|split; [exact H2|split; [exact H3|exact H4]]]|].
  exact (generate_docker_image_never_cleans_up h Sample.api lp "img:tag" "python train.py"
           None "local" w "python train.py" doc (snd r1) (snd r1) ctx (snd r3)
           H1 H2 H3 H4).
Defined.

(** ** Conda and CUDA in the build file *)

Section CondaAndCuda.

Variable h : Host.
Variable launch_project : LaunchProject.

(** A pinned version gives its first two pieces, and its first piece. *)
Lemma pinned_version_step_exact w version :
  python_version launch_project = Some version ->
  is_empty version = false ->
  (if truthy_opt (python_version launch_project)
   then
     let spl := firstn 2 (split_sep "." (default "" (python_version launch_project))) in
     let* major := lift (first_item spl) in ret (join "." spl, major)
   else lift (get_current_python_version h)) w
  = (Ok (major_minor version, hd "" (split_sep "." version)), w).
Proof.
  intros -> Hne. unfold truthy_opt, truthy. rewrite Hne. cbn [negb default].
  change (id version) with version. cbv zeta. unfold major_minor.
  destruct (split_sep_cons "." version) as (t & ts & ->). reflexivity.
Qed.

Lemma opt_eqb_conda_not_pip :
  opt_eqb (deps_type launch_project) "conda" = true ->
  opt_eqb (deps_type launch_project) "pip" = false
  /\ deps_type launch_project <> None.
Proof.
  destruct (deps_type launch_project) as [d|]; [|discriminate].
  cbn [opt_eqb]. intros ->%String.eqb_eq. now split.
Qed.

Lemma get_requirements_section_conda w :
  opt_eqb (deps_type launch_project) "conda" = true ->
  fst (get_requirements_section h launch_project w)
  = Ok (CONDA_TEMPLATE (conda_prefix (is_buildx_installed h))).
Proof.
  intros Hconda. destruct (opt_eqb_conda_not_pip Hconda) as [Hpip _].
  unfold get_requirements_section, bind, emit, ret, conda_prefix. msimpl.
  rewrite Hpip, Hconda. now destruct (is_buildx_installed h).
Qed.

(** A successful rendering for a conda project. *)
Lemma generate_dockerfile_conda_inv api entry_cmd runner_type w doc w' :
  opt_eqb (deps_type launch_project) "conda" = true ->
  generate_dockerfile h api launch_project entry_cmd runner_type w = (Ok doc, w') ->
  exists py_version py_major base user_setup workdir uid frag,
    (if truthy_opt (python_version launch_project)
     then
       let spl := firstn 2 (split_sep "." (default "" (python_version launch_project))) in
       let* major := lift (first_item spl) in ret (join "." spl, major)
     else lift (get_current_python_version h)) w
    = (Ok (py_version, py_major), w)
    /\ doc = DOCKERFILE_TEMPLATE (miniconda_image py_major)
               (CONDA_TEMPLATE (conda_prefix (is_buildx_installed h)))
               base user_setup workdir uid frag.
Proof.
  intros Hconda. destruct (opt_eqb_conda_not_pip Hconda) as [Hpip Hnone].
  unfold generate_dockerfile. intros E.
  apply bind_ok_inv in E as ([py_version py_major] & w1 & Hpy & E).
  pose proof (python_version_step_pure _ _ _ _ _ Hpy) as ->.
  apply bind_ok_inv in E as (section & w2 & Hsec & E).
  pose proof (get_requirements_section_conda w Hconda) as Hs.
  rewrite Hsec in Hs. cbn [fst] in Hs. injection Hs as ->.
  apply bind_ok_inv in E as ([username userid] & w3 & _ & E).
  apply bind_ok_inv in E as (frag & w4 & _ & E).
  apply bind_ok_inv in E as (image & w5 & Himage & E).
  injection E as <- _.
  rewrite Hpip, Hconda, bool_decide_false in Himage by exact Hnone.
  cbn [orb read_local ret] in Himage. injection Himage as <- _.
  eauto 12.
Qed.

End CondaAndCuda.

(** X23. For a conda project with a pinned interpreter version the build
    stage of a rendered build file starts from [continuumio/miniconda3]
    exactly when the first piece of the version is [3], and from
    [continuumio/miniconda] otherwise; the stage copies
    [src/environment.yml] and creates the environment from it, with the
    cache mount when buildx is installed and with caching disabled when it
    is not. *)
Theorem generate_dockerfile_conda_stage :
  forall h api launch_project entry_cmd runner_type w doc w' version,
    python_version launch_project = Some version ->
    is_empty version = false ->
    opt_eqb (deps_type launch_project) "conda" = true ->
    generate_dockerfile h api launch_project entry_cmd runner_type w = (Ok doc, w') ->
    has_line ("FROM " ++ miniconda_image (hd "" (split_sep "." version)) ++ " as build") doc
    = true
    /\ has_line "COPY src/environment.yml ." doc = true
    /\ has_line (conda_prefix (is_buildx_installed h)
                 ++ " conda env create -f environment.yml -n env") doc = true.
Proof.
  intros h api lp entry_cmd rt w doc w' version Hv Hne Hconda E.
  apply (generate_dockerfile_conda_inv h lp api entry_cmd rt w doc w' Hconda) in E
    as (py_version & py_major & base & user_setup & workdir & uid & frag & Hpy & ->).
  rewrite (pinned_version_step_exact h lp w version Hv Hne) in Hpy.
  injection Hpy as <- <-. unfold DOCKERFILE_TEMPLATE.
  split; [|split].
  - do 1 apply has_line_tail.
    apply (has_line_item ("FROM " ++ miniconda_image (hd "" (split_sep "." version))
                          ++ " as build")).
  - do 5 apply has_line_tail. apply has_line_inside.
    unfold CONDA_TEMPLATE, has_line. apply contains_app_l.
    apply (has_line_item "COPY src/environment.yml ." "").
  - do 5 apply has_line_tail. apply has_line_inside.
    unfold CONDA_TEMPLATE, has_line. apply contains_app_l.
    apply has_line_tail.
    apply (has_line_item (conda_prefix (is_buildx_installed h)
                          ++ " conda env create -f environment.yml -n env")).
Qed.

Lemma generate_dockerfile_conda_stage_witness :
  let h := Sample.pip_host in
  let lp := Sample.project (Some "conda") in
  let r := generate_dockerfile h Sample.api lp "python train.py" "local"
             Sample.plain_world in
  let doc := match fst r with Ok d => d | Raise _ => "" end in
  (python_version lp = Some "3.8.10"
   /\ is_empty "3.8.10" = false
   /\ opt_eqb (deps_type lp) "conda" = true
   /\ r = (Ok doc, snd r))
  /\ has_line "FROM continuumio/miniconda3:latest as build" doc = true
  /\ has_line "COPY src/environment.yml ." doc = true
  /\ has_line ("RUN --mount=type=cache,mode=0777,target=/opt/conda/pkgs"
               ++ " conda env create -f environment.yml -n env") doc = true.
Proof.
  intros h lp r doc.
  assert (E : r = (Ok doc, snd r)) by (vm_compute; reflexivity).
  split; [split; [reflexivity|split; [reflexivity|split; [reflexivity|exact E]]]|].
  exact (generate_dockerfile_conda_stage h Sample.api lp "python train.py" "local"
           Sample.plain_world doc (snd r) "3.8.10" eq_refl eq_refl eq_refl E).
Defined.

(** X24. For a project with CUDA the base stage of a rendered build file
    starts from [nvidia/cuda:V-runtime], where [V] is the project's
    [cuda_version], or [10.0] when that is missing or empty; and the
    packages installed into it are the Python 2 ones ([python-pip],
    [python-setuptools]) exactly when the interpreter's major version is
    [2]. *)
Theorem generate_dockerfile_cuda_stage :
  forall h api launch_project entry_cmd runner_type w doc w' version,
    python_version launch_project = Some version ->
    is_empty version = false ->
    cuda launch_project = true ->
    generate_dockerfile h api launch_project entry_cmd runner_type w = (Ok doc, w') ->
    let cuda_tag :=
      if truthy_opt (cuda_version launch_project)
      then default "" (cuda_version launch_project)
      else "10.0" in
    let pip := if String.eqb (hd "" (split_sep "." version)) "2"
               then "python-pip" else "python3-pip" in
    let setuptools := if String.eqb (hd "" (split_sep "." version)) "2"
                      then "python-setuptools" else "python3-setuptools" in
    has_line ("FROM nvidia/cuda:" ++ cuda_tag ++ "-runtime as base") doc = true
    /\ contains ("python" ++ major_minor version ++ " " ++ BS ++ NL
                 ++ "libpython" ++ major_minor version ++ " " ++ BS ++ NL
                 ++ pip ++ " " ++ BS ++ NL ++ setuptools) doc = true.
Proof.
  intros h api lp entry_cmd rt w doc w' version Hv Hne Hcuda E cv pip setuptools.
  apply generate_dockerfile_ok_inv in E
    as (py_version & py_major & image & section & frag & Hpy & _ & _ & ->).
  rewrite (pinned_version_step_exact h lp w version Hv Hne) in Hpy.
  injection Hpy as <- <-.
  unfold DOCKERFILE_TEMPLATE, get_base_setup. rewrite Hcuda. fold cv.
  split.
  - do 8 apply has_line_tail. apply has_line_inside.
    unfold CUDA_SETUP_TEMPLATE, has_line. apply contains_app_l.
    rewrite (str_app_assoc "nvidia/cuda:"), (str_app_assoc _ "-runtime" " as base").
    apply (has_line_item ("FROM nvidia/cuda:" ++ cv ++ "-runtime as base") "").
  - do 8 apply contains_unlines_tail. rewrite unlines_cons. apply contains_app_l.
    unfold CUDA_SETUP_TEMPLATE.
    do 5 apply contains_unlines_tail. rewrite unlines_cons. apply contains_app_l.
    apply contains_app_r, contains_app_l.
    subst pip setuptools.
    destruct (String.eqb (hd "" (split_sep "." version)) "2");
      unfold join; cbn [String.concat]; rewrite ?str_app_assoc; apply contains_self.
Qed.

Lemma generate_dockerfile_cuda_stage_witness :
  let h := Sample.pip_host in
  let lp :=
    {| project_dir := "/proj"; python_version := Some "2.7.18"; deps_type := Some "pip";
       docker_image := None; docker_user_id := None; cuda := true;
       cuda_version := Some EmptyString; run_id := "run1";
       image_name := None; target_project := "p"; target_entity := "e";
       override_config := JObj []; override_artifacts := JObj [];
       override_args := [] |} in
  let r := generate_dockerfile h Sample.api lp "python train.py" "local"
             Sample.plain_world in
  let doc := match fst r with Ok d => d | Raise _ => "" end in
  (python_version lp = Some "2.7.18"
   /\ is_empty "2.7.18" = false
   /\ cuda lp = true
   /\ r = (Ok doc, snd r))
  /\ has_line "FROM nvidia/cuda:10.0-runtime as base" doc = true
  /\ contains ("python2.7 " ++ BS ++ NL ++ "libpython2.7 " ++ BS ++ NL
               ++ "python-pip " ++ BS ++ NL ++ "python-setuptools") doc = true.
Proof.
  intros h lp r doc.
  assert (E : r = (Ok doc, snd r)) by (vm_compute; reflexivity).
  split; [split; [reflexivity|split; [reflexivity|split; [reflexivity|exact E]]]|].
  exact (generate_dockerfile_cuda_stage h Sample.api lp "python train.py" "local"
           Sample.plain_world doc (snd r) "2.7.18" eq_refl eq_refl eq_refl E).
Defined.
